(** * mpv GPU output glue: Vulkan display selection, CUDA and VA-API interop

    A shallow embedding of the driver-facing adapters of
    [video/out/vulkan/context_display.c] (both revisions found in the
    sources: the option parser and [display_wait_events] of the first, the
    walk over the displays, [display_init] and [display_uninit] of the
    second, with [mpvk_init], [mpvk_uninit] and [mppl_ctx_create]), of the
    CUDA interop ([cuda_init], [cuda_ebuf_init], [cuda_ebuf_uninit] and the
    mapper) and of the VA-API interop ([init], [mapper_init], [mapper_map],
    [mapper_unmap]).

    Conventions shared by all modules:
    - a C [int] is a [Z]; where the source performs signed arithmetic that
      can overflow, the overflow is an undefined outcome;
    - a pointer is an [option]: [None] is the null pointer;
    - a call into a vendor library (Vulkan, CUDA, VA-API, libplacebo,
      libavutil) is answered by an environment, so that every theorem
      quantifies over all the answers the library can give;
    - [goto]-based cleanup is written as the straight-line code it stands
      for. *)

From Stdlib Require Import ZArith List String Ascii Bool Lia Permutation.
Import ListNotations.

Local Open Scope Z_scope.

(** ** Outcomes and the state monad of the embedding *)

(** What running a piece of C yields: a value, or behaviour the C standard
    leaves undefined (a null or uninitialised pointer read, an access out of
    bounds, a signed overflow, a division by zero). *)
Inductive outcome (A : Type) : Type :=
| Ret (a : A)
| Undefined.

Arguments Ret {A} a.
Arguments Undefined {A}.

Definition obind {A B : Type} (o : outcome A) (k : A -> outcome B) : outcome B :=
  match o with
  | Ret a => k a
  | Undefined => Undefined
  end.

(** Stateful code: a function from the state before to the outcome and the
    state after. *)
Definition M (S A : Type) : Type := S -> outcome (A * S).

Definition ret {S A : Type} (a : A) : M S A := fun s => Ret (a, s).

Definition bind {S A B : Type} (m : M S A) (k : A -> M S B) : M S B :=
  fun s => match m s with
           | Ret (a, s') => k a s'
           | Undefined => Undefined
           end.

Definition undefined {S A : Type} : M S A := fun _ => Undefined.

Definition get {S : Type} : M S S := fun s => Ret (s, s).

Definition modify {S : Type} (f : S -> S) : M S unit := fun s => Ret (tt, f s).

Declare Scope cmonad_scope.
Delimit Scope cmonad_scope with cmonad.

Notation "x <- m ;; k" := (bind m (fun x => k))
  (at level 100, m at next level, right associativity) : cmonad_scope.
Notation "m ;;; k" := (bind m (fun _ => k))
  (at level 100, right associativity) : cmonad_scope.

(** The range of a C [int] (32 bits) and of a C [long] (64 bits). *)
Definition INT_MAX : Z := 2147483647.
Definition LONG_MAX : Z := 9223372036854775807.
Definition LONG_MIN : Z := -9223372036854775808.

(** Conversion of a [long] to an [int]: the low 32 bits, read as signed. *)
Definition int_of_long (x : Z) : Z :=
  let m := x mod 4294967296 in
  if m <=? INT_MAX then m else m - 4294967296.

(** Lookup in an array by a C index; a negative index is out of bounds. *)
Definition zlookup {A : Type} (l : list A) (i : Z) : option A :=
  if i <? 0 then None else nth_error l (Z.to_nat i).

(** Replace the element at position [n]; nothing changes out of range (the
    callers check the range first). *)
Fixpoint list_set {A : Type} (l : list A) (n : nat) (a : A) : list A :=
  match l, n with
  | [], _ => []
  | _ :: t, O => a :: t
  | h :: t, S n' => h :: list_set t n' a
  end.

(** ** [context_display.c], first revision: the [vulkan-display-spec] option *)

Module DisplaySpec.

Local Open Scope string_scope.

(** *** C strings

    A C string is given by its content; the buffer holds the content followed
    by the terminating NUL.  A [char *] into the buffer is an offset, and the
    null pointer is [None]. *)

Definition ptr : Type := option nat.

Definition NUL : ascii := Ascii.zero.

Definition colon : ascii := ":"%char.

(** [bstrto0]: the NUL-terminated copy of a [bstr].  The C string ends at the
    first NUL byte of the copy. *)
Fixpoint bstrto0 (param : string) : string :=
  match param with
  | EmptyString => EmptyString
  | String c t => if Ascii.eqb c NUL then EmptyString else String c (bstrto0 t)
  end.

(** The byte at offset [i] of the buffer of [buf]: a byte of the content, the
    terminator right after it, or nothing beyond. *)
Definition byte_at (buf : string) (i : nat) : option ascii :=
  match String.get i buf with
  | Some c => Some c
  | None => if Nat.eqb i (String.length buf) then Some NUL else None
  end.

(** [*p]: reading through a null pointer or outside the buffer is undefined. *)
Definition deref (buf : string) (p : ptr) : outcome ascii :=
  match p with
  | None => Undefined
  | Some i => match byte_at buf i with
              | Some c => Ret c
              | None => Undefined
              end
  end.

(** [p + 1]; arithmetic on the null pointer does not give a valid pointer. *)
Definition ptr_succ (p : ptr) : ptr := option_map S p.

(** The C string that starts at offset [i]. *)
Fixpoint str_from (buf : string) (i : nat) : string :=
  match i, buf with
  | O, _ => bstrto0 buf
  | S i', String _ t => str_from t i'
  | S _, EmptyString => EmptyString
  end.

(** [strchr] on a C string, as the index of the first occurrence of [c]. *)
Fixpoint index_of (c : ascii) (s : string) : option nat :=
  match s with
  | EmptyString => None
  | String a t =>
      if Ascii.eqb a NUL then None
      else if Ascii.eqb a c then Some O
      else option_map S (index_of c t)
  end.

(** [strchr(buf + from, c)] as a pointer into the buffer of [buf]. *)
Definition strchr (buf : string) (from : nat) (c : ascii) : ptr :=
  option_map (fun i => (from + i)%nat) (index_of c (str_from buf from)).

(** *** [atoi]

    The C library's [atoi]: optional white space, an optional sign, decimal
    digits; whatever follows is ignored and no digits give 0.  A value out of
    the range of [long] saturates ([strtol]) and is then cut to an [int]. *)

Definition isspace (c : ascii) : bool :=
  match nat_of_ascii c with
  | 32%nat | 9%nat | 10%nat | 11%nat | 12%nat | 13%nat => true
  | _ => false
  end.

Definition digit_val (c : ascii) : option Z :=
  let n := nat_of_ascii c in
  if ((48 <=? n)%nat && (n <=? 57)%nat)%bool then Some (Z.of_nat (n - 48)) else None.

Fixpoint skip_space (s : string) : string :=
  match s with
  | String c t => if isspace c then skip_space t else s
  | EmptyString => s
  end.

Fixpoint digits (s : string) (acc : Z) : Z :=
  match s with
  | String c t => match digit_val c with
                  | Some d => digits t (10 * acc + d)
                  | None => acc
                  end
  | EmptyString => acc
  end.

Definition strtol10 (s : string) : Z :=
  let v := match skip_space s with
           | String "-"%char t => - digits t 0
           | String "+"%char t => digits t 0
           | s' => digits s' 0
           end in
  Z.max LONG_MIN (Z.min LONG_MAX v).

Definition atoi (s : string) : Z := int_of_long (strtol10 s).

(** *** [parse_display_spec]

    The out-parameters [display], [mode] and [plane] are returned next to the
    result; a caller that passes null pointers for them drops the values.  The
    debug message is not modelled. *)
Definition parse_display_spec (display_spec : option string)
  : outcome (bool * (Z * Z * Z)) :=
  match display_spec with
  | None => Ret (false, (0, 0, 0))
  | Some buf =>
      let mode_ptr := strchr buf 0 colon in
      match mode_ptr with
      | Some m =>
          let parsed_display := atoi (str_from buf 0) in
          let plane_ptr := strchr buf (S m) colon in
          let parsed_mode :=
            match plane_ptr with
            | Some _ => atoi (str_from buf (S m))
            | None => 0
            end in
          obind (deref buf (ptr_succ plane_ptr)) (fun c =>
            let parsed_plane :=
              if negb (Ascii.eqb c NUL)
              then match ptr_succ plane_ptr with
                   | Some q => atoi (str_from buf q)
                   | None => 0
                   end
              else 0 in
            Ret (true, (parsed_display, parsed_mode, parsed_plane)))
      | None => Ret (false, (0, 0, 0))
      end
  end.

(** *** [display_validate_spec] *)

(** Return values of option validators.  [options/m_option.h] is not among
    the sources; the values are those of mpv's header. *)
Definition M_OPT_INVALID : Z := -3.
Definition M_OPT_EXIT : Z := -6.

(** What the validator does besides returning. *)
Inductive effect : Type :=
| Print_display_info   (* the call of print_display_info(log) *)
| Fatal_invalid_value. (* the mp_fatal message "Invalid value for option ..." *)

(** [bstr_equals0(param, "help")]: equal as byte strings, lengths included. *)
Definition bstr_equals0 (param : string) (s : string) : bool := String.eqb param s.

Definition display_validate_spec (param : string) : outcome (list effect * Z) :=
  if bstr_equals0 param "help" then Ret ([Print_display_info], M_OPT_EXIT)
  else
    let spec := bstrto0 param in
    obind (parse_display_spec (Some spec)) (fun r =>
      if negb (fst r) then Ret ([Fatal_invalid_value], M_OPT_INVALID)
      else Ret ([], 1)).

(** *** The form 'D:M:P' of the documentation *)

(** The fields of a string between its ':' separators. *)
Fixpoint fields_aux (s : string) (cur : string) : list string :=
  match s with
  | EmptyString => [cur]
  | String c t =>
      if Ascii.eqb c colon then cur :: fields_aux t EmptyString
      else fields_aux t (cur ++ String c EmptyString)
  end.

Definition fields (s : string) : list string := fields_aux s EmptyString.

Fixpoint all_digits (s : string) : bool :=
  match s with
  | EmptyString => true
  | String c t => match digit_val c with
                  | Some _ => all_digits t
                  | None => false
                  end
  end.

(** An index: one or more decimal digits. *)
Definition is_index (s : string) : bool :=
  (negb (String.eqb s EmptyString) && all_digits s)%bool.

(** 'D:M:P' with D, M and P indices. *)
Definition is_DMP (s : string) : bool :=
  match fields s with
  | [d; m; p] => (is_index d && is_index m && is_index p)%bool
  | _ => false
  end.

(** The number of ':' in a C string. *)
Fixpoint count_colons (s : string) : nat :=
  match s with
  | EmptyString => O
  | String c t =>
      if Ascii.eqb c NUL then O
      else if Ascii.eqb c colon then S (count_colons t)
      else count_colons t
  end.

(** The statement of the documentation for one parameter: 'help' prints and
    exits, a string of the form 'D:M:P' is accepted, every other string is
    rejected as invalid. *)
Definition accepts_exactly_DMP (param : string) : Prop :=
  (param = "help" ->
   display_validate_spec param = Ret ([Print_display_info], M_OPT_EXIT)) /\
  (param <> "help" -> is_DMP param = true ->
   display_validate_spec param = Ret ([], 1)) /\
  (param <> "help" -> is_DMP param = false ->
   display_validate_spec param = Ret ([Fatal_invalid_value], M_OPT_INVALID)).

(** Every read of [parse_display_spec] stays inside the string. *)
Definition reads_inside_string (display_spec : string) : Prop :=
  parse_display_spec (Some display_spec) <> Undefined.

(** *** Decimal numerals

    A numeral is the list of its decimal digits, most significant first. *)

Definition digit_char (d : nat) : ascii := ascii_of_nat (48 + d).

Fixpoint render (ds : list nat) : string :=
  match ds with
  | [] => EmptyString
  | d :: t => String (digit_char d) (render t)
  end.

Fixpoint value_from (ds : list nat) (acc : Z) : Z :=
  match ds with
  | [] => acc
  | d :: t => value_from t (10 * acc + Z.of_nat d)
  end.

Definition value (ds : list nat) : Z := value_from ds 0.

Definition is_numeral (ds : list nat) : Prop := Forall (fun d => (d < 10)%nat) ds.

(** A field without separator and without NUL. *)
Fixpoint plain (s : string) : bool :=
  match s with
  | EmptyString => true
  | String c t => (negb (Ascii.eqb c colon) && negb (Ascii.eqb c NUL) && plain t)%bool
  end.

End DisplaySpec.

(** ** [context_display.c], first revision: [display_wait_events] *)

Module DisplayEvents.

(** The range of [int64_t]. *)
Definition INT64_MAX : Z := 9223372036854775807.
Definition INT64_MIN : Z := -9223372036854775808.

(** [a - b] and [a + b] on [int64_t]. *)
Definition sub64 (a b : Z) : outcome Z :=
  if (INT64_MIN <=? a - b) && (a - b <=? INT64_MAX) then Ret (a - b) else Undefined.

Definition add64 (a b : Z) : outcome Z :=
  if (INT64_MIN <=? a + b) && (a + b <=? INT64_MAX) then Ret (a + b) else Undefined.

(** [MPCLAMP(a, min, max)] of common/common.h. *)
Definition MPCLAMP (a lo hi : Z) : Z :=
  if a <? lo then lo else if a >? hi then hi else a.

(** What [display_wait_events] ends in. *)
Inductive wait : Type :=
| Vt_switcher_poll (timeout_ms : Z)
| Vo_wait_default (until_time_us : Z).

(** [display_wait_events]; [now] is what [mp_time_us()] returns. *)
Definition display_wait_events (vt_switcher_active : bool)
  (until_time_us now : Z) : outcome wait :=
  if vt_switcher_active then
    obind (sub64 until_time_us now) (fun wait_us =>
    obind (add64 wait_us 500) (fun sum =>
    Ret (Vt_switcher_poll (MPCLAMP (Z.quot sum 1000) 0 10000))))
  else Ret (Vo_wait_default until_time_us).

End DisplayEvents.

(** ** [context_display.c], second revision: walking displays, modes and planes *)

Module DisplayWalk.

(** *** What the Vulkan driver reports for a physical device *)

(** [VkResult]; [VK_SUCCESS] is 0 (vulkan_core.h). *)
Definition VkResult : Type := Z.
Definition VK_SUCCESS : VkResult := 0.

(** A [VkDisplayKHR] handle; 0 is [VK_NULL_HANDLE]. *)
Definition VkDisplayKHR : Type := Z.

Record VkDisplayModePropertiesKHR : Type := {
  displayMode : Z;
  visibleRegion_width : Z;
  visibleRegion_height : Z;
  refreshRate : Z
}.

(** A display as [vkGetPhysicalDeviceDisplayPropertiesKHR] describes it, with
    what [vkGetDisplayModePropertiesKHR] answers for it: the modes (their
    number is the count of the first call) and the result of the second call. *)
Record display_info : Type := {
  display : VkDisplayKHR;
  displayName : string;
  physicalResolution : Z * Z;
  modes : list VkDisplayModePropertiesKHR;
  modes_res : VkResult
}.

(** What [vkGetDisplayPlaneSupportedDisplaysKHR] answers for a plane. *)
Record plane_info : Type := {
  supported_displays : list VkDisplayKHR;
  supported_displays_res : VkResult
}.

Record VkPhysicalDevice : Type := {
  displays : list display_info;
  displays_res : VkResult;   (* vkGetPhysicalDeviceDisplayPropertiesKHR, second call *)
  planes : list plane_info;
  planes_res : VkResult      (* vkGetPhysicalDeviceDisplayPlanePropertiesKHR, second call *)
}.

(** *** [struct mode_selector] *)

Record mode_selector : Type := {
  display_idx : Z;
  mode_idx : Z;
  plane_idx : Z;
  out_mode_props : option VkDisplayModePropertiesKHR
}.

Definition set_out_mode_props (s : mode_selector) (m : VkDisplayModePropertiesKHR)
  : mode_selector :=
  {| display_idx := display_idx s; mode_idx := mode_idx s;
     plane_idx := plane_idx s; out_mode_props := Some m |}.

(** The selector [display_init] builds: the designated initialiser leaves
    [out_mode_props] null. *)
Definition new_selector (d m p : Z) : mode_selector :=
  {| display_idx := d; mode_idx := m; plane_idx := p; out_mode_props := None |}.

(** *** [walk_display_properties] *)

(** [i + 1] on [int]. *)
Definition int_succ (i : Z) : outcome Z :=
  if i =? INT_MAX then Undefined else Ret (i + 1).

(** [selector && selector->X_idx + 1 > num], [idx] being the selector's index
    when there is a selector. *)
Definition not_present (idx : option Z) (num : Z) : outcome bool :=
  match idx with
  | None => Ret false
  | Some i => obind (int_succ i) (fun i1 => Ret (num <? i1))
  end.

(** The entry of [planes_to_displays] for a plane.  The array comes from
    [talloc_array], which does not clear it: an entry that the loop skips
    ([None]) stays uninitialised.  An entry that is set points to a zeroed
    array with one more element than the plane has displays. *)
Definition plane_displays (p : plane_info) : option (list VkDisplayKHR) :=
  if Z.of_nat (List.length (supported_displays p)) =? 0 then None
  else if negb (supported_displays_res p =? VK_SUCCESS) then None
  else Some (supported_displays p ++ [0]).

(** [for (int d = 0; displays[d]; d++)] over one plane's array. *)
Fixpoint scan_displays (arr : list VkDisplayKHR) (disp : VkDisplayKHR)
  (sel_plane : option Z) (k : Z) (found_plane : Z) : outcome Z :=
  match arr with
  | [] => Undefined
  | h :: t =>
      if h =? 0 then Ret found_plane
      else if h =? disp then
        match sel_plane with
        | Some pi =>
            if negb (pi =? k) then scan_displays t disp sel_plane k found_plane
            else scan_displays t disp sel_plane k k
        | None => scan_displays t disp sel_plane k k
        end
      else scan_displays t disp sel_plane k found_plane
  end.

(** [for (int k = 0; k < num_planes; k++)], from plane [k] on. *)
Fixpoint find_plane (planes_to_displays : list (option (list VkDisplayKHR)))
  (disp : VkDisplayKHR) (sel_plane : option Z) (k : Z) (found_plane : Z) : outcome Z :=
  match planes_to_displays with
  | [] => Ret found_plane
  | None :: _ => Undefined
  | Some arr :: t =>
      obind (scan_displays arr disp sel_plane k found_plane) (fun f =>
        find_plane t disp sel_plane (k + 1) f)
  end.

(** [for (int k = 0; k < num_modes; k++)], from mode [k] on: with a selector,
    the selected mode is duplicated into [out_mode_props]. *)
Fixpoint select_mode (ms : list VkDisplayModePropertiesKHR) (k : Z)
  (selector : option mode_selector) : option mode_selector :=
  match ms with
  | [] => selector
  | m :: t =>
      select_mode t (k + 1)
        (match selector with
         | Some s => if negb (mode_idx s =? k) then selector
                     else Some (set_out_mode_props s m)
         | None => None
         end)
  end.

(** How the body of the display loop ends. *)
Inductive ctl : Type :=
| Continue    (* [continue], or the end of the body *)
| Goto_done.  (* [goto done] with [ret] still false *)

(** The body of the display loop for a display that is not skipped. *)
Definition walk_display (planes_to_displays : list (option (list VkDisplayKHR)))
  (selector : option mode_selector) (d : display_info)
  : outcome (ctl * option mode_selector) :=
  let num_modes := Z.of_nat (List.length (modes d)) in
  if num_modes =? 0 then Ret (Continue, selector)
  else
    obind (not_present (option_map mode_idx selector) num_modes) (fun absent =>
      if absent then Ret (Goto_done, selector)
      else if negb (modes_res d =? VK_SUCCESS) then Ret (Continue, selector)
      else
        let selector' := select_mode (modes d) 0 selector in
        obind (find_plane planes_to_displays (display d)
                 (option_map plane_idx selector') 0 (-1)) (fun found_plane =>
          match selector' with
          | Some s =>
              if negb (plane_idx s =? found_plane) then Ret (Goto_done, selector')
              else Ret (Continue, selector')
          | None => Ret (Continue, selector')
          end)).

(** [for (int j = 0; j < num_displays; j++)], from display [j] on; falling
    out of the loop sets [ret = true]. *)
Fixpoint walk_displays (planes_to_displays : list (option (list VkDisplayKHR)))
  (ds : list display_info) (j : Z) (selector : option mode_selector)
  : outcome (bool * option mode_selector) :=
  match ds with
  | [] => Ret (true, selector)
  | d :: t =>
      if match selector with
         | Some s => negb (display_idx s =? j)
         | None => false
         end
      then walk_displays planes_to_displays t (j + 1) selector
      else
        obind (walk_display planes_to_displays selector d) (fun r =>
          match fst r with
          | Continue => walk_displays planes_to_displays t (j + 1) (snd r)
          | Goto_done => Ret (false, snd r)
          end)
  end.

(** [walk_display_properties(log, msgl_err, device, selector)]: the result and
    the selector after the call.  The messages are not modelled. *)
Definition walk_display_properties (device : VkPhysicalDevice)
  (selector : option mode_selector) : outcome (bool * option mode_selector) :=
  let num_displays := Z.of_nat (List.length (displays device)) in
  if num_displays =? 0 then Ret (false, selector)
  else
    obind (not_present (option_map display_idx selector) num_displays) (fun absent =>
      if absent then Ret (false, selector)
      else
        let num_planes := Z.of_nat (List.length (planes device)) in
        if num_planes =? 0 then Ret (false, selector)
        else
          obind (not_present (option_map plane_idx selector) num_planes) (fun absent' =>
            if absent' then Ret (false, selector)
            else if negb (planes_res device =? VK_SUCCESS) then Ret (false, selector)
            else
              let planes_to_displays := map plane_displays (planes device) in
              if negb (displays_res device =? VK_SUCCESS) then Ret (false, selector)
              else walk_displays planes_to_displays (displays device) 0 selector)).

(** *** The selection the documentation calls valid *)

Definition lists_display (p : plane_info) (disp : VkDisplayKHR) : bool :=
  existsb (Z.eqb disp) (supported_displays p).

(** The display index is below the number of displays, the mode index below
    the number of modes of that display, the plane index below the number of
    planes, and that plane lists the display. *)
Definition selection_valid (device : VkPhysicalDevice) (s : mode_selector) : bool :=
  (display_idx s <? Z.of_nat (List.length (displays device))) &&
  match zlookup (displays device) (display_idx s) with
  | Some d =>
      (mode_idx s <? Z.of_nat (List.length (modes d))) &&
      (plane_idx s <? Z.of_nat (List.length (planes device))) &&
      match zlookup (planes device) (plane_idx s) with
      | Some p => lists_display p (display d)
      | None => false
      end
  | None => false
  end.

(** The mode the selector names. *)
Definition selected_mode (device : VkPhysicalDevice) (s : mode_selector)
  : option VkDisplayModePropertiesKHR :=
  match zlookup (displays device) (display_idx s) with
  | Some d => zlookup (modes d) (mode_idx s)
  | None => None
  end.

(** The statement of the documentation for one device and one selector. *)
Definition returns_true_iff_valid (device : VkPhysicalDevice) (s : mode_selector) : Prop :=
  exists r s',
    walk_display_properties device (Some s) = Ret (r, Some s') /\
    (r = true <-> selection_valid device s = true) /\
    (r = true -> exists m, selected_mode device s = Some m /\ out_mode_props s' = Some m).

(** *** Devices on which the walk is meant to work *)

(** Every enumeration call of the driver succeeds. *)
Definition enumeration_succeeds (device : VkPhysicalDevice) : Prop :=
  planes_res device = VK_SUCCESS /\
  displays_res device = VK_SUCCESS /\
  Forall (fun p => supported_displays_res p = VK_SUCCESS) (planes device) /\
  Forall (fun d => modes_res d = VK_SUCCESS) (displays device).

(** Every plane supports at least one display, and no handle is null. *)
Definition planes_populated (device : VkPhysicalDevice) : Prop :=
  Forall (fun p => supported_displays p <> [] /\
                   Forall (fun h => h <> 0) (supported_displays p)) (planes device).

(** A plane whose array in [planes_to_displays] is set and well-formed. *)
Definition plane_ok (p : plane_info) : Prop :=
  supported_displays_res p = VK_SUCCESS /\
  supported_displays p <> [] /\
  Forall (fun h => h <> 0) (supported_displays p).

(** Every display has at least one mode. *)
Definition displays_have_modes (device : VkPhysicalDevice) : Prop :=
  Forall (fun d => modes d <> []) (displays device).

(** An index an option can hold that the walk can increment. *)
Definition index_ok (i : Z) : Prop := 0 <= i < INT_MAX.

(** *** Sample devices *)

Definition mode_1080p60 : VkDisplayModePropertiesKHR :=
  {| displayMode := 7; visibleRegion_width := 1920; visibleRegion_height := 1080;
     refreshRate := 60000 |}.

Definition mode_720p50 : VkDisplayModePropertiesKHR :=
  {| displayMode := 8; visibleRegion_width := 1280; visibleRegion_height := 720;
     refreshRate := 50000 |}.

Definition monitor : display_info :=
  {| display := 41; displayName := "HDMI-A-1"; physicalResolution := (600, 340);
     modes := [mode_1080p60; mode_720p50]; modes_res := VK_SUCCESS |}.

(** One monitor with two modes and two planes, the second of which cannot
    scan out to the monitor. *)
Definition sample_device : VkPhysicalDevice :=
  {| displays := [monitor]; displays_res := VK_SUCCESS;
     planes := [ {| supported_displays := [41]; supported_displays_res := VK_SUCCESS |};
                 {| supported_displays := [42]; supported_displays_res := VK_SUCCESS |} ];
     planes_res := VK_SUCCESS |}.

(** The same device when the driver fails to enumerate the planes
    ([VK_ERROR_OUT_OF_HOST_MEMORY] is -1). *)
Definition failing_device : VkPhysicalDevice :=
  {| displays := displays sample_device; displays_res := VK_SUCCESS;
     planes := planes sample_device; planes_res := -1 |}.

(** The array of a plane in [planes_to_displays] is set. *)
Definition plane_array_set (p : plane_info) : Prop :=
  supported_displays p <> [] /\ supported_displays_res p = VK_SUCCESS.

(** The checks of the display and plane counts and of the two enumerations
    that come before the display loop let the selector through. *)
Definition reaches_display_loop (device : VkPhysicalDevice) (s : mode_selector) : Prop :=
  displays device <> [] /\
  display_idx s < Z.of_nat (List.length (displays device)) /\
  display_idx s <> INT_MAX /\
  index_ok (plane_idx s) /\
  plane_idx s < Z.of_nat (List.length (planes device)) /\
  planes_res device = VK_SUCCESS /\
  displays_res device = VK_SUCCESS.

(** A device whose monitor reports no modes. *)
Definition modeless_device : VkPhysicalDevice :=
  {| displays := [ {| display := 41; displayName := "HDMI-A-1";
                      physicalResolution := (600, 340);
                      modes := []; modes_res := VK_SUCCESS |} ];
     displays_res := VK_SUCCESS;
     planes := planes sample_device; planes_res := VK_SUCCESS |}.

(** A device with a plane that supports no display. *)
Definition idle_plane_device : VkPhysicalDevice :=
  {| displays := [monitor]; displays_res := VK_SUCCESS;
     planes := [ {| supported_displays := [41]; supported_displays_res := VK_SUCCESS |};
                 {| supported_displays := []; supported_displays_res := VK_SUCCESS |} ];
     planes_res := VK_SUCCESS |}.

End DisplayWalk.

(** ** [placebo/utils.c]: the log levels of libplacebo and of mpv *)

Module PlaceboLog.

(** [enum pl_log_level] of libplacebo. *)
Definition PL_LOG_NONE : Z := 0.
Definition PL_LOG_FATAL : Z := 1.
Definition PL_LOG_ERR : Z := 2.
Definition PL_LOG_WARN : Z := 3.
Definition PL_LOG_INFO : Z := 4.
Definition PL_LOG_DEBUG : Z := 5.
Definition PL_LOG_TRACE : Z := 6.
Definition PL_LOG_ALL : Z := PL_LOG_TRACE.

(** The message levels of mpv (common/msg.h). *)
Definition MSGL_FATAL : Z := 0.
Definition MSGL_ERR : Z := 1.
Definition MSGL_WARN : Z := 2.
Definition MSGL_INFO : Z := 3.
Definition MSGL_STATUS : Z := 4.
Definition MSGL_V : Z := 5.
Definition MSGL_DEBUG : Z := 6.
Definition MSGL_TRACE : Z := 7.
Definition MSGL_STATS : Z := 8.
Definition MSGL_MAX : Z := MSGL_STATS.

(** [pl_log_to_msg_lev[PL_LOG_ALL+1]]: the entry of [PL_LOG_NONE] has no
    initialiser and is 0. *)
Definition pl_log_to_msg_lev : list Z :=
  [0; MSGL_FATAL; MSGL_ERR; MSGL_WARN; MSGL_V; MSGL_DEBUG; MSGL_TRACE].

(** [msg_lev_to_pl_log[MSGL_MAX+1]]. *)
Definition msg_lev_to_pl_log : list Z :=
  [PL_LOG_FATAL; PL_LOG_ERR; PL_LOG_WARN; PL_LOG_WARN; PL_LOG_WARN;
   PL_LOG_INFO; PL_LOG_DEBUG; PL_LOG_TRACE; PL_LOG_ALL].

(** [log_cb]: the level at which a message of libplacebo is passed to
    [mp_msg]; [None] when the index is outside the table. *)
Definition log_cb (level : Z) : option Z := zlookup pl_log_to_msg_lev level.

(** The [log_level] that [mppl_ctx_create] asks of libplacebo when
    [mp_msg_level] is [msg_level]. *)
Definition requested_level (msg_level : Z) : option Z :=
  zlookup msg_lev_to_pl_log msg_level.

(** mpv shows a message of level [m] when its log level is [msg_level];
    libplacebo emits a message of level [l] when it was asked for
    [log_level]. *)
Definition shown (msg_level m : Z) : bool := m <=? msg_level.
Definition emitted (log_level l : Z) : bool := l <=? log_level.

End PlaceboLog.

(** ** [context_display.c], second revision, with [vulkan/utils.c] and
    [mppl_ctx_create]: [display_init] and [display_uninit] *)

Module DisplayInit.

Import DisplayWalk.

(** *** Calls that leave these files *)

Inductive call : Type :=
| Mp_log_new
| Mp_msg_level (log : Z)
| Pl_context_create (log_level : Z)
| Talloc_free_log (log : Z)
| Pl_vk_inst_create (ctx : Z)
| Pl_vulkan_choose_device (ctx instance : Z)
| VkCreateDisplayPlaneSurfaceKHR (instance displayMode width height planeIndex : Z)
| Ra_vk_ctx_init
| Ra_vk_ctx_uninit
| Ra_vk_ctx_resize (width height : Z)
| VkDestroySurfaceKHR (instance surface : Z)
| Pl_vk_inst_destroy (vkinst : Z)
| Pl_context_destroy (ctx : Z).

Record answer : Type := {
  res : Z;
  out1 : Z
}.

(** The world outside: the answers of the libraries, and what the Vulkan
    driver reports for a physical device. *)
Record environment : Type := {
  answers : list call -> call -> answer;
  describe : Z -> VkPhysicalDevice
}.

(** [struct vulkan_display_opts]. *)
Record vulkan_display_opts : Type := {
  opt_display : Z;
  opt_mode : Z;
  opt_plane : Z
}.

(** *** State *)

(** The objects this code creates and has to destroy. *)
Inductive object : Type :=
| Context (h : Z)
| Instance (h : Z)
| Surface (h : Z).

Definition same_object (a b : object) : bool :=
  match a, b with
  | Context x, Context y => x =? y
  | Instance x, Instance y => x =? y
  | Surface x, Surface y => x =? y
  | _, _ => false
  end.

(** [struct priv] with its [struct mpvk_ctx], the objects that are alive,
    the copies of mode properties made with [talloc_dup] and not freed, and
    the calls made. *)
Record state : Type := {
  trace : list call;
  live : list object;
  mode_copies : list VkDisplayModePropertiesKHR;
  vk_ctx : Z;
  vk_vkinst : Z;
  vk_surface : Z;
  width : Z;
  height : Z
}.

Definition log_call (c : call) (s : state) : state :=
  {| trace := c :: trace s; live := live s; mode_copies := mode_copies s;
     vk_ctx := vk_ctx s; vk_vkinst := vk_vkinst s; vk_surface := vk_surface s;
     width := width s; height := height s |}.
Definition set_live (l : list object) (s : state) : state :=
  {| trace := trace s; live := l; mode_copies := mode_copies s;
     vk_ctx := vk_ctx s; vk_vkinst := vk_vkinst s; vk_surface := vk_surface s;
     width := width s; height := height s |}.
Definition set_mode_copies (l : list VkDisplayModePropertiesKHR) (s : state) : state :=
  {| trace := trace s; live := live s; mode_copies := l;
     vk_ctx := vk_ctx s; vk_vkinst := vk_vkinst s; vk_surface := vk_surface s;
     width := width s; height := height s |}.
Definition set_vk_ctx (h : Z) (s : state) : state :=
  {| trace := trace s; live := live s; mode_copies := mode_copies s;
     vk_ctx := h; vk_vkinst := vk_vkinst s; vk_surface := vk_surface s;
     width := width s; height := height s |}.
Definition set_vk_vkinst (h : Z) (s : state) : state :=
  {| trace := trace s; live := live s; mode_copies := mode_copies s;
     vk_ctx := vk_ctx s; vk_vkinst := h; vk_surface := vk_surface s;
     width := width s; height := height s |}.
Definition set_vk_surface (h : Z) (s : state) : state :=
  {| trace := trace s; live := live s; mode_copies := mode_copies s;
     vk_ctx := vk_ctx s; vk_vkinst := vk_vkinst s; vk_surface := h;
     width := width s; height := height s |}.
Definition set_size (w h : Z) (s : state) : state :=
  {| trace := trace s; live := live s; mode_copies := mode_copies s;
     vk_ctx := vk_ctx s; vk_vkinst := vk_vkinst s; vk_surface := vk_surface s;
     width := w; height := h |}.

(** [talloc_zero(ctx, struct priv)]. *)
Definition zero_priv (s : state) : state :=
  {| trace := trace s; live := live s; mode_copies := mode_copies s;
     vk_ctx := 0; vk_vkinst := 0; vk_surface := 0; width := 0; height := 0 |}.

Fixpoint remove_object (o : object) (l : list object) : list object :=
  match l with
  | [] => []
  | x :: t => if same_object x o then t else x :: remove_object o t
  end.

(** An object comes alive; a destroy function is handed a pointer, and does
    nothing for a null one. *)
Definition created (o : object) (s : state) : state := set_live (o :: live s) s.

Definition handle_of (o : object) : Z :=
  match o with
  | Context h | Instance h | Surface h => h
  end.

Definition destroyed (o : object) (s : state) : state :=
  if handle_of o =? 0 then s else set_live (remove_object o (live s)) s.

Fixpoint remove_copy (m : VkDisplayModePropertiesKHR)
  (l : list VkDisplayModePropertiesKHR) : list VkDisplayModePropertiesKHR :=
  match l with
  | [] => []
  | x :: t =>
      if (displayMode x =? displayMode m) && (visibleRegion_width x =? visibleRegion_width m)
         && (visibleRegion_height x =? visibleRegion_height m)
         && (refreshRate x =? refreshRate m)
      then t else x :: remove_copy m t
  end.

(** *** Runs that return, abort or crash *)

(** What running a piece of this code yields: a value and the state after
    it, a failed [assert], or behaviour the C standard leaves undefined. *)
Inductive run (A : Type) : Type :=
| Returns (a : A) (s : state)
| Aborts
| Crashes.

Arguments Returns {A} a s.
Arguments Aborts {A}.
Arguments Crashes {A}.

Definition P (A : Type) : Type := state -> run A.

Definition pret {A : Type} (a : A) : P A := fun s => Returns a s.

Definition pbind {A B : Type} (m : P A) (k : A -> P B) : P B :=
  fun s => match m s with
           | Returns a s' => k a s'
           | Aborts => Aborts
           | Crashes => Crashes
           end.

Definition abort {A : Type} : P A := fun _ => Aborts.
Definition crash {A : Type} : P A := fun _ => Crashes.
Definition pget : P state := fun s => Returns s s.
Definition pmodify (f : state -> state) : P unit := fun s => Returns tt (f s).

Declare Scope run_scope.
Delimit Scope run_scope with run.

Notation "x <-- m ;; k" := (pbind m (fun x => k))
  (at level 100, m at next level, right associativity) : run_scope.
Notation "m ;;;; k" := (pbind m (fun _ => k))
  (at level 100, right associativity) : run_scope.

Local Open Scope run_scope.

Definition ext (env : environment) (c : call) : P answer :=
  fun s => Returns (answers env (trace s) c) (log_call c s).

(** *** [mppl_ctx_create] *)

(** The result is the context, 0 for null. *)
Definition mppl_ctx_create (env : environment) : P Z :=
  l <-- ext env Mp_log_new ;;
  if res l =? 0 then abort                      (* assert(log) *)
  else
    lev <-- ext env (Mp_msg_level (res l)) ;;
    match PlaceboLog.requested_level (res lev) with
    | None => crash                             (* outside msg_lev_to_pl_log *)
    | Some log_level =>
        c <-- ext env (Pl_context_create log_level) ;;
        if res c =? 0 then
          ext env (Talloc_free_log (res l)) ;;;;
          pret 0
        else
          pmodify (created (Context (res c))) ;;;;
          pret (res c)
    end.

(** *** [mpvk_uninit] and [mpvk_init] *)

Definition mpvk_uninit (env : environment) : P unit :=
  st <-- pget ;;
  (if negb (vk_surface st =? 0) then
     if vk_vkinst st =? 0 then abort            (* assert(vk->vkinst) *)
     else
       ext env (VkDestroySurfaceKHR (vk_vkinst st) (vk_surface st)) ;;;;
       pmodify (destroyed (Surface (vk_surface st))) ;;;;
       pmodify (set_vk_surface 0)
   else pret tt) ;;;;
  ext env (Pl_vk_inst_destroy (vk_vkinst st)) ;;;;
  pmodify (destroyed (Instance (vk_vkinst st))) ;;;;
  pmodify (set_vk_vkinst 0) ;;;;
  ext env (Pl_context_destroy (vk_ctx st)) ;;;;
  pmodify (destroyed (Context (vk_ctx st))) ;;;;
  pmodify (set_vk_ctx 0).

Definition mpvk_init (env : environment) : P bool :=
  c <-- mppl_ctx_create env ;;
  pmodify (set_vk_ctx c) ;;;;
  if c =? 0 then
    mpvk_uninit env ;;;;
    pret false
  else
    i <-- ext env (Pl_vk_inst_create c) ;;
    (if res i =? 0 then pret tt else pmodify (created (Instance (res i)))) ;;;;
    pmodify (set_vk_vkinst (res i)) ;;;;
    if res i =? 0 then
      mpvk_uninit env ;;;;
      pret false
    else pret true.

(** *** [display_uninit], [display_init] and [display_reconfig] *)

Definition display_uninit (env : environment) : P unit :=
  ext env Ra_vk_ctx_uninit ;;;;
  mpvk_uninit env.

(** [talloc_free(mode)]. *)
Definition talloc_free_mode (mode : option VkDisplayModePropertiesKHR) : P unit :=
  match mode with
  | Some m => pmodify (fun s => set_mode_copies (remove_copy m (mode_copies s)) s)
  | None => pret tt
  end.

(** The [error:] label, and the [done:] label it jumps to. *)
Definition display_init_error (env : environment)
  (mode : option VkDisplayModePropertiesKHR) : P bool :=
  display_uninit env ;;;;
  talloc_free_mode mode ;;;;
  pret false.

Definition display_init (env : environment) (opts : vulkan_display_opts) : P bool :=
  pmodify zero_priv ;;;;
  ok <-- mpvk_init env ;;
  if negb ok then display_init_error env None
  else
    st <-- pget ;;
    d <-- ext env (Pl_vulkan_choose_device (vk_ctx st) (vk_vkinst st)) ;;
    if res d =? 0 then display_init_error env None
    else
      match walk_display_properties (describe env (res d))
              (Some (new_selector (opt_display opts) (opt_mode opts) (opt_plane opts)))
      with
      | Undefined => crash
      | Ret (found, selector) =>
          let out := match selector with
                     | Some s => out_mode_props s
                     | None => None
                     end in
          (* the copy the walk made with talloc_dup *)
          (match out with
           | Some m => pmodify (fun s => set_mode_copies (m :: mode_copies s) s)
           | None => pret tt
           end) ;;;;
          if negb found then display_init_error env None
          else
            match out with
            | None => crash                     (* mode->displayMode *)
            | Some mode =>
                s <-- ext env (VkCreateDisplayPlaneSurfaceKHR (vk_vkinst st)
                                (displayMode mode) (visibleRegion_width mode)
                                (visibleRegion_height mode) (opt_plane opts)) ;;
                (if res s =? VK_SUCCESS then
                   pmodify (set_vk_surface (out1 s)) ;;;;
                   (if out1 s =? 0 then pret tt
                    else pmodify (created (Surface (out1 s))))
                 else pret tt) ;;;;
                if negb (res s =? VK_SUCCESS) then display_init_error env (Some mode)
                else
                  pmodify (set_size (visibleRegion_width mode)
                             (visibleRegion_height mode)) ;;;;
                  r <-- ext env Ra_vk_ctx_init ;;
                  if res r =? 0 then display_init_error env (Some mode)
                  else
                    talloc_free_mode (Some mode) ;;;;
                    pret true
            end
      end.


(** *** What the context holds *)

(** The objects the three pointers of [struct mpvk_ctx] refer to, the newest
    first. *)
Definition held (s : state) : list object :=
  (if vk_surface s =? 0 then [] else [Surface (vk_surface s)]) ++
  (if vk_vkinst s =? 0 then [] else [Instance (vk_vkinst s)]) ++
  (if vk_ctx s =? 0 then [] else [Context (vk_ctx s)]).

(** The objects alive are those the context holds and those of others. *)
Definition holds_over (others : list object) (s : state) : Prop :=
  live s = held s ++ others.

(** Nothing is held: the three pointers are null. *)
Definition torn_down (s : state) : Prop :=
  vk_ctx s = 0 /\ vk_vkinst s = 0 /\ vk_surface s = 0.

(** *** Environments in which Vulkan comes up *)

(** The log is there and its level is one of mpv's, libplacebo gives a
    context and an instance, and a physical device is found. *)
Definition vulkan_comes_up (env : environment) : Prop :=
  (forall t, res (answers env t Mp_log_new) <> 0) /\
  (forall t l, 0 <= res (answers env t (Mp_msg_level l)) <= PlaceboLog.MSGL_MAX) /\
  (forall t l, res (answers env t (Pl_context_create l)) <> 0) /\
  (forall t c, res (answers env t (Pl_vk_inst_create c)) <> 0) /\
  (forall t c i, res (answers env t (Pl_vulkan_choose_device c i)) <> 0).

(** *** Sample environments and states *)

Definition ok_answer (c : call) : answer :=
  match c with
  | Mp_log_new => {| res := 5; out1 := 0 |}
  | Mp_msg_level _ => {| res := PlaceboLog.MSGL_INFO; out1 := 0 |}
  | Pl_context_create _ => {| res := 6; out1 := 0 |}
  | Pl_vk_inst_create _ => {| res := 7; out1 := 0 |}
  | Pl_vulkan_choose_device _ _ => {| res := 8; out1 := 0 |}
  | VkCreateDisplayPlaneSurfaceKHR _ _ _ _ _ => {| res := VK_SUCCESS; out1 := 9 |}
  | _ => {| res := 1; out1 := 0 |}
  end.

Definition ok_env (device : VkPhysicalDevice) : environment :=
  {| answers := fun _ c => ok_answer c; describe := fun _ => device |}.

(** As [ok_env], but the surface cannot be created
    ([VK_ERROR_INITIALIZATION_FAILED] is -3). *)
Definition no_surface_env (device : VkPhysicalDevice) : environment :=
  {| answers := fun _ c =>
       match c with
       | VkCreateDisplayPlaneSurfaceKHR _ _ _ _ _ => {| res := -3; out1 := 0 |}
       | _ => ok_answer c
       end;
     describe := fun _ => device |}.

(** As [ok_env], but [mp_log_new] gives no log. *)
Definition no_log_env (device : VkPhysicalDevice) : environment :=
  {| answers := fun _ c =>
       match c with
       | Mp_log_new => {| res := 0; out1 := 0 |}
       | _ => ok_answer c
       end;
     describe := fun _ => device |}.

(** The state of a context before [display_init]; another user holds an
    instance. *)
Definition initial_state : state :=
  {| trace := []; live := [Instance 1]; mode_copies := [];
     vk_ctx := 0; vk_vkinst := 0; vk_surface := 0; width := 0; height := 0 |}.

Definition opts_of (d m p : Z) : vulkan_display_opts :=
  {| opt_display := d; opt_mode := m; opt_plane := p |}.

End DisplayInit.

(** ** The CUDA interop: [cuda_init], [cuda_ebuf_init] and the mapper

    The build modelled is the one with OpenGL and Vulkan support on a POSIX
    system ([HAVE_GL], [HAVE_VULKAN], not [HAVE_WIN32_DESKTOP]). *)

Module HwdecCuda.

Local Open Scope cmonad_scope.

(** [CUresult]; [CUDA_SUCCESS] is 0.  Contexts, devices and every other
    driver object are handles; 0 is the null handle. *)
Definition CUresult : Type := Z.
Definition CUDA_SUCCESS : CUresult := 0.
Definition CUcontext : Type := Z.
Definition CUdevice : Type := Z.

(** *** Calls that leave this file *)

Inductive call : Type :=
| Cuda_load_functions
| CuInit
| CuGLGetDevices
| CuCtxCreate (dev : CUdevice)
| Mp_read_option_raw_cuda_decode_device
| CuDeviceGet (ordinal : Z)
| CuDeviceGetCount
| CuDeviceGetUuid (dev : CUdevice)
| Mpvk_get_phys_device_uuid
| Av_hwdevice_ctx_alloc
| Av_hwdevice_ctx_init (cuda_ctx : CUcontext)
| Av_buffer_unref (ref : Z)
| Hwdec_devices_add (ref : Z)
| CuCtxPushCurrent (ctx : CUcontext)
| CuCtxPopCurrent
| Ra_tex_create (n : Z)
| CuGraphicsGLRegisterImage (tex : Z)
| CuGraphicsMapResources (res : Z)
| CuGraphicsSubResourceGetMappedArray (res : Z)
| CuGraphicsUnmapResources (res : Z)
| Ra_vk_tex_get_external_info (tex : Z)
| CuImportExternalMemory (fd : Z)
| CuExternalMemoryGetMappedMipmappedArray (mem : Z)
| CuMipmappedArrayGetLevel (mma : Z)
| Ra_vk_create_external_semaphore
| CuImportExternalSemaphore (fd : Z)
| Mpvk_poll_commands
| CuGraphicsUnregisterResource (res : Z)
| CuDestroyExternalMemory (mem : Z)
| CuDestroyExternalSemaphore (sem : Z)
| VkDestroySemaphore (sem : Z)
| Close (fd : Z)
| Ra_tex_free (tex : Z)
| Ra_vk_hold (tex : Z) (sem : Z)
| CuWaitExternalSemaphoresAsync (sem : Z)
| CuMemcpy2DAsync (dst_array : Z)
| CuSignalExternalSemaphoresAsync (sem : Z)
| Ra_vk_release (tex : Z) (sem : Z).

(** What a call answers: the C return value ([CUresult], a [bool] as 0 or 1,
    or a pointer) and what it writes through its out-parameters. *)
Record answer : Type := {
  res : Z;
  out1 : Z;
  out2 : Z
}.

Record ra_format : Type := {
  pixel_size : Z;
  num_components : Z;
  linear_filter : bool
}.

(** [struct ra_imgfmt_desc]: [planes] holds the formats of the planes that
    are set. *)
Record ra_imgfmt_desc : Type := {
  num_planes : Z;
  planes : list ra_format
}.

(** The world outside: the answer to a call may depend on the calls made
    before it (most recent first). *)
Record environment : Type := {
  answers : list call -> call -> answer;
  ra_get_imgfmt_desc : Z -> option ra_imgfmt_desc;
  (* the number of planes [mp_image_set_params] derives from an image format *)
  mp_image_num_planes : Z -> Z
}.

(** The rendering abstraction the hwdec is loaded for. *)
Inductive ra : Type :=
| Ra_gl (version es : Z)
| Ra_vk (has_ext_external_memory_export : bool)
| Ra_other.

Definition ra_is_gl (r : ra) : bool :=
  match r with Ra_gl _ _ => true | _ => false end.

(** [ra_vk_get(ra)], null unless the backend is Vulkan; the value is the
    [has_ext_external_memory_export] flag of the context. *)
Definition ra_vk_get (r : ra) : option bool :=
  match r with Ra_vk e => Some e | _ => None end.

(** *** State *)

(** The CUDA driver's stack of current contexts for the thread (top first),
    the registered hwdec devices, and the calls made so far. *)
Record world : Type := {
  trace : list call;
  ctx_stack : list CUcontext;
  devs : list Z
}.

Record priv_owner : Type := {
  hwctx_av_device_ref : Z;
  owner_display_ctx : CUcontext;
  decode_ctx : CUcontext;
  is_gl : bool;
  is_vk : bool
}.

Record ext_buf : Type := {
  fd : Z;
  mem : Z;
  ss : Z;
  signal_s : Z;
  signal_fd : Z;
  ws : Z;
  wait_s : Z;
  wait_fd : Z
}.

(** [struct priv] of the mapper, with the fields of [struct ra_hwdec_mapper]
    the code uses. *)
Record priv : Type := {
  layout_num_planes : Z;
  cu_res : list Z;
  cu_array : list Z;
  display_ctx : CUcontext;
  ebuf : list ext_buf;
  tex : list Z;
  src_hw_subfmt : Z;
  dst_imgfmt : Z
}.

Record state : Type := {
  w : world;
  owner : priv_owner;
  p : priv
}.

Definition with_w (f : world -> world) (st : state) : state :=
  {| w := f (w st); owner := owner st; p := p st |}.
Definition with_owner (f : priv_owner -> priv_owner) (st : state) : state :=
  {| w := w st; owner := f (owner st); p := p st |}.
Definition with_p (f : priv -> priv) (st : state) : state :=
  {| w := w st; owner := owner st; p := f (p st) |}.

Definition log_call (c : call) (x : world) : world :=
  {| trace := c :: trace x; ctx_stack := ctx_stack x; devs := devs x |}.
Definition set_ctx_stack (s : list CUcontext) (x : world) : world :=
  {| trace := trace x; ctx_stack := s; devs := devs x |}.
Definition add_dev (ref : Z) (x : world) : world :=
  {| trace := trace x; ctx_stack := ctx_stack x; devs := ref :: devs x |}.

Definition set_is_gl (b : bool) (o : priv_owner) : priv_owner :=
  {| hwctx_av_device_ref := hwctx_av_device_ref o;
     owner_display_ctx := owner_display_ctx o; decode_ctx := decode_ctx o;
     is_gl := b; is_vk := is_vk o |}.
Definition set_is_vk (b : bool) (o : priv_owner) : priv_owner :=
  {| hwctx_av_device_ref := hwctx_av_device_ref o;
     owner_display_ctx := owner_display_ctx o; decode_ctx := decode_ctx o;
     is_gl := is_gl o; is_vk := b |}.
Definition set_owner_display_ctx (c : CUcontext) (o : priv_owner) : priv_owner :=
  {| hwctx_av_device_ref := hwctx_av_device_ref o;
     owner_display_ctx := c; decode_ctx := decode_ctx o;
     is_gl := is_gl o; is_vk := is_vk o |}.
Definition set_decode_ctx (c : CUcontext) (o : priv_owner) : priv_owner :=
  {| hwctx_av_device_ref := hwctx_av_device_ref o;
     owner_display_ctx := owner_display_ctx o; decode_ctx := c;
     is_gl := is_gl o; is_vk := is_vk o |}.
Definition set_hwctx (ref : Z) (o : priv_owner) : priv_owner :=
  {| hwctx_av_device_ref := ref;
     owner_display_ctx := owner_display_ctx o; decode_ctx := decode_ctx o;
     is_gl := is_gl o; is_vk := is_vk o |}.

Definition set_mapper_init (ctx : CUcontext) (imgfmt nplanes : Z) (x : priv) : priv :=
  {| layout_num_planes := nplanes; cu_res := cu_res x; cu_array := cu_array x;
     display_ctx := ctx; ebuf := ebuf x; tex := tex x;
     src_hw_subfmt := src_hw_subfmt x; dst_imgfmt := imgfmt |}.
Definition set_cu_res (l : list Z) (x : priv) : priv :=
  {| layout_num_planes := layout_num_planes x; cu_res := l; cu_array := cu_array x;
     display_ctx := display_ctx x; ebuf := ebuf x; tex := tex x;
     src_hw_subfmt := src_hw_subfmt x; dst_imgfmt := dst_imgfmt x |}.
Definition set_cu_array (l : list Z) (x : priv) : priv :=
  {| layout_num_planes := layout_num_planes x; cu_res := cu_res x; cu_array := l;
     display_ctx := display_ctx x; ebuf := ebuf x; tex := tex x;
     src_hw_subfmt := src_hw_subfmt x; dst_imgfmt := dst_imgfmt x |}.
Definition set_ebuf (l : list ext_buf) (x : priv) : priv :=
  {| layout_num_planes := layout_num_planes x; cu_res := cu_res x;
     cu_array := cu_array x; display_ctx := display_ctx x; ebuf := l; tex := tex x;
     src_hw_subfmt := src_hw_subfmt x; dst_imgfmt := dst_imgfmt x |}.
Definition set_tex (l : list Z) (x : priv) : priv :=
  {| layout_num_planes := layout_num_planes x; cu_res := cu_res x;
     cu_array := cu_array x; display_ctx := display_ctx x; ebuf := ebuf x; tex := l;
     src_hw_subfmt := src_hw_subfmt x; dst_imgfmt := dst_imgfmt x |}.

Definition set_fd (v : Z) (e : ext_buf) : ext_buf :=
  {| fd := v; mem := mem e; ss := ss e; signal_s := signal_s e;
     signal_fd := signal_fd e; ws := ws e; wait_s := wait_s e; wait_fd := wait_fd e |}.
Definition set_mem (v : Z) (e : ext_buf) : ext_buf :=
  {| fd := fd e; mem := v; ss := ss e; signal_s := signal_s e;
     signal_fd := signal_fd e; ws := ws e; wait_s := wait_s e; wait_fd := wait_fd e |}.
Definition set_ss (v : Z) (e : ext_buf) : ext_buf :=
  {| fd := fd e; mem := mem e; ss := v; signal_s := signal_s e;
     signal_fd := signal_fd e; ws := ws e; wait_s := wait_s e; wait_fd := wait_fd e |}.
Definition set_signal (s f : Z) (e : ext_buf) : ext_buf :=
  {| fd := fd e; mem := mem e; ss := ss e; signal_s := s;
     signal_fd := f; ws := ws e; wait_s := wait_s e; wait_fd := wait_fd e |}.
Definition set_ws (v : Z) (e : ext_buf) : ext_buf :=
  {| fd := fd e; mem := mem e; ss := ss e; signal_s := signal_s e;
     signal_fd := signal_fd e; ws := v; wait_s := wait_s e; wait_fd := wait_fd e |}.
Definition set_wait (s f : Z) (e : ext_buf) : ext_buf :=
  {| fd := fd e; mem := mem e; ss := ss e; signal_s := signal_s e;
     signal_fd := signal_fd e; ws := ws e; wait_s := s; wait_fd := f |}.

(** Zero-filled private data, as the loader allocates it. *)
Definition ext_buf_zero : ext_buf :=
  {| fd := 0; mem := 0; ss := 0; signal_s := 0; signal_fd := 0;
     ws := 0; wait_s := 0; wait_fd := 0 |}.
Definition priv_owner_zero : priv_owner :=
  {| hwctx_av_device_ref := 0; owner_display_ctx := 0; decode_ctx := 0;
     is_gl := false; is_vk := false |}.
Definition priv_zero (hw_subfmt : Z) : priv :=
  {| layout_num_planes := 0; cu_res := [0; 0; 0; 0]; cu_array := [0; 0; 0; 0];
     display_ctx := 0; ebuf := [ext_buf_zero; ext_buf_zero; ext_buf_zero; ext_buf_zero];
     tex := [0; 0; 0; 0]; src_hw_subfmt := hw_subfmt; dst_imgfmt := 0 |}.

(** *** Primitives *)

(** An external call: the environment answers, the call is recorded. *)
Definition ext (env : environment) (c : call) : M state answer :=
  fun st => Ret (answers env (trace (w st)) c, with_w (log_call c) st).

(** [check_cu]: 0 for [CUDA_SUCCESS], -1 (after logging) otherwise. *)
Definition check_cu (err : CUresult) : Z :=
  if err =? CUDA_SUCCESS then 0 else -1.

(** [cuCtxPushCurrent]: on success the context becomes the top of the stack. *)
Definition cuCtxPushCurrent (env : environment) (ctx : CUcontext) : M state CUresult :=
  a <- ext env (CuCtxPushCurrent ctx) ;;
  (if res a =? CUDA_SUCCESS
   then modify (with_w (fun x => set_ctx_stack (ctx :: ctx_stack x) x))
   else ret tt) ;;;
  ret (res a).

(** [cuCtxPopCurrent]: on success the top of the stack is removed. *)
Definition cuCtxPopCurrent (env : environment) : M state CUresult :=
  a <- ext env CuCtxPopCurrent ;;
  (if res a =? CUDA_SUCCESS
   then modify (with_w (fun x => set_ctx_stack (tl (ctx_stack x)) x))
   else ret tt) ;;;
  ret (res a).

(** [cuCtxCreate]: on success the new context is written to the out-parameter
    and is made current, on top of the stack. *)
Definition cuCtxCreate (env : environment) (dev : CUdevice) : M state answer :=
  a <- ext env (CuCtxCreate dev) ;;
  (if res a =? CUDA_SUCCESS
   then modify (with_w (fun x => set_ctx_stack (out1 a :: ctx_stack x) x))
   else ret tt) ;;;
  ret a.

(** An element of one of the arrays of four; an index outside is undefined. *)
Definition index4 {A : Type} (l : list A) (n : Z) : M state A :=
  match (if n <? 4 then zlookup l n else None) with
  | Some a => ret a
  | None => undefined
  end.

(** Store into one of the arrays of four. *)
Definition store4 {A : Type} (get_ : priv -> list A) (set_ : list A -> priv -> priv)
  (n : Z) (f : A -> A) : M state unit :=
  st <- get ;;
  a <- index4 (get_ (p st)) n ;;
  modify (with_p (fun x => set_ (list_set (get_ x) (Z.to_nat n) (f a)) x)).

(** *** [cuda_init] *)

(** How a block of [cuda_init] is left. *)
Inductive flow : Type :=
| Fall_through
| Return (r : Z)
| Goto_error.

(** The OpenGL branch of the allocation of the display context. *)
Definition cuda_init_gl (env : environment) : M state flow :=
  g <- ext env CuGLGetDevices ;;
  let display_dev := out2 g in
  if check_cu (res g) <? 0 then ret (Return (-1))
  else
    c <- cuCtxCreate env display_dev ;;
    (if res c =? CUDA_SUCCESS
     then modify (with_owner (set_owner_display_ctx (out1 c)))
     else ret tt) ;;;
    if check_cu (res c) <? 0 then ret (Return (-1))
    else
      st <- get ;;
      modify (with_owner (set_decode_ctx (owner_display_ctx (owner st)))) ;;;
      o <- ext env Mp_read_option_raw_cuda_decode_device ;;
      let decode_dev_idx := if res o <? 0 then -1 else out1 o in
      if decode_dev_idx >? -1 then
        d <- ext env (CuDeviceGet decode_dev_idx) ;;
        let decode_dev := out1 d in
        if check_cu (res d) <? 0 then ret Goto_error
        else if negb (decode_dev =? display_dev) then
          r <- cuCtxPopCurrent env ;;
          if check_cu r <? 0 then ret (Return (-1))
          else
            c' <- cuCtxCreate env decode_dev ;;
            (if res c' =? CUDA_SUCCESS
             then modify (with_owner (set_decode_ctx (out1 c')))
             else ret tt) ;;;
            if check_cu (res c') <? 0 then ret (Return (-1))
            else ret Fall_through
        else ret Fall_through
      else ret Fall_through.

(** [for (int i = 0; i < count; i++)]: the CUDA device with the UUID of the
    Vulkan device, or -1. *)
Fixpoint find_display_dev (env : environment) (vk_uuid : Z) (todo : nat) (i : Z)
  : M state CUdevice :=
  match todo with
  | O => ret (-1)
  | S todo' =>
      d <- ext env (CuDeviceGet i) ;;
      if check_cu (res d) <? 0 then find_display_dev env vk_uuid todo' (i + 1)
      else
        u <- ext env (CuDeviceGetUuid (out1 d)) ;;
        if check_cu (res u) <? 0 then find_display_dev env vk_uuid todo' (i + 1)
        else if out1 u =? vk_uuid then ret (out1 d)
        else find_display_dev env vk_uuid todo' (i + 1)
  end.

(** The Vulkan branch of the allocation of the display context. *)
Definition cuda_init_vk (env : environment) : M state flow :=
  v <- ext env Mpvk_get_phys_device_uuid ;;
  n <- ext env CuDeviceGetCount ;;
  if check_cu (res n) <? 0 then ret (Return (-1))
  else
    display_dev <- find_display_dev env (out1 v) (Z.to_nat (out1 n)) 0 ;;
    if display_dev =? -1 then ret (Return (-1))
    else
      c <- cuCtxCreate env display_dev ;;
      (if res c =? CUDA_SUCCESS
       then modify (with_owner (set_owner_display_ctx (out1 c)))
       else ret tt) ;;;
      if check_cu (res c) <? 0 then ret (Return (-1))
      else
        st <- get ;;
        modify (with_owner (set_decode_ctx (owner_display_ctx (owner st)))) ;;;
        ret Fall_through.

(** The [error:] label. *)
Definition cuda_init_error (env : environment) (hw_device_ctx : Z) : M state Z :=
  ext env (Av_buffer_unref hw_device_ctx) ;;;
  cuCtxPopCurrent env ;;;
  ret (-1).

(** From [av_hwdevice_ctx_alloc] to the end. *)
Definition cuda_init_device (env : environment) : M state Z :=
  a <- ext env Av_hwdevice_ctx_alloc ;;
  let hw_device_ctx := res a in
  if hw_device_ctx =? 0 then cuda_init_error env hw_device_ctx
  else
    st <- get ;;
    i <- ext env (Av_hwdevice_ctx_init (decode_ctx (owner st))) ;;
    if res i <? 0 then cuda_init_error env hw_device_ctx
    else
      r <- cuCtxPopCurrent env ;;
      if check_cu r <? 0 then cuda_init_error env hw_device_ctx
      else
        modify (with_owner (set_hwctx hw_device_ctx)) ;;;
        ext env (Hwdec_devices_add hw_device_ctx) ;;;
        modify (with_w (add_dev hw_device_ctx)) ;;;
        ret 0.

Definition cuda_init (env : environment) (hw_ra : ra) : M state Z :=
  modify (with_owner (set_is_gl (ra_is_gl hw_ra))) ;;;
  if match hw_ra with
     | Ra_gl version es => (version <? 210) && (es <? 300)
     | _ => false
     end
  then ret (-1)
  else
    modify (with_owner (set_is_vk (match ra_vk_get hw_ra with
                                   | Some _ => true
                                   | None => false
                                   end))) ;;;
    if match ra_vk_get hw_ra with
       | Some has_ext => negb has_ext
       | None => false
       end
    then ret (-1)
    else
      st <- get ;;
      if negb (is_gl (owner st)) && negb (is_vk (owner st)) then ret (-1)
      else
        l <- ext env Cuda_load_functions ;;
        if negb (res l =? 0) then ret (-1)
        (* out1: the loaded table has cuImportExternalMemory *)
        else if is_vk (owner st) && (out1 l =? 0) then ret (-1)
        else
          i <- ext env CuInit ;;
          if check_cu (res i) <? 0 then ret (-1)
          else
            f <- (if is_gl (owner st) then cuda_init_gl env
                  else if is_vk (owner st) then cuda_init_vk env
                  else ret Fall_through) ;;
            match f with
            | Return r => ret r
            | Goto_error => cuda_init_error env 0
            | Fall_through => cuda_init_device env
            end.

(** *** [cuda_ebuf_init] and [cuda_ebuf_uninit] *)

Definition cuda_ebuf_init (env : environment) (format : ra_format) (n : Z)
  : M state bool :=
  st <- get ;;
  t <- index4 (tex (p st)) n ;;
  i <- ext env (Ra_vk_tex_get_external_info t) ;;
  if res i =? 0 then ret false
  else
    store4 ebuf set_ebuf n (set_fd (out1 i)) ;;;
    m <- ext env (CuImportExternalMemory (out1 i)) ;;
    (if res m =? CUDA_SUCCESS then store4 ebuf set_ebuf n (set_mem (out1 m))
     else ret tt) ;;;
    if check_cu (res m) <? 0 then ret false
    else if num_components format =? 0 then undefined
    else
      let size := Z.quot (pixel_size format) (num_components format) in
      if negb ((size =? 1) || (size =? 2)) then ret false
      else
        st1 <- get ;;
        e1 <- index4 (ebuf (p st1)) n ;;
        a <- ext env (CuExternalMemoryGetMappedMipmappedArray (mem e1)) ;;
        if check_cu (res a) <? 0 then ret false
        else
          l <- ext env (CuMipmappedArrayGetLevel (out1 a)) ;;
          (if res l =? CUDA_SUCCESS then store4 cu_array set_cu_array n (fun _ => out1 l)
           else ret tt) ;;;
          if check_cu (res l) <? 0 then ret false
          else
            s <- ext env Ra_vk_create_external_semaphore ;;
            if res s =? 0 then ret false
            else
              store4 ebuf set_ebuf n (set_signal (out1 s) (out2 s)) ;;;
              si <- ext env (CuImportExternalSemaphore (out2 s)) ;;
              (if res si =? CUDA_SUCCESS then store4 ebuf set_ebuf n (set_ss (out1 si))
               else ret tt) ;;;
              if check_cu (res si) <? 0 then ret false
              else
                s' <- ext env Ra_vk_create_external_semaphore ;;
                if res s' =? 0 then ret false
                else
                  store4 ebuf set_ebuf n (set_wait (out1 s') (out2 s')) ;;;
                  iw <- ext env (CuImportExternalSemaphore (out2 s')) ;;
                  (if res iw =? CUDA_SUCCESS
                   then store4 ebuf set_ebuf n (set_ws (out1 iw))
                   else ret tt) ;;;
                  if check_cu (res iw) <? 0 then ret false
                  else ret true.

(** A call made for its effect only. *)
Definition ext_ (env : environment) (c : call) : M state unit :=
  ext env c ;;; ret tt.

Definition cuda_ebuf_uninit (env : environment) (n : Z) : M state unit :=
  st <- get ;;
  e <- index4 (ebuf (p st)) n ;;
  (if mem e >? 0 then ext_ env (CuDestroyExternalMemory (mem e))
   else if fd e >? -1 then ext_ env (Close (fd e))
   else ret tt) ;;;
  (if negb (ss e =? 0) then ext_ env (CuDestroyExternalSemaphore (ss e))
   else if signal_fd e >? -1 then ext_ env (Close (signal_fd e))
   else ret tt) ;;;
  (if negb (signal_s e =? 0) then ext_ env (VkDestroySemaphore (signal_s e))
   else ret tt) ;;;
  (if negb (ws e =? 0) then ext_ env (CuDestroyExternalSemaphore (ws e))
   else if wait_fd e >? -1 then ext_ env (Close (wait_fd e))
   else ret tt) ;;;
  (if negb (wait_s e =? 0) then ext_ env (VkDestroySemaphore (wait_s e))
   else ret tt).

(** *** The mapper *)

(** The OpenGL registration of the texture of plane [n]: the value of [ret]
    after it, negative when the code jumps to [error]. *)
Definition register_gl (env : environment) (n : Z) (texture : Z) : M state Z :=
  r <- ext env (CuGraphicsGLRegisterImage texture) ;;
  (if res r =? CUDA_SUCCESS then store4 cu_res set_cu_res n (fun _ => out1 r)
   else ret tt) ;;;
  if check_cu (res r) <? 0 then ret (check_cu (res r))
  else
    st <- get ;;
    cr <- index4 (cu_res (p st)) n ;;
    m <- ext env (CuGraphicsMapResources cr) ;;
    if check_cu (res m) <? 0 then ret (check_cu (res m))
    else
      a <- ext env (CuGraphicsSubResourceGetMappedArray cr) ;;
      (if res a =? CUDA_SUCCESS then store4 cu_array set_cu_array n (fun _ => out1 a)
       else ret tt) ;;;
      if check_cu (res a) <? 0 then ret (check_cu (res a))
      else
        u <- ext env (CuGraphicsUnmapResources cr) ;;
        ret (check_cu (res u)).

(** [for (int n = 0; n < desc.num_planes; n++)] of [mapper_init], from plane
    [n] on, [ret_] being the current value of [ret]; the result is the value
    of [ret] at the [error:] label. *)
Fixpoint init_planes (env : environment) (desc : ra_imgfmt_desc) (todo : nat)
  (n : Z) (ret_ : Z) : M state Z :=
  match todo with
  | O => ret ret_
  | S todo' =>
      match zlookup (planes desc) n with
      | None => undefined
      | Some format =>
          t <- ext env (Ra_tex_create n) ;;
          store4 tex set_tex n (fun _ => res t) ;;;
          if res t =? 0 then ret (-1)
          else
            st <- get ;;
            if is_gl (owner st) then
              r <- register_gl env n (res t) ;;
              if r <? 0 then ret r else init_planes env desc todo' (n + 1) r
            else if is_vk (owner st) then
              ok <- cuda_ebuf_init env format n ;;
              let r := if ok : bool then 1 else 0 in
              if r <? 0 then ret r else init_planes env desc todo' (n + 1) r
            else init_planes env desc todo' (n + 1) ret_
      end
  end.

Definition mapper_init (env : environment) : M state Z :=
  st <- get ;;
  let imgfmt := src_hw_subfmt (p st) in
  modify (with_p (set_mapper_init (owner_display_ctx (owner st)) imgfmt
                    (mp_image_num_planes env imgfmt))) ;;;
  match ra_get_imgfmt_desc env imgfmt with
  | None => ret (-1)
  | Some desc =>
      r <- cuCtxPushCurrent env (owner_display_ctx (owner st)) ;;
      if check_cu r <? 0 then ret (check_cu r)
      else
        ret_ <- init_planes env desc (Z.to_nat (num_planes desc)) 0 (check_cu r) ;;
        e <- cuCtxPopCurrent env ;;
        if check_cu e <? 0 then ret (check_cu e) else ret ret_
  end.

(** [for (int n = 0; n < 4; n++)] of [mapper_uninit], from plane [n] on. *)
Fixpoint uninit_planes (env : environment) (todo : nat) (n : Z) : M state unit :=
  match todo with
  | O => ret tt
  | S todo' =>
      st <- get ;;
      cr <- index4 (cu_res (p st)) n ;;
      (if cr >? 0 then ext_ env (CuGraphicsUnregisterResource cr) else ret tt) ;;;
      store4 cu_res set_cu_res n (fun _ => 0) ;;;
      cuda_ebuf_uninit env n ;;;
      t <- index4 (tex (p st)) n ;;
      (if negb (t =? 0) then ext_ env (Ra_tex_free t) else ret tt) ;;;
      store4 tex set_tex n (fun _ => 0) ;;;
      uninit_planes env todo' (n + 1)
  end.

Definition mapper_uninit (env : environment) : M state unit :=
  st <- get ;;
  (if is_vk (owner st) then ext_ env Mpvk_poll_commands else ret tt) ;;;
  (* Don't bail if any CUDA calls fail. This is all best effort. *)
  cuCtxPushCurrent env (display_ctx (p st)) ;;;
  uninit_planes env 4 0 ;;;
  cuCtxPopCurrent env ;;;
  ret tt.

(** [for (int n = 0; n < p->layout.num_planes; n++)] of [mapper_map], from
    plane [n] on; the result is the value of [ret] at the [error:] label. *)
Fixpoint map_planes (env : environment) (todo : nat) (n : Z) (ret_ : Z) : M state Z :=
  match todo with
  | O => ret ret_
  | S todo' =>
      st <- get ;;
      t <- index4 (tex (p st)) n ;;
      e <- index4 (ebuf (p st)) n ;;
      r1 <- (if is_vk (owner st) then
               h <- ext env (Ra_vk_hold t (wait_s e)) ;;
               if res h =? 0 then ret (inl (res h))
               else
                 wt <- ext env (CuWaitExternalSemaphoresAsync (ws e)) ;;
                 if check_cu (res wt) <? 0 then ret (inl (check_cu (res wt)))
                 else ret (inr (check_cu (res wt)))
             else ret (inr ret_)) ;;
      match r1 with
      | inl r => ret r
      | inr _ =>
          (* mapper->tex[n]->params.format->pixel_size *)
          if t =? 0 then undefined
          else
            a <- index4 (cu_array (p st)) n ;;
            c <- ext env (CuMemcpy2DAsync a) ;;
            if check_cu (res c) <? 0 then ret (check_cu (res c))
            else if is_vk (owner st) then
              s <- ext env (CuSignalExternalSemaphoresAsync (ss e)) ;;
              if check_cu (res s) <? 0 then ret (check_cu (res s))
              else
                ext env (Ra_vk_release t (signal_s e)) ;;;
                map_planes env todo' (n + 1) (check_cu (res s))
            else map_planes env todo' (n + 1) (check_cu (res c))
      end
  end.

Definition mapper_map (env : environment) : M state Z :=
  st <- get ;;
  r <- cuCtxPushCurrent env (display_ctx (p st)) ;;
  if check_cu r <? 0 then ret (check_cu r)
  else
    ret_ <- map_planes env (Z.to_nat (layout_num_planes (p st))) 0 (check_cu r) ;;
    e <- cuCtxPopCurrent env ;;
    if check_cu e <? 0 then ret (check_cu e) else ret ret_.

(** *** What the documentation says of the context stack *)

(** An operation leaves the stack of current contexts as it found it. *)
Definition leaves_stack_unchanged {A : Type} (op : M state A) : Prop :=
  forall st a st', op st = Ret (a, st') -> ctx_stack (w st') = ctx_stack (w st).

(** The driver never fails a pop, respectively a push. *)
Definition pop_succeeds (env : environment) : Prop :=
  forall t, res (answers env t CuCtxPopCurrent) = CUDA_SUCCESS.

Definition push_succeeds (env : environment) : Prop :=
  forall t ctx, res (answers env t (CuCtxPushCurrent ctx)) = CUDA_SUCCESS.

(** Each of the three operations of the mapper that push the display context
    leaves the stack as it found it. *)
Definition every_operation_balanced (env : environment) : Prop :=
  leaves_stack_unchanged (mapper_init env) /\
  leaves_stack_unchanged (mapper_map env) /\
  leaves_stack_unchanged (mapper_uninit env).

(** The value an operation returns, without the state. *)
Definition result_of {A : Type} (o : outcome (A * state)) : outcome A :=
  match o with
  | Ret (a, _) => Ret a
  | Undefined => Undefined
  end.

(** *** Sample environments and states *)

Definition r8 : ra_format := {| pixel_size := 1; num_components := 1; linear_filter := true |}.
Definition rg8 : ra_format := {| pixel_size := 2; num_components := 2; linear_filter := true |}.

(** NV12: a luma plane and an interleaved chroma plane. *)
Definition nv12_desc : ra_imgfmt_desc := {| num_planes := 2; planes := [r8; rg8] |}.

(** Every call succeeds; pointers and flags are non-null, handles are told
    apart by the argument of the call. *)
Definition ok_answer (c : call) : answer :=
  match c with
  | Ra_tex_create n => {| res := 100 + n; out1 := 0; out2 := 0 |}
  | Ra_vk_tex_get_external_info t => {| res := 1; out1 := t + 20; out2 := 0 |}
  | Ra_vk_create_external_semaphore => {| res := 1; out1 := 31; out2 := 32 |}
  | Ra_vk_hold _ _ => {| res := 1; out1 := 0; out2 := 0 |}
  | Av_hwdevice_ctx_alloc => {| res := 55; out1 := 0; out2 := 0 |}
  | CuCtxCreate dev => {| res := CUDA_SUCCESS; out1 := 70 + dev; out2 := 0 |}
  | Cuda_load_functions => {| res := 0; out1 := 1; out2 := 0 |}
  | CuDeviceGetCount => {| res := CUDA_SUCCESS; out1 := 1; out2 := 0 |}
  | Mp_read_option_raw_cuda_decode_device => {| res := 0; out1 := -1; out2 := 0 |}
  | _ => {| res := CUDA_SUCCESS; out1 := 40; out2 := 0 |}
  end.

Definition ok_env : environment :=
  {| answers := fun _ c => ok_answer c;
     ra_get_imgfmt_desc := fun _ => Some nv12_desc;
     mp_image_num_planes := fun _ => 2 |}.

(** As [ok_env], but [ra_vk_tex_get_external_info] fails, which makes
    [cuda_ebuf_init] fail. *)
Definition no_external_info_env : environment :=
  {| answers := fun _ c =>
       match c with
       | Ra_vk_tex_get_external_info _ => {| res := 0; out1 := 0; out2 := 0 |}
       | _ => ok_answer c
       end;
     ra_get_imgfmt_desc := fun _ => Some nv12_desc;
     mp_image_num_planes := fun _ => 2 |}.

(** As [ok_env], but the driver refuses to push a context
    ([CUDA_ERROR_INVALID_CONTEXT] is 201). *)
Definition no_push_env : environment :=
  {| answers := fun _ c =>
       match c with
       | CuCtxPushCurrent _ => {| res := 201; out1 := 0; out2 := 0 |}
       | _ => ok_answer c
       end;
     ra_get_imgfmt_desc := fun _ => Some nv12_desc;
     mp_image_num_planes := fun _ => 2 |}.

(** As [ok_env], but the driver refuses to pop a context
    ([CUDA_ERROR_DEINITIALIZED] is 4). *)
Definition no_pop_env : environment :=
  {| answers := fun _ c =>
       match c with
       | CuCtxPopCurrent => {| res := 4; out1 := 0; out2 := 0 |}
       | _ => ok_answer c
       end;
     ra_get_imgfmt_desc := fun _ => Some nv12_desc;
     mp_image_num_planes := fun _ => 2 |}.

(** A freshly loaded hwdec with a freshly created mapper; the thread has the
    contexts of [stack] current. *)
Definition fresh_state (stack : list CUcontext) (gl vk : bool) : state :=
  {| w := {| trace := []; ctx_stack := stack; devs := [] |};
     owner := {| hwctx_av_device_ref := 0; owner_display_ctx := 71; decode_ctx := 71;
                 is_gl := gl; is_vk := vk |};
     p := priv_zero 5 |}.

(** The state before [cuda_init]. *)
Definition unloaded_state : state :=
  {| w := {| trace := []; ctx_stack := []; devs := [] |};
     owner := priv_owner_zero;
     p := priv_zero 0 |}.

(** *** Backends, and what a trace holds *)

(** The backends [cuda_init] goes on with: OpenGL 2.1 or OpenGL ES 3.0 at
    least, or Vulkan with the external memory export extension. *)
Definition backend_supported (r : ra) : bool :=
  match r with
  | Ra_gl version es => (210 <=? version) || (300 <=? es)
  | Ra_vk has_ext => has_ext
  | Ra_other => false
  end.

(** The number of [close(fd)] calls in a trace. *)
Definition closes (fd_ : Z) (t : list call) : nat :=
  List.length (filter (fun c => match c with
                                | Close f => f =? fd_
                                | _ => false
                                end) t).

(** As [ok_env], but the Vulkan backend cannot hold a texture. *)
Definition no_hold_env : environment :=
  {| answers := fun _ c =>
       match c with
       | Ra_vk_hold _ _ => {| res := 0; out1 := 0; out2 := 0 |}
       | _ => ok_answer c
       end;
     ra_get_imgfmt_desc := fun _ => Some nv12_desc;
     mp_image_num_planes := fun _ => 2 |}.

(** A mapper for a format of two planes, as [mapper_init] sets it up before
    it creates the textures. *)
Definition two_plane_state (gl vk : bool) : state :=
  with_p (set_mapper_init 71 5 2) (fresh_state [] gl vk).

(** A mapper of two planes with its textures and CUDA arrays in place. *)
Definition textured_state (gl vk : bool) : state :=
  with_p (fun x => set_cu_array [61; 62; 0; 0] (set_tex [100; 101; 0; 0] x))
    (two_plane_state gl vk).

(** An operation leaves the textures and the display context of the mapper
    and the data of the owner as it found them. *)
Definition leaves_textures_unchanged {A : Type} (op : M state A) : Prop :=
  forall st a st', op st = Ret (a, st') ->
    tex (p st') = tex (p st) /\ owner st' = owner st /\
    display_ctx (p st') = display_ctx (p st).

(** The arrays of four of the mapper have their four elements. *)
Definition arrays_of_four (x : priv) : Prop :=
  List.length (cu_res x) = 4%nat /\ List.length (cu_array x) = 4%nat /\
  List.length (ebuf x) = 4%nat /\ List.length (tex x) = 4%nat.

End HwdecCuda.

(** ** The VA-API interop: [init], [mapper_unmap] and [mapper_map] *)

Module HwdecVaapi.

Local Open Scope cmonad_scope.

(** *** Calls that leave this file *)

Inductive call : Type :=
| Create_va_display (backend : Z)       (* an entry of create_native_cbs *)
| Va_initialize (display : Z)
| VaTerminate (display : Z)
| Va_guess_if_emulated
| Av_hwframe_ctx_alloc
| Av_hwframe_ctx_init (sw_format : Z)
| Av_frame_alloc
| Av_hwframe_get_buffer
| Mp_image_from_av_frame
| Ra_hwdec_mapper_create
| Ra_hwdec_mapper_map
| Ra_hwdec_mapper_free
| Hwdec_devices_add (ctx : Z)
| VaExportSurfaceHandle
| Pl_vulkan_mem_import (fd size : Z)
| Close (fd : Z)
| Pl_vulkan_tex_import (mem offset : Z)
| Mppl_wrap_tex (pltex : Z)
| Pl_tex_destroy (pltex : Z)
| Pl_vulkan_release (pltex : Z)
| Ra_tex_free (pltex : Z)
| Pl_vulkan_mem_deref (mem : Z).

(** The C return value of a call and what it writes through an
    out-parameter. *)
Record answer : Type := {
  res : Z;
  out1 : Z
}.

(** [VADRMPRIMESurfaceDescriptor]: [objects] and [layers] hold the
    [num_objects] and [num_layers] entries that are set; of the per-plane
    arrays of a layer the code reads entry 0 only. *)
Record va_object : Type := {
  fd : Z;
  size : Z
}.

Record va_layer : Type := {
  layer_num_planes : Z;
  object_index0 : Z;
  offset0 : Z
}.

Record VADRMPRIMESurfaceDescriptor : Type := {
  fourcc : Z;
  objects : list va_object;
  layers : list va_layer
}.

(** [VA_FOURCC('Y','V','1','2')] of va.h. *)
Definition VA_FOURCC_YV12 : Z := 0x32315659.

(** [VA_STATUS_SUCCESS] of va.h. *)
Definition VA_STATUS_SUCCESS : Z := 0.

Record ra_format : Type := {
  format_priv : Z;
  linear_filter : bool
}.

Record ra_imgfmt_desc : Type := {
  planes : list ra_format
}.

Record environment : Type := {
  answers : list call -> call -> answer;
  (* the compiled-in entries of create_native_cbs, in order *)
  create_native_cbs : list Z;
  (* what vaExportSurfaceHandle writes when it succeeds *)
  exported : VADRMPRIMESurfaceDescriptor;
  ra_get_imgfmt_desc : Z -> option ra_imgfmt_desc;
  (* av_hwdevice_get_hwframe_constraints: null, or valid_sw_formats *)
  valid_sw_formats : option (list Z)
}.

Inductive ra : Type :=
| Ra_gl
| Ra_pl
| Ra_other.

Definition ra_is_gl (r : ra) : bool :=
  match r with Ra_gl => true | _ => false end.

(** *** State *)

(** An imported memory object, with the DMA-BUF it was imported from. *)
Record pl_vulkan_mem : Type := {
  mem_handle : Z;
  mem_fd : Z;
  mem_size : Z
}.

(** A wrapped texture, with the memory object and the offset it was imported
    from. *)
Record ra_tex : Type := {
  pltex : Z;
  tex_mem : option pl_vulkan_mem;
  tex_offset : Z
}.

Record state : Type := {
  trace : list call;
  devs : list Z;
  live_mem : list Z;   (* memory objects imported and not yet released *)
  live_tex : list Z;   (* textures imported and not yet destroyed *)
  (* struct priv_owner *)
  ctx : Z;
  display : Z;
  formats : option (list Z);
  probing_formats : bool;
  (* struct priv and the mapper *)
  tex : list (option ra_tex);
  mem : list (option pl_vulkan_mem);
  desc : VADRMPRIMESurfaceDescriptor;
  dst_imgfmt : Z
}.

Definition log_call (c : call) (s : state) : state :=
  {| trace := c :: trace s; devs := devs s; live_mem := live_mem s;
     live_tex := live_tex s; ctx := ctx s; display := display s;
     formats := formats s; probing_formats := probing_formats s;
     tex := tex s; mem := mem s; desc := desc s; dst_imgfmt := dst_imgfmt s |}.
Definition set_live_mem (l : list Z) (s : state) : state :=
  {| trace := trace s; devs := devs s; live_mem := l;
     live_tex := live_tex s; ctx := ctx s; display := display s;
     formats := formats s; probing_formats := probing_formats s;
     tex := tex s; mem := mem s; desc := desc s; dst_imgfmt := dst_imgfmt s |}.
Definition set_live_tex (l : list Z) (s : state) : state :=
  {| trace := trace s; devs := devs s; live_mem := live_mem s;
     live_tex := l; ctx := ctx s; display := display s;
     formats := formats s; probing_formats := probing_formats s;
     tex := tex s; mem := mem s; desc := desc s; dst_imgfmt := dst_imgfmt s |}.
Definition set_formats (f : option (list Z)) (s : state) : state :=
  {| trace := trace s; devs := devs s; live_mem := live_mem s;
     live_tex := live_tex s; ctx := ctx s; display := display s;
     formats := f; probing_formats := probing_formats s;
     tex := tex s; mem := mem s; desc := desc s; dst_imgfmt := dst_imgfmt s |}.
Definition set_probing_formats (b : bool) (s : state) : state :=
  {| trace := trace s; devs := devs s; live_mem := live_mem s;
     live_tex := live_tex s; ctx := ctx s; display := display s;
     formats := formats s; probing_formats := b;
     tex := tex s; mem := mem s; desc := desc s; dst_imgfmt := dst_imgfmt s |}.
Definition set_tex (l : list (option ra_tex)) (s : state) : state :=
  {| trace := trace s; devs := devs s; live_mem := live_mem s;
     live_tex := live_tex s; ctx := ctx s; display := display s;
     formats := formats s; probing_formats := probing_formats s;
     tex := l; mem := mem s; desc := desc s; dst_imgfmt := dst_imgfmt s |}.
Definition set_mem (l : list (option pl_vulkan_mem)) (s : state) : state :=
  {| trace := trace s; devs := devs s; live_mem := live_mem s;
     live_tex := live_tex s; ctx := ctx s; display := display s;
     formats := formats s; probing_formats := probing_formats s;
     tex := tex s; mem := l; desc := desc s; dst_imgfmt := dst_imgfmt s |}.
Definition set_desc (d : VADRMPRIMESurfaceDescriptor) (s : state) : state :=
  {| trace := trace s; devs := devs s; live_mem := live_mem s;
     live_tex := live_tex s; ctx := ctx s; display := display s;
     formats := formats s; probing_formats := probing_formats s;
     tex := tex s; mem := mem s; desc := d; dst_imgfmt := dst_imgfmt s |}.

(** Remove one occurrence of a handle. *)
Fixpoint remove_one (h : Z) (l : list Z) : list Z :=
  match l with
  | [] => []
  | x :: t => if x =? h then t else x :: remove_one h t
  end.

(** *** Primitives *)

Definition ext (env : environment) (c : call) : M state answer :=
  fun st => Ret (answers env (trace st) c, log_call c st).

Definition ext_ (env : environment) (c : call) : M state unit :=
  ext env c ;;; ret tt.

(** An element of one of the arrays of four; an index outside is undefined. *)
Definition index4 {A : Type} (l : list A) (n : Z) : M state A :=
  match (if n <? 4 then zlookup l n else None) with
  | Some a => ret a
  | None => undefined
  end.

(** [mapper->tex[n] = v]. *)
Definition store_tex (n : Z) (v : option ra_tex) : M state unit :=
  st <- get ;;
  index4 (tex st) n ;;;
  modify (fun s => set_tex (list_set (tex s) (Z.to_nat n) v) s).

(** [p->mem[n] = v]. *)
Definition store_mem (n : Z) (v : option pl_vulkan_mem) : M state unit :=
  st <- get ;;
  index4 (mem st) n ;;;
  modify (fun s => set_mem (list_set (mem s) (Z.to_nat n) v) s).

(** [ra_tex_free(ra, &mapper->tex[n])]: a texture that is there is destroyed,
    the pointer is cleared. *)
Definition ra_tex_free (env : environment) (n : Z) : M state unit :=
  st <- get ;;
  t <- index4 (tex st) n ;;
  match t with
  | Some t' =>
      ext_ env (Ra_tex_free (pltex t')) ;;;
      modify (fun s => set_live_tex (remove_one (pltex t') (live_tex s)) s) ;;;
      store_tex n None
  | None => store_tex n None
  end.

(** [pl_vulkan_mem_deref]: the mapper's reference to the object is dropped. *)
Definition pl_vulkan_mem_deref (env : environment) (m : pl_vulkan_mem) : M state unit :=
  ext_ env (Pl_vulkan_mem_deref (mem_handle m)) ;;;
  modify (fun s => set_live_mem (remove_one (mem_handle m) (live_mem s)) s).

(** *** [mapper_unmap] *)

(** [for (int n = 0; n < 4; n++)], from [n] on. *)
Fixpoint unmap_slots (env : environment) (todo : nat) (n : Z) : M state unit :=
  match todo with
  | O => ret tt
  | S todo' =>
      ra_tex_free env n ;;;
      st <- get ;;
      m <- index4 (mem st) n ;;
      (match m with
       | Some m' => pl_vulkan_mem_deref env m'
       | None => ret tt
       end) ;;;
      store_mem n None ;;;
      unmap_slots env todo' (n + 1)
  end.

Definition mapper_unmap (env : environment) : M state unit :=
  unmap_slots env 4 0.

(** *** [mapper_map] *)

(** [for (int i = 0; i < p->desc.num_objects; i++)], from object [i] on;
    [false] stands for [goto error]. *)
Fixpoint import_objects (env : environment) (objs : list va_object) (i : Z)
  : M state bool :=
  match objs with
  | [] => ret true
  | o :: rest =>
      a <- ext env (Pl_vulkan_mem_import (fd o) (size o)) ;;
      (if res a =? 0 then store_mem i None
       else
         modify (fun s => set_live_mem (res a :: live_mem s) s) ;;;
         store_mem i (Some {| mem_handle := res a; mem_fd := fd o;
                              mem_size := size o |})) ;;;
      if res a =? 0 then
        ext_ env (Close (fd o)) ;;;
        ret false
      else import_objects env rest (i + 1)
  end.

(** [for (int n = 0; n < p->desc.num_layers; n++)], from layer [n] on;
    [false] stands for [goto error]. *)
Fixpoint import_layers (env : environment) (fmts : ra_imgfmt_desc)
  (ls : list va_layer) (n : Z) : M state bool :=
  match ls with
  | [] => ret true
  | l :: rest =>
      if layer_num_planes l >? 1 then ret false
      else
        match zlookup (planes fmts) n with
        | None => undefined
        | Some format =>
            st <- get ;;
            m <- index4 (mem st) (object_index0 l) ;;
            let mem_h := match m with Some m' => mem_handle m' | None => 0 end in
            t <- ext env (Pl_vulkan_tex_import mem_h (offset0 l)) ;;
            if res t =? 0 then ret false
            else
              modify (fun s => set_live_tex (res t :: live_tex s) s) ;;;
              wr <- ext env (Mppl_wrap_tex (res t)) ;;
              if res wr =? 0 then
                ext_ env (Pl_tex_destroy (res t)) ;;;
                modify (fun s => set_live_tex (remove_one (res t) (live_tex s)) s) ;;;
                ret false
              else
                store_tex n (Some {| pltex := res t; tex_mem := m;
                                     tex_offset := offset0 l |}) ;;;
                ext_ env (Pl_vulkan_release (res t)) ;;;
                import_layers env fmts rest (n + 1)
        end
  end.

(** [MPSWAP(struct ra_tex*, mapper->tex[1], mapper->tex[2])]. *)
Definition swap_tex_1_2 : M state unit :=
  st <- get ;;
  t1 <- index4 (tex st) 1 ;;
  t2 <- index4 (tex st) 2 ;;
  store_tex 1 t2 ;;;
  store_tex 2 t1.

(** The [error:] label. *)
Definition mapper_map_error (env : environment) : M state Z :=
  mapper_unmap env ;;;
  ret (-1).

Definition mapper_map (env : environment) : M state Z :=
  status <- ext env VaExportSurfaceHandle ;;
  (if res status =? VA_STATUS_SUCCESS then modify (set_desc (exported env))
   else ret tt) ;;;
  if negb (res status =? VA_STATUS_SUCCESS) then mapper_map_error env
  else
    st <- get ;;
    match ra_get_imgfmt_desc env (dst_imgfmt st) with
    | None => mapper_map_error env
    | Some fmts =>
        ok <- import_objects env (objects (desc st)) 0 ;;
        if negb ok then mapper_map_error env
        else
          ok' <- import_layers env fmts (layers (desc st)) 0 ;;
          if negb ok' then mapper_map_error env
          else
            (if fourcc (desc st) =? VA_FOURCC_YV12 then swap_tex_1_2 else ret tt) ;;;
            ret 0
    end.

(** *** [init] *)

(** [create_native_va_display]: the first backend that gives a display. *)
Fixpoint create_native_va_display (env : environment) (cbs : list Z) : M state Z :=
  match cbs with
  | [] => ret 0
  | b :: rest =>
      d <- ext env (Create_va_display b) ;;
      if negb (res d =? 0) then ret (res d)
      else create_native_va_display env rest
  end.

Definition try_format (env : environment) : M state bool :=
  m <- ext env Ra_hwdec_mapper_create ;;
  ok <- (if negb (res m =? 0) then
           r <- ext env Ra_hwdec_mapper_map ;;
           ret (res r >=? 0)
         else ret false) ;;
  ext_ env Ra_hwdec_mapper_free ;;;
  ret ok.

(** The body of the loop of [determine_working_formats] for one software
    format: the hardware sub-format to append, if the format works.  The
    frees at the [err:] label are not modelled. *)
Definition probe_format (env : environment) (sw_format : Z) : M state (option Z) :=
  fref <- ext env Av_hwframe_ctx_alloc ;;
  if res fref =? 0 then ret None
  else
    i <- ext env (Av_hwframe_ctx_init sw_format) ;;
    if res i <? 0 then ret None
    else
      frame <- ext env Av_frame_alloc ;;
      if res frame =? 0 then ret None
      else
        b <- ext env Av_hwframe_get_buffer ;;
        if res b <? 0 then ret None
        else
          (* res: the image is there and its parameters are valid;
             out1: its hw_subfmt *)
          s <- ext env Mp_image_from_av_frame ;;
          if res s =? 0 then ret None
          else
            ok <- try_format env ;;
            if ok : bool then ret (Some (out1 s)) else ret None.

Fixpoint probe_formats (env : environment) (sw_formats : list Z) (acc : list Z)
  : M state (list Z) :=
  match sw_formats with
  | [] => ret acc
  | f :: rest =>
      r <- probe_format env f ;;
      match r with
      | Some subfmt => probe_formats env rest (acc ++ [subfmt])
      | None => probe_formats env rest acc
      end
  end.

Definition determine_working_formats (env : environment) : M state unit :=
  modify (set_probing_formats true) ;;;
  fs <- match valid_sw_formats env with
        | None => ret []
        | Some sw => probe_formats env sw []
        end ;;
  modify (set_formats (Some (fs ++ [0]))) ;;;
  modify (set_probing_formats false).


(** *** What the documentation says *)

Definition no_slot {A : Type} : list (option A) := [None; None; None; None].

(** Nothing is mapped: every texture and memory pointer is null. *)
Definition unmapped (st : state) : Prop :=
  tex st = no_slot /\ mem st = no_slot.


(** The handles an array of four holds. *)
Fixpoint owned {A : Type} (handle : A -> Z) (l : list (option A)) : list Z :=
  match l with
  | [] => []
  | Some a :: t => handle a :: owned handle t
  | None :: t => owned handle t
  end.

(** The slots from [i] on are null. *)
Definition empty_from {A : Type} (l : list (option A)) (i : nat) : Prop :=
  forall j, (i <= j)%nat -> nth j l None = None.

(** The live objects are those of others ([base]) and those the arrays of the
    mapper hold. *)
Definition mem_accounted (base : list Z) (st : state) : Prop :=
  Permutation (live_mem st) (owned mem_handle (mem st) ++ base).

Definition tex_accounted (base : list Z) (st : state) : Prop :=
  Permutation (live_tex st) (owned pltex (tex st) ++ base).


(** The value an operation returns, without the state. *)
Definition result_of {A : Type} (o : outcome (A * state)) : outcome A :=
  match o with
  | Ret (a, _) => Ret a
  | Undefined => Undefined
  end.


(** [mapper->tex[slot]] is a non-null texture imported from the memory object
    of the layer. *)
Definition imported_from_layer_object (st : state) (slot : Z) (l : va_layer) : Prop :=
  exists t, zlookup (tex st) slot = Some (Some t) /\
            zlookup (mem st) (object_index0 l) = Some (tex_mem t).

(** The same, at the offset of the layer. *)
Definition layer_texture_at (st : state) (slot : Z) (l : va_layer) : Prop :=
  exists t, zlookup (tex st) slot = Some (Some t) /\
            zlookup (mem st) (object_index0 l) = Some (tex_mem t) /\
            tex_offset t = offset0 l.

(** The statement of the documentation: after a successful map no layer has
    more than one plane and the texture of layer [n] is [mapper->tex[n]]. *)
Definition every_layer_in_its_slot (env : environment) (st : state) : Prop :=
  match mapper_map env st with
  | Ret (r, st') =>
      r = 0 ->
      forall n l, nth_error (layers (desc st')) n = Some l ->
                  layer_num_planes l <= 1 /\
                  imported_from_layer_object st' (Z.of_nat n) l
  | Undefined => True
  end.

(** Where the texture of layer [n] ends up: planes 1 and 2 change places for
    YV12. *)
Definition slot_of_layer (d : VADRMPRIMESurfaceDescriptor) (n : Z) : Z :=
  if fourcc d =? VA_FOURCC_YV12 then
    if n =? 1 then 2 else if n =? 2 then 1 else n
  else n.

(** *** Sample environments and states *)

Definition r8 : ra_format := {| format_priv := 1; linear_filter := true |}.

Definition three_planes : ra_imgfmt_desc := {| planes := [r8; r8; r8] |}.

(** A planar 4:2:0 surface whose three planes are three DMA-BUF objects. *)
Definition planar_desc (fourcc_ : Z) : VADRMPRIMESurfaceDescriptor :=
  {| fourcc := fourcc_;
     objects := [ {| fd := 10; size := 4096 |}; {| fd := 11; size := 1024 |};
                  {| fd := 12; size := 1024 |} ];
     layers := [ {| layer_num_planes := 1; object_index0 := 0; offset0 := 0 |};
                 {| layer_num_planes := 1; object_index0 := 1; offset0 := 0 |};
                 {| layer_num_planes := 1; object_index0 := 2; offset0 := 0 |} ] |}.

(** Every call succeeds; handles are told apart by the argument of the call. *)
Definition ok_answer (c : call) : answer :=
  match c with
  | Create_va_display b => {| res := 300 + b; out1 := 0 |}
  | Va_initialize d => {| res := d + 1; out1 := 1 |}
  | Va_guess_if_emulated => {| res := 0; out1 := 0 |}
  | Av_hwframe_ctx_alloc | Av_frame_alloc | Ra_hwdec_mapper_create =>
      {| res := 1; out1 := 0 |}
  | Mp_image_from_av_frame => {| res := 1; out1 := 23 |}
  | Pl_vulkan_mem_import f _ => {| res := 100 + f; out1 := 0 |}
  | Pl_vulkan_tex_import m _ => {| res := 100 + m; out1 := 0 |}
  | Mppl_wrap_tex _ => {| res := 1; out1 := 0 |}
  | _ => {| res := 0; out1 := 0 |}
  end.

Definition ok_env (fourcc_ : Z) : environment :=
  {| answers := fun _ c => ok_answer c;
     create_native_cbs := [1; 2; 3];
     exported := planar_desc fourcc_;
     ra_get_imgfmt_desc := fun _ => Some three_planes;
     valid_sw_formats := Some [0; 23] |}.


Definition empty_desc : VADRMPRIMESurfaceDescriptor :=
  {| fourcc := 0; objects := []; layers := [] |}.

(** A loaded hwdec with an unmapped mapper; the GPU holds one memory object
    and one texture of other users. *)
Definition fresh_state : state :=
  {| trace := []; devs := []; live_mem := [1]; live_tex := [2];
     ctx := 0; display := 0; formats := None; probing_formats := false;
     tex := no_slot; mem := no_slot; desc := empty_desc; dst_imgfmt := 23 |}.

(** *** [check_fmt] and [mapper_init] *)

(** [for (int n = 0; p_owner->formats && p_owner->formats[n]; n++)] over a
    [formats] that is not null: the array is read up to its terminating 0;
    without one the loop reads past its end. *)
Fixpoint scan_formats (fs : list Z) (fmt : Z) : outcome bool :=
  match fs with
  | [] => Undefined
  | f :: t =>
      if f =? 0 then Ret false
      else if f =? fmt then Ret true
      else scan_formats t fmt
  end.

Definition check_fmt (st : state) (fmt : Z) : outcome bool :=
  match formats st with
  | None => Ret false
  | Some fs => scan_formats fs fmt
  end.

Definition set_dst_imgfmt (f : Z) (s : state) : state :=
  {| trace := trace s; devs := devs s; live_mem := live_mem s;
     live_tex := live_tex s; ctx := ctx s; display := display s;
     formats := formats s; probing_formats := probing_formats s;
     tex := tex s; mem := mem s; desc := desc s; dst_imgfmt := f |}.

(** A pure computation inside the monad. *)
Definition lift {A : Type} (o : outcome A) : M state A :=
  fun s => match o with
           | Ret a => Ret (a, s)
           | Undefined => Undefined
           end.

(** [mapper_init], for a source whose [hw_subfmt] is [src_hw_subfmt]; the
    layout of the planes is not modelled. *)
Definition mapper_init (env : environment) (src_hw_subfmt : Z) : M state Z :=
  modify (set_dst_imgfmt src_hw_subfmt) ;;;
  match ra_get_imgfmt_desc env src_hw_subfmt with
  | None => ret (-1)
  | Some _ =>
      st <- get ;;
      if probing_formats st then ret 0
      else
        ok <- lift (check_fmt st src_hw_subfmt) ;;
        if negb ok then ret (-1) else ret 0
  end.

(** The formats a zero-terminated array lists: those before the first 0. *)
Fixpoint listed (fs : list Z) : list Z :=
  match fs with
  | [] => []
  | f :: t => if f =? 0 then [] else f :: listed t
  end.

(** The state with another record of the calls made. *)
Definition with_trace (t : list call) (s : state) : state :=
  {| trace := t; devs := devs s; live_mem := live_mem s;
     live_tex := live_tex s; ctx := ctx s; display := display s;
     formats := formats s; probing_formats := probing_formats s;
     tex := tex s; mem := mem s; desc := desc s; dst_imgfmt := dst_imgfmt s |}.

(** An operation that always returns and does nothing but call out. *)
Definition only_calls {A : Type} (op : M state A) : Prop :=
  forall st, exists a t, op st = Ret (a, with_trace t st).

(** As [ok_env], but only the third native backend gives a display. *)
Definition drm_only_env : environment :=
  {| answers := fun _ c =>
       match c with
       | Create_va_display 1 | Create_va_display 2 => {| res := 0; out1 := 0 |}
       | _ => ok_answer c
       end;
     create_native_cbs := [1; 2; 3];
     exported := planar_desc 0;
     ra_get_imgfmt_desc := fun _ => Some three_planes;
     valid_sw_formats := Some [0; 23] |}.

End HwdecVaapi.

(** * Properties *)

(** ** The [vulkan-display-spec] option *)

Module DisplaySpecFacts.

Import DisplaySpec.

Local Open Scope string_scope.

Lemma index_of_bstrto0 (c : ascii) (s : string) :
  index_of c (bstrto0 s) = index_of c s.
Proof.
  induction s as [|a t IH]; simpl; [reflexivity|].
  destruct (Ascii.eqb a NUL) eqn:E; simpl; [reflexivity|].
  rewrite E, IH. reflexivity.
Qed.

Lemma count_colons_bstrto0 (s : string) :
  count_colons (bstrto0 s) = count_colons s.
Proof.
  induction s as [|a t IH]; simpl; [reflexivity|].
  destruct (Ascii.eqb a NUL) eqn:E; simpl; [reflexivity|].
  rewrite E, IH. reflexivity.
Qed.

Lemma str_from_0 (s : string) : str_from s 0 = bstrto0 s.
Proof. destruct s; reflexivity. Qed.

(** [strchr] finds no ':' exactly when the string has none. *)
Lemma index_of_colon_none (s : string) :
  index_of colon s = None <-> count_colons s = O.
Proof.
  induction s as [|a t IH]; simpl; [tauto|].
  destruct (Ascii.eqb a NUL); [tauto|].
  destruct (Ascii.eqb a colon).
  - split; discriminate.
  - destruct (index_of colon t); simpl.
    + split; [discriminate|]. intros H. apply IH in H. discriminate.
    + tauto.
Qed.

(** After the first ':' one separator fewer is left. *)
Lemma index_of_colon_some (s : string) (m : nat) :
  index_of colon s = Some m ->
  count_colons s = S (count_colons (str_from s (S m))).
Proof.
  revert m. induction s as [|a t IH]; intros m; simpl; [discriminate|].
  destruct (Ascii.eqb a NUL); [discriminate|].
  destruct (Ascii.eqb a colon).
  - intros H. injection H as <-.
    change (str_from (String a t) 1) with (str_from t 0).
    now rewrite str_from_0, count_colons_bstrto0.
  - destruct (index_of colon t) as [k|]; simpl; [|discriminate].
    intros H. injection H as <-.
    change (str_from (String a t) (S (S k))) with (str_from t (S k)).
    now rewrite <- IH.
Qed.

Lemma byte_at_cons (a : ascii) (t : string) (j : nat) :
  byte_at (String a t) (S j) = byte_at t j.
Proof. reflexivity. Qed.

(** The byte after a ':' that [strchr] found is inside the buffer: it is a
    byte of the string or its terminator. *)
Lemma byte_after_colon (buf : string) (i k : nat) :
  index_of colon (str_from buf i) = Some k ->
  exists c, byte_at buf (S (i + k)) = Some c.
Proof.
  revert buf k. induction i as [|i IH]; intros buf k.
  - rewrite str_from_0, index_of_bstrto0. revert k.
    induction buf as [|a t IHt]; intros k; simpl; [discriminate|].
    destruct (Ascii.eqb a NUL); [discriminate|].
    destruct (Ascii.eqb a colon).
    + intros H. injection H as <-. rewrite byte_at_cons.
      unfold byte_at. destruct t; simpl; eauto.
    + destruct (index_of colon t) as [k'|]; simpl; [|discriminate].
      intros H. injection H as <-. rewrite byte_at_cons. now apply IHt.
  - destruct buf as [|a t]; simpl; [discriminate|].
    intros H. rewrite byte_at_cons. now apply IH.
Qed.

(** Without a ':' the parser reports failure. *)
Lemma parse_display_spec_no_colon (buf : string) :
  count_colons buf = O ->
  parse_display_spec (Some buf) = Ret (false, (0, 0, 0)%Z).
Proof.
  intros H. unfold parse_display_spec, strchr. rewrite str_from_0.
  rewrite index_of_bstrto0.
  apply index_of_colon_none in H. now rewrite H.
Qed.

(** With exactly one ':' the parser reads through the null [plane_ptr]. *)
Lemma parse_display_spec_one_colon (buf : string) :
  count_colons buf = 1%nat ->
  parse_display_spec (Some buf) = Undefined.
Proof.
  intros H. unfold parse_display_spec, strchr. rewrite str_from_0.
  rewrite index_of_bstrto0.
  destruct (index_of colon buf) as [m|] eqn:E.
  - simpl. apply index_of_colon_some in E. rewrite H in E.
    injection E as E. symmetry in E. apply index_of_colon_none in E.
    rewrite E. reflexivity.
  - apply index_of_colon_none in E. congruence.
Qed.

(** With two or more ':' the parser succeeds. *)
Lemma parse_display_spec_two_colons (buf : string) :
  (2 <= count_colons buf)%nat ->
  exists d m p, parse_display_spec (Some buf) = Ret (true, (d, m, p)).
Proof.
  intros H. unfold parse_display_spec, strchr. rewrite str_from_0.
  rewrite index_of_bstrto0.
  destruct (index_of colon buf) as [m|] eqn:E.
  - simpl. pose proof (index_of_colon_some _ _ E) as E1.
    destruct (index_of colon (str_from buf (S m))) as [k|] eqn:E2.
    + destruct (byte_after_colon _ _ _ E2) as [c Hc].
      simpl. simpl in Hc. rewrite Hc. simpl. eauto.
    + apply index_of_colon_none in E2. lia.
  - apply index_of_colon_none in E. lia.
Qed.

(** C3: [parse_display_spec] dereferences [plane_ptr + 1] outside the test of
    [plane_ptr]: on "0:0", which has one ':', the second [strchr] returns
    null and the read goes through a null-derived pointer. *)
Theorem parse_display_spec_reads_through_null :
  parse_display_spec (Some "0:0") = Undefined /\ ~ reads_inside_string "0:0".
Proof.
  split; [reflexivity|]. intros H. apply H. reflexivity.
Qed.

(** C2, as documented, fails: "a:b:c" is not of the form 'D:M:P' with indices
    D, M and P, and it is not rejected. *)
Lemma validate_spec_accepts_non_indices : ~ accepts_exactly_DMP "a:b:c".
Proof.
  intros (_ & _ & H).
  assert (E : display_validate_spec "a:b:c" = Ret ([], 1%Z)) by reflexivity.
  rewrite E in H. specialize (H ltac:(discriminate) eq_refl). discriminate.
Qed.

(** C2, amended: 'help' prints the display information and returns
    [M_OPT_EXIT]; any other string with at least two ':' is accepted, whatever
    stands between them; any other string without ':' is rejected with
    [M_OPT_INVALID]. *)
Theorem validate_spec_by_separators (param : string) :
  (param = "help" ->
   display_validate_spec param = Ret ([Print_display_info], M_OPT_EXIT)) /\
  (param <> "help" -> (2 <= count_colons param)%nat ->
   display_validate_spec param = Ret ([], 1%Z)) /\
  (param <> "help" -> count_colons param = O ->
   display_validate_spec param = Ret ([Fatal_invalid_value], M_OPT_INVALID)).
Proof.
  unfold display_validate_spec, bstr_equals0. repeat split.
  - intros ->. reflexivity.
  - intros Hn H. apply String.eqb_neq in Hn. rewrite Hn.
    rewrite <- count_colons_bstrto0 in H.
    destruct (parse_display_spec_two_colons _ H) as (d & m & q & E).
    rewrite E. reflexivity.
  - intros Hn H. apply String.eqb_neq in Hn. rewrite Hn.
    rewrite <- count_colons_bstrto0 in H.
    rewrite (parse_display_spec_no_colon _ H). reflexivity.
Qed.

Lemma validate_spec_by_separators_witness :
  display_validate_spec "help" = Ret ([Print_display_info], M_OPT_EXIT) /\
  display_validate_spec "1:0:2" = Ret ([], 1%Z) /\
  display_validate_spec "0:0:" = Ret ([], 1%Z) /\
  display_validate_spec "first" = Ret ([Fatal_invalid_value], M_OPT_INVALID).
Proof.
  split; [|split; [|split]].
  - apply (proj1 (validate_spec_by_separators "help")). reflexivity.
  - apply (proj1 (proj2 (validate_spec_by_separators "1:0:2"))).
    + discriminate.
    + simpl. lia.
  - apply (proj1 (proj2 (validate_spec_by_separators "0:0:"))).
    + discriminate.
    + simpl. lia.
  - apply (proj2 (proj2 (validate_spec_by_separators "first"))).
    + discriminate.
    + reflexivity.
Defined.

End DisplaySpecFacts.

(** ** Walking displays, modes and planes *)

Module DisplayWalkFacts.

Import DisplayWalk.

Lemma zlookup_cons {A : Type} (a : A) (l : list A) (i : Z) :
  zlookup (a :: l) i = if i =? 0 then Some a else zlookup l (i - 1).
Proof.
  unfold zlookup.
  destruct (Z.ltb_spec i 0) as [Hneg|Hpos].
  - destruct (Z.eqb_spec i 0); [lia|].
    destruct (Z.ltb_spec (i - 1) 0); [reflexivity | lia].
  - destruct (Z.eqb_spec i 0) as [->|Hne]; [reflexivity|].
    destruct (Z.ltb_spec (i - 1) 0); [lia|].
    replace (Z.to_nat i) with (S (Z.to_nat (i - 1))) by lia. reflexivity.
Qed.

Lemma zlookup_nil {A : Type} (i : Z) : zlookup (@nil A) i = None.
Proof.
  unfold zlookup. destruct (i <? 0); [reflexivity|].
  now destruct (Z.to_nat i).
Qed.

Lemma zlookup_some_iff {A : Type} (l : list A) (i : Z) :
  (exists a, zlookup l i = Some a) <-> 0 <= i < Z.of_nat (List.length l).
Proof.
  unfold zlookup. destruct (Z.ltb_spec i 0).
  - split; [intros [a Ha]; discriminate | lia].
  - split.
    + intros [a Ha]. assert (nth_error l (Z.to_nat i) <> None) as Hn by congruence.
      apply nth_error_Some in Hn. lia.
    + intros Hi. destruct (nth_error l (Z.to_nat i)) eqn:E; [eauto|].
      apply nth_error_None in E. lia.
Qed.

Lemma int_succ_index_ok (i : Z) : index_ok i -> int_succ i = Ret (i + 1).
Proof.
  intros [H0 H1]. unfold int_succ.
  destruct (Z.eqb_spec i INT_MAX); [lia | reflexivity].
Qed.

(** An index in range can be incremented, and is absent exactly when the
    count does not exceed it. *)
Lemma not_present_index_ok (i num : Z) :
  index_ok i -> not_present (Some i) num = Ret (num <? i + 1).
Proof.
  intros [H0 H1]. unfold not_present, int_succ.
  destruct (Z.eqb_spec i INT_MAX); [lia | reflexivity].
Qed.

(** Scanning the null-terminated array of a plane: the plane is found when it
    is the selected one and its array holds the display. *)
Lemma scan_displays_populated (l : list VkDisplayKHR) (disp pi k found : Z) :
  Forall (fun h => h <> 0) l ->
  scan_displays (l ++ [0]) disp (Some pi) k found =
  Ret (if (pi =? k) && existsb (Z.eqb disp) l then k else found).
Proof.
  intros Hl. revert found. induction Hl as [|h t Hh Ht IH]; intros found; simpl.
  - now rewrite andb_false_r.
  - destruct (Z.eqb_spec h 0); [contradiction|].
    rewrite (Z.eqb_sym disp h).
    destruct (h =? disp); simpl.
    + destruct (pi =? k); simpl; rewrite IH; simpl; [|reflexivity].
      now destruct (existsb (Z.eqb disp) t).
    + apply IH.
Qed.

Lemma plane_displays_ok (p : plane_info) :
  plane_ok p -> plane_displays p = Some (supported_displays p ++ [0]).
Proof.
  intros (Hr & Hne & _). unfold plane_displays. rewrite Hr. simpl.
  destruct (supported_displays p); [contradiction | reflexivity].
Qed.

(** The plane loop finds the selected plane exactly when it lists the
    display. *)
Lemma find_plane_populated (ps : list plane_info) (disp pi k found : Z) :
  Forall plane_ok ps ->
  find_plane (map plane_displays ps) disp (Some pi) k found =
  Ret (match zlookup ps (pi - k) with
       | Some p => if lists_display p disp then pi else found
       | None => found
       end).
Proof.
  intros Hps. revert k found.
  induction Hps as [|p t Hp Ht IH]; intros k found; simpl.
  - now rewrite zlookup_nil.
  - rewrite (plane_displays_ok _ Hp).
    rewrite scan_displays_populated by apply Hp. simpl.
    rewrite IH, zlookup_cons.
    replace (pi - (k + 1)) with (pi - k - 1) by lia.
    destruct (Z.eqb_spec pi k) as [->|Hne].
    + rewrite Z.sub_diag. simpl.
      replace (zlookup t (0 - 1)) with (@None plane_info)
        by (unfold zlookup; reflexivity).
      unfold lists_display. now destruct (existsb (Z.eqb disp) (supported_displays p)).
    + destruct (Z.eqb_spec (pi - k) 0); [lia|]. reflexivity.
Qed.

(** The mode loop stores the selected mode, if there is one. *)
Lemma select_mode_selected (ms : list VkDisplayModePropertiesKHR) (k : Z)
  (s : mode_selector) :
  select_mode ms k (Some s) =
  Some {| display_idx := display_idx s; mode_idx := mode_idx s;
          plane_idx := plane_idx s;
          out_mode_props := match zlookup ms (mode_idx s - k) with
                            | Some m => Some m
                            | None => out_mode_props s
                            end |}.
Proof.
  revert k s. induction ms as [|m t IH]; intros k s; simpl.
  - rewrite zlookup_nil. now destruct s.
  - rewrite zlookup_cons. replace (mode_idx s - k - 1) with (mode_idx s - (k + 1)) by lia.
    destruct (Z.eqb_spec (mode_idx s) k) as [E|E].
    + subst k. rewrite Z.sub_diag. simpl. rewrite IH. simpl.
      replace (zlookup t (mode_idx s - (mode_idx s + 1)))
        with (@None VkDisplayModePropertiesKHR).
      * reflexivity.
      * unfold zlookup.
        destruct (Z.ltb_spec (mode_idx s - (mode_idx s + 1)) 0); [reflexivity | lia].
    + simpl. destruct (Z.eqb_spec (mode_idx s - k) 0); [lia|]. apply IH.
Qed.


(** The body of the display loop on a display with modes, all planes being
    set: it goes on exactly when the mode is present and the selected plane
    lists the display, and then the mode is stored. *)
Lemma walk_display_selected (ps : list plane_info) (s : mode_selector)
  (d : display_info) :
  Forall plane_ok ps ->
  modes d <> [] -> modes_res d = VK_SUCCESS ->
  index_ok (mode_idx s) -> index_ok (plane_idx s) ->
  exists c s',
    walk_display (map plane_displays ps) (Some s) d = Ret (c, Some s') /\
    display_idx s' = display_idx s /\
    (c = Continue <->
     (mode_idx s <? Z.of_nat (List.length (modes d))) &&
     match zlookup ps (plane_idx s) with
     | Some p => lists_display p (display d)
     | None => false
     end = true) /\
    (c = Continue ->
     exists m, zlookup (modes d) (mode_idx s) = Some m /\ out_mode_props s' = Some m).
Proof.
  intros Hps Hm Hr Hmi Hpi. unfold walk_display.
  destruct (Z.eqb_spec (Z.of_nat (List.length (modes d))) 0) as [E|E].
  { destruct (modes d); [contradiction | simpl in E; lia]. }
  simpl option_map. rewrite (not_present_index_ok _ _ Hmi). simpl obind.
  destruct (Z.ltb_spec (Z.of_nat (List.length (modes d))) (mode_idx s + 1)) as [Hlt|Hge].
  - exists Goto_done, s. split; [reflexivity|]. split; [reflexivity|].
    destruct (Z.ltb_spec (mode_idx s) (Z.of_nat (List.length (modes d)))); [lia|].
    simpl. split; [split; discriminate | discriminate].
  - rewrite Hr. simpl negb. cbv iota.
    rewrite select_mode_selected. simpl option_map.
    rewrite (find_plane_populated _ _ _ _ _ Hps). simpl obind.
    rewrite !Z.sub_0_r.
    destruct (Z.ltb_spec (mode_idx s) (Z.of_nat (List.length (modes d)))); [|lia].
    destruct (zlookup_some_iff (modes d) (mode_idx s)) as [_ Hex].
    destruct Hex as [m Hmode]; [destruct Hmi; lia|].
    rewrite Hmode. simpl.
    destruct (zlookup ps (plane_idx s)) as [pl|] eqn:Epl.
    + destruct (lists_display pl (display d)).
      * rewrite Z.eqb_refl. simpl. eexists _, _. split; [reflexivity|].
        split; [reflexivity|]. split; [tauto|]. intros _. eauto.
      * destruct (Z.eqb_spec (plane_idx s) (-1)) as [E1|E1]; [destruct Hpi; lia|].
        simpl. eexists _, _. split; [reflexivity|]. split; [reflexivity|].
        split; [split; discriminate | discriminate].
    + destruct (Z.eqb_spec (plane_idx s) (-1)) as [E1|E1]; [destruct Hpi; lia|].
      simpl. eexists _, _. split; [reflexivity|]. split; [reflexivity|].
      split; [split; discriminate | discriminate].
Qed.

(** Displays after the selected one are skipped. *)
Lemma walk_displays_skip (ptd : list (option (list VkDisplayKHR)))
  (ds : list display_info) (j : Z) (s : mode_selector) :
  display_idx s < j ->
  walk_displays ptd ds j (Some s) = Ret (true, Some s).
Proof.
  revert j. induction ds as [|d t IH]; intros j Hj; simpl; [reflexivity|].
  destruct (Z.eqb_spec (display_idx s) j); [lia|]. simpl. apply IH. lia.
Qed.

(** The display loop runs the body on the selected display only. *)
Lemma walk_displays_selected (ps : list plane_info) (ds : list display_info)
  (j : Z) (s : mode_selector) (d : display_info) :
  Forall plane_ok ps ->
  Forall (fun d => modes d <> []) ds ->
  Forall (fun d => modes_res d = VK_SUCCESS) ds ->
  index_ok (mode_idx s) -> index_ok (plane_idx s) ->
  zlookup ds (display_idx s - j) = Some d ->
  exists r s',
    walk_displays (map plane_displays ps) ds j (Some s) = Ret (r, Some s') /\
    (r = true <->
     (mode_idx s <? Z.of_nat (List.length (modes d))) &&
     match zlookup ps (plane_idx s) with
     | Some p => lists_display p (display d)
     | None => false
     end = true) /\
    (r = true ->
     exists m, zlookup (modes d) (mode_idx s) = Some m /\ out_mode_props s' = Some m).
Proof.
  intros Hps Hm Hr Hmi Hpi. revert j.
  induction ds as [|d0 t IH]; intros j Hd.
  - rewrite zlookup_nil in Hd. discriminate.
  - rewrite zlookup_cons in Hd. simpl.
    inversion Hm as [|? ? Hm0 Hmt]; subst. inversion Hr as [|? ? Hr0 Hrt]; subst.
    destruct (Z.eqb_spec (display_idx s - j) 0) as [E|E].
    + injection Hd as ->.
      destruct (Z.eqb_spec (display_idx s) j); [|lia]. simpl.
      destruct (walk_display_selected ps s d Hps Hm0 Hr0 Hmi Hpi)
        as (c & s' & Hw & Hidx & Hc & Hprops).
      rewrite Hw. simpl. destruct c.
      * rewrite walk_displays_skip by lia.
        exists true, s'. split; [reflexivity|]. split.
        -- split; intros _; [now apply Hc | reflexivity].
        -- intros _. now apply Hprops.
      * exists false, s'. split; [reflexivity|]. split.
        -- split; [discriminate|]. intros H. apply Hc in H. discriminate.
        -- discriminate.
    + destruct (Z.eqb_spec (display_idx s) j); [lia|]. simpl.
      apply IH; [assumption | assumption |].
      now replace (display_idx s - (j + 1)) with (display_idx s - j - 1) by lia.
Qed.

Lemma planes_all_ok (device : VkPhysicalDevice) :
  enumeration_succeeds device -> planes_populated device ->
  Forall plane_ok (planes device).
Proof.
  intros (_ & _ & Hres & _) Hpop. unfold planes_populated in Hpop.
  rewrite Forall_forall in *. intros p Hp.
  destruct (Hpop p Hp) as [Hne Hnz]. repeat split; auto.
Qed.

(** C1, as documented, fails: when the driver cannot enumerate the planes the
    walk returns false for a selection that is valid. *)
Lemma walk_fails_when_enumeration_fails :
  ~ returns_true_iff_valid failing_device (new_selector 0 0 0).
Proof.
  intros (r & s' & Hw & Hiff & _).
  assert (E : walk_display_properties failing_device (Some (new_selector 0 0 0))
              = Ret (false, Some (new_selector 0 0 0))) by reflexivity.
  rewrite E in Hw. injection Hw as <- _.
  assert (V : selection_valid failing_device (new_selector 0 0 0) = true) by reflexivity.
  apply Hiff in V. discriminate.
Qed.

(** C1, amended: for a selector with non-negative indices, on a device whose
    enumeration calls all succeed, whose planes each support a display and
    whose displays each have a mode, [walk_display_properties] returns true
    if and only if the display, mode and plane indices are in range and the
    plane lists the display; when it returns true the selected mode is in
    [out_mode_props]. *)
Theorem walk_display_properties_selects (device : VkPhysicalDevice)
  (s : mode_selector) :
  enumeration_succeeds device ->
  planes_populated device ->
  displays_have_modes device ->
  index_ok (display_idx s) -> index_ok (mode_idx s) -> index_ok (plane_idx s) ->
  returns_true_iff_valid device s.
Proof.
  intros Henum Hpop Hmodes Hdi Hmi Hpi.
  pose proof (planes_all_ok _ Henum Hpop) as Hps.
  destruct Henum as (Hpr & Hdr & _ & Hmr).
  unfold returns_true_iff_valid, walk_display_properties, selection_valid, selected_mode.
  simpl option_map.
  destruct (Z.eqb_spec (Z.of_nat (List.length (displays device))) 0) as [E0|E0].
  { exists false, s. split; [reflexivity|].
    destruct (Z.ltb_spec (display_idx s) (Z.of_nat (List.length (displays device))));
      [destruct Hdi; lia|].
    simpl. split; [split; discriminate | discriminate]. }
  unfold not_present. rewrite (int_succ_index_ok _ Hdi). simpl obind.
  destruct (Z.ltb_spec (Z.of_nat (List.length (displays device))) (display_idx s + 1)).
  { exists false, s. split; [reflexivity|].
    destruct (Z.ltb_spec (display_idx s) (Z.of_nat (List.length (displays device))));
      [lia|].
    simpl. split; [split; discriminate | discriminate]. }
  destruct (Z.ltb_spec (display_idx s) (Z.of_nat (List.length (displays device))));
    [|lia].
  destruct (zlookup_some_iff (displays device) (display_idx s)) as [_ Hex].
  destruct Hex as [d Hd]; [destruct Hdi; lia|]. rewrite Hd. simpl andb.
  destruct (Z.eqb_spec (Z.of_nat (List.length (planes device))) 0) as [E1|E1].
  { exists false, s. split; [reflexivity|].
    destruct (Z.ltb_spec (plane_idx s) (Z.of_nat (List.length (planes device))));
      [destruct Hpi; lia|].
    rewrite andb_false_r. simpl. split; [split; discriminate | discriminate]. }
  rewrite (int_succ_index_ok _ Hpi). simpl obind.
  destruct (Z.ltb_spec (Z.of_nat (List.length (planes device))) (plane_idx s + 1)).
  { exists false, s. split; [reflexivity|].
    destruct (Z.ltb_spec (plane_idx s) (Z.of_nat (List.length (planes device))));
      [lia|].
    rewrite andb_false_r. simpl. split; [split; discriminate | discriminate]. }
  destruct (Z.ltb_spec (plane_idx s) (Z.of_nat (List.length (planes device))));
    [|lia].
  rewrite Hpr, Hdr. simpl negb. cbv iota.
  rewrite andb_true_r.
  rewrite <- (Z.sub_0_r (display_idx s)) in Hd.
  destruct (walk_displays_selected (planes device) (displays device) 0 s d
              Hps Hmodes Hmr Hmi Hpi Hd) as (r & s' & Hw & Hiff & Hprops).
  exists r, s'. split; [exact Hw|]. split; [exact Hiff | exact Hprops].
Qed.

Lemma walk_display_properties_selects_witness :
  returns_true_iff_valid sample_device (new_selector 0 1 0).
Proof.
  apply walk_display_properties_selects.
  - repeat split; repeat constructor.
  - repeat constructor; discriminate.
  - repeat constructor; discriminate.
  - unfold index_ok, INT_MAX. simpl. lia.
  - unfold index_ok, INT_MAX. simpl. lia.
  - unfold index_ok, INT_MAX. simpl. lia.
Defined.

End DisplayWalkFacts.

(** ** Running the monad *)

Lemma bind_inv {S A B : Type} (m : M S A) (k : A -> M S B) (st st' : S) (b : B) :
  bind m k st = Ret (b, st') ->
  exists a st1, m st = Ret (a, st1) /\ k a st1 = Ret (b, st').
Proof.
  unfold bind. destruct (m st) as [[a st1]|]; [eauto | discriminate].
Qed.

(** ** The CUDA interop *)

Module HwdecCudaFacts.

Import HwdecCuda.

Local Open Scope cmonad_scope.

(** *** Operations that do not touch the context stack *)

Lemma keeps_ret {A : Type} (a : A) : leaves_stack_unchanged (ret a).
Proof. intros st a' st' H. injection H as _ <-. reflexivity. Qed.

Lemma keeps_undefined {A : Type} : leaves_stack_unchanged (@undefined state A).
Proof. intros st a st' H. discriminate. Qed.

Lemma keeps_get : leaves_stack_unchanged (@get state).
Proof. intros st a st' H. injection H as _ <-. reflexivity. Qed.

Lemma keeps_bind {A B : Type} (m : M state A) (k : A -> M state B) :
  leaves_stack_unchanged m ->
  (forall a, leaves_stack_unchanged (k a)) ->
  leaves_stack_unchanged (bind m k).
Proof.
  intros Hm Hk st b st' H.
  destruct (bind_inv _ _ _ _ _ H) as (a & st1 & H1 & H2).
  rewrite (Hk _ _ _ _ H2). exact (Hm _ _ _ H1).
Qed.

Lemma keeps_with_owner (f : priv_owner -> priv_owner) :
  leaves_stack_unchanged (modify (with_owner f)).
Proof. intros st a st' H. injection H as _ <-. reflexivity. Qed.

Lemma keeps_with_p (f : priv -> priv) :
  leaves_stack_unchanged (modify (with_p f)).
Proof. intros st a st' H. injection H as _ <-. reflexivity. Qed.

Lemma keeps_add_dev (ref : Z) :
  leaves_stack_unchanged (modify (with_w (add_dev ref))).
Proof. intros st a st' H. injection H as _ <-. reflexivity. Qed.

Lemma keeps_ext (env : environment) (c : call) :
  leaves_stack_unchanged (ext env c).
Proof. intros st a st' H. injection H as _ <-. reflexivity. Qed.

Lemma keeps_index4 {A : Type} (l : list A) (n : Z) :
  leaves_stack_unchanged (index4 l n).
Proof.
  unfold index4. destruct (if n <? 4 then zlookup l n else None).
  - apply keeps_ret.
  - apply keeps_undefined.
Qed.

Create HintDb stack.

#[local] Hint Resolve keeps_ret keeps_undefined keeps_get keeps_with_owner
  keeps_with_p keeps_add_dev keeps_ext keeps_index4 : stack.

(** Decompose an operation built from the primitives above. *)
Ltac keeps :=
  repeat first
    [ apply keeps_bind; [|intros]
    | solve [auto with stack]
    | progress cbv zeta
    | match goal with
      | |- leaves_stack_unchanged (if ?b then _ else _) => destruct b
      | |- leaves_stack_unchanged (match ?x with _ => _ end) => destruct x
      end ].

Lemma keeps_ext_ (env : environment) (c : call) :
  leaves_stack_unchanged (ext_ env c).
Proof. unfold ext_. keeps. Qed.

Lemma keeps_store4 {A : Type} (get_ : priv -> list A)
  (set_ : list A -> priv -> priv) (n : Z) (f : A -> A) :
  leaves_stack_unchanged (store4 get_ set_ n f).
Proof. unfold store4. keeps. Qed.

#[local] Hint Resolve keeps_ext_ keeps_store4 : stack.

Lemma keeps_cuda_ebuf_init (env : environment) (format : ra_format) (n : Z) :
  leaves_stack_unchanged (cuda_ebuf_init env format n).
Proof. unfold cuda_ebuf_init. keeps. Qed.

Lemma keeps_cuda_ebuf_uninit (env : environment) (n : Z) :
  leaves_stack_unchanged (cuda_ebuf_uninit env n).
Proof. unfold cuda_ebuf_uninit. keeps. Qed.

Lemma keeps_register_gl (env : environment) (n texture : Z) :
  leaves_stack_unchanged (register_gl env n texture).
Proof. unfold register_gl. keeps. Qed.

#[local] Hint Resolve keeps_cuda_ebuf_init keeps_cuda_ebuf_uninit
  keeps_register_gl : stack.

Lemma keeps_init_planes (env : environment) (desc : ra_imgfmt_desc) (todo : nat) :
  forall n ret_, leaves_stack_unchanged (init_planes env desc todo n ret_).
Proof.
  induction todo as [|todo IH]; intros n ret_; simpl; keeps.
Qed.

Lemma keeps_uninit_planes (env : environment) (todo : nat) :
  forall n, leaves_stack_unchanged (uninit_planes env todo n).
Proof.
  induction todo as [|todo IH]; intros n; simpl; keeps.
Qed.

Lemma keeps_map_planes (env : environment) (todo : nat) :
  forall n ret_, leaves_stack_unchanged (map_planes env todo n ret_).
Proof.
  induction todo as [|todo IH]; intros n ret_; simpl; keeps.
Qed.

(** *** Push and pop *)

Lemma push_inv (env : environment) (ctx : CUcontext) (st st' : state) (r : Z) :
  cuCtxPushCurrent env ctx st = Ret (r, st') ->
  (check_cu r = 0 /\ ctx_stack (w st') = ctx :: ctx_stack (w st)) \/
  (check_cu r = -1 /\ ctx_stack (w st') = ctx_stack (w st)).
Proof.
  unfold cuCtxPushCurrent, bind, ext, check_cu. simpl.
  destruct (res (answers env (trace (w st)) (CuCtxPushCurrent ctx)) =? CUDA_SUCCESS)
    eqn:E; simpl; intros H; injection H as <- <-; rewrite E; simpl; auto.
Qed.

Lemma push_ok_inv (env : environment) (ctx : CUcontext) (st st' : state) (r : Z) :
  push_succeeds env ->
  cuCtxPushCurrent env ctx st = Ret (r, st') ->
  ctx_stack (w st') = ctx :: ctx_stack (w st).
Proof.
  intros Hp. unfold cuCtxPushCurrent, bind, ext. simpl.
  rewrite (Hp (trace (w st)) ctx). simpl. intros H. injection H as _ <-. reflexivity.
Qed.

Lemma pop_inv (env : environment) (st st' : state) (r : Z) :
  pop_succeeds env ->
  cuCtxPopCurrent env st = Ret (r, st') ->
  check_cu r = 0 /\ ctx_stack (w st') = tl (ctx_stack (w st)).
Proof.
  intros Hp. unfold cuCtxPopCurrent, bind, ext, check_cu. simpl.
  rewrite (Hp (trace (w st))). simpl. intros H. injection H as <- <-.
  split; reflexivity.
Qed.


(** *** Initialisation, and the context stack across the mapper *)

(** C4: for a backend that is neither OpenGL nor Vulkan, [cuda_init] returns
    -1 having made no call at all: no CUDA context is created or pushed, no
    hwdec device is registered; only the two backend flags are written. *)
Theorem cuda_init_rejects_other_backends (env : environment) (hw_ra : ra)
  (st : state) :
  ra_is_gl hw_ra = false -> ra_vk_get hw_ra = None ->
  exists st',
    cuda_init env hw_ra st = Ret (-1, st') /\
    w st' = w st /\ p st' = p st /\
    owner_display_ctx (owner st') = owner_display_ctx (owner st) /\
    decode_ctx (owner st') = decode_ctx (owner st) /\
    hwctx_av_device_ref (owner st') = hwctx_av_device_ref (owner st) /\
    is_gl (owner st') = false /\ is_vk (owner st') = false.
Proof.
  intros Hgl Hvk. destruct hw_ra; simpl in Hgl, Hvk; try discriminate.
  eexists. split; [reflexivity|]. repeat split.
Qed.

Lemma cuda_init_rejects_other_backends_witness :
  exists st',
    cuda_init ok_env Ra_other unloaded_state = Ret (-1, st') /\
    w st' = w unloaded_state /\ p st' = p unloaded_state /\
    owner_display_ctx (owner st') = owner_display_ctx (owner unloaded_state) /\
    decode_ctx (owner st') = decode_ctx (owner unloaded_state) /\
    hwctx_av_device_ref (owner st') = hwctx_av_device_ref (owner unloaded_state) /\
    is_gl (owner st') = false /\ is_vk (owner st') = false.
Proof.
  apply (cuda_init_rejects_other_backends ok_env Ra_other unloaded_state);
    reflexivity.
Defined.

(** C7, as documented, fails on two error paths: [mapper_uninit] ignores a
    failed push and still pops, which removes a context it did not push; and
    when the driver fails the pop itself, the pushed context stays. *)
Lemma stack_changed_when_push_or_pop_fails :
  ~ every_operation_balanced no_push_env /\ ~ every_operation_balanced no_pop_env.
Proof.
  split.
  - intros (_ & _ & H).
    pose proof (H (fresh_state [9] false true)) as H1.
    vm_compute in H1. specialize (H1 tt _ eq_refl). discriminate.
  - intros (_ & H & _).
    pose proof (H (fresh_state [9] false true)) as H1.
    vm_compute in H1. specialize (H1 _ _ eq_refl). discriminate.
Qed.

Lemma mapper_init_restores_stack (env : environment) :
  pop_succeeds env -> leaves_stack_unchanged (mapper_init env).
Proof.
  intros Hpop st r st' H. unfold mapper_init in H.
  apply bind_inv in H. destruct H as (s0 & st0 & Hget & H).
  injection Hget as <- <-.
  apply bind_inv in H. destruct H as ([] & st1 & Hmod & H).
  injection Hmod as <-.
  destruct (ra_get_imgfmt_desc env (src_hw_subfmt (p st))) as [desc|].
  - apply bind_inv in H. destruct H as (r0 & st2 & Hpush & H).
    destruct (push_inv _ _ _ _ _ Hpush) as [[Hr Hs]|[Hr Hs]]; rewrite Hr in H.
    + simpl in H.
      apply bind_inv in H. destruct H as (r1 & st3 & Hloop & H).
      apply keeps_init_planes in Hloop.
      apply bind_inv in H. destruct H as (e & st4 & He & H).
      destruct (pop_inv _ _ _ _ Hpop He) as [Hc Ht].
      rewrite Hc in H. simpl in H. injection H as _ <-.
      rewrite Ht, Hloop, Hs. reflexivity.
    + simpl in H. injection H as _ <-. exact Hs.
  - injection H as _ <-. reflexivity.
Qed.

Lemma mapper_map_restores_stack (env : environment) :
  pop_succeeds env -> leaves_stack_unchanged (mapper_map env).
Proof.
  intros Hpop st r st' H. unfold mapper_map in H.
  apply bind_inv in H. destruct H as (s0 & st0 & Hget & H).
  injection Hget as <- <-.
  apply bind_inv in H. destruct H as (r0 & st2 & Hpush & H).
  destruct (push_inv _ _ _ _ _ Hpush) as [[Hr Hs]|[Hr Hs]]; rewrite Hr in H.
  - simpl in H.
    apply bind_inv in H. destruct H as (r1 & st3 & Hloop & H).
    apply keeps_map_planes in Hloop.
    apply bind_inv in H. destruct H as (e & st4 & He & H).
    destruct (pop_inv _ _ _ _ Hpop He) as [Hc Ht].
    rewrite Hc in H. simpl in H. injection H as _ <-.
    rewrite Ht, Hloop, Hs. reflexivity.
  - simpl in H. injection H as _ <-. exact Hs.
Qed.

Lemma mapper_uninit_restores_stack (env : environment) :
  pop_succeeds env -> push_succeeds env ->
  leaves_stack_unchanged (mapper_uninit env).
Proof.
  intros Hpop Hpush st r st' H. unfold mapper_uninit in H.
  apply bind_inv in H. destruct H as (s0 & st0 & Hget & H).
  injection Hget as <- <-.
  apply bind_inv in H. destruct H as ([] & st1 & Hpoll & H).
  assert (Hs1 : ctx_stack (w st1) = ctx_stack (w st)).
  { revert Hpoll. destruct (is_vk (owner st)); [apply keeps_ext_ | apply keeps_ret]. }
  apply bind_inv in H. destruct H as (r0 & st2 & Hp & H).
  apply (push_ok_inv _ _ _ _ _ Hpush) in Hp.
  apply bind_inv in H. destruct H as ([] & st3 & Hloop & H).
  apply keeps_uninit_planes in Hloop.
  apply bind_inv in H. destruct H as (e & st4 & He & H).
  destruct (pop_inv _ _ _ _ Hpop He) as [_ Ht].
  injection H as _ <-. rewrite Ht, Hloop, Hp. simpl. exact Hs1.
Qed.

(** C7, amended: when the driver's [cuCtxPopCurrent] succeeds, [mapper_init]
    and [mapper_map] leave the stack of current contexts unchanged on the
    success path and on every error path (a failed push returns at once,
    without a pop); [mapper_uninit] does so when its push succeeds as well. *)
Theorem mapper_operations_restore_stack (env : environment) :
  pop_succeeds env ->
  leaves_stack_unchanged (mapper_init env) /\
  leaves_stack_unchanged (mapper_map env) /\
  (push_succeeds env -> leaves_stack_unchanged (mapper_uninit env)).
Proof.
  intros Hpop. split; [|split].
  - now apply mapper_init_restores_stack.
  - now apply mapper_map_restores_stack.
  - intros Hpush. now apply mapper_uninit_restores_stack.
Qed.

Lemma mapper_operations_restore_stack_witness :
  match mapper_init ok_env (fresh_state [9] false true) with
  | Ret (_, st') => ctx_stack (w st') = [9]
  | Undefined => False
  end /\
  match mapper_map ok_env (fresh_state [9] true false) with
  | Ret (_, st') => ctx_stack (w st') = [9]
  | Undefined => False
  end /\
  match mapper_uninit ok_env (fresh_state [9] false true) with
  | Ret (_, st') => ctx_stack (w st') = [9]
  | Undefined => False
  end.
Proof.
  assert (Hpop : pop_succeeds ok_env) by (intros t; reflexivity).
  assert (Hpush : push_succeeds ok_env) by (intros t c; reflexivity).
  destruct (mapper_operations_restore_stack ok_env Hpop) as (Hi & Hm & Hu).
  split; [|split].
  - destruct (mapper_init ok_env (fresh_state [9] false true)) as [[a st']|] eqn:E.
    + exact (Hi _ _ _ E).
    + vm_compute in E. discriminate.
  - destruct (mapper_map ok_env (fresh_state [9] true false)) as [[a st']|] eqn:E.
    + exact (Hm _ _ _ E).
    + vm_compute in E. discriminate.
  - destruct (mapper_uninit ok_env (fresh_state [9] false true)) as [[a st']|] eqn:E.
    + exact (Hu Hpush _ _ _ E).
    + vm_compute in E. discriminate.
Defined.

(** C8: in the Vulkan path [mapper_init] stores the [bool] of
    [cuda_ebuf_init] in [ret] and tests [ret < 0], which a [bool] never
    satisfies: when [ra_vk_tex_get_external_info] fails, [cuda_ebuf_init]
    returns false for both planes and [mapper_init] still returns 0. *)
Theorem mapper_init_ignores_cuda_ebuf_init_failure :
  result_of (cuda_ebuf_init no_external_info_env r8 0 (fresh_state [] false true))
  = Ret false /\
  result_of (mapper_init no_external_info_env (fresh_state [] false true)) = Ret 0.
Proof. split; reflexivity. Qed.

End HwdecCudaFacts.

(** ** The VA-API interop *)

Module HwdecVaapiFacts.

Import HwdecVaapi.

Local Open Scope cmonad_scope.

(** *** Arrays of four *)

Lemma list_set_length {A : Type} (l : list A) (n : nat) (a : A) :
  List.length (list_set l n a) = List.length l.
Proof.
  revert n. induction l as [|h t IH]; intros [|n]; simpl; auto.
Qed.

Lemma nth_list_set_eq {A : Type} (l : list A) (n : nat) (a d : A) :
  (n < List.length l)%nat -> nth n (list_set l n a) d = a.
Proof.
  revert n. induction l as [|h t IH]; intros [|n]; simpl; intros H; try lia; auto.
  apply IH. lia.
Qed.

Lemma nth_list_set_neq {A : Type} (l : list A) (n j : nat) (a d : A) :
  j <> n -> nth j (list_set l n a) d = nth j l d.
Proof.
  revert n j. induction l as [|h t IH]; intros [|n] [|j]; simpl; intros H;
    try reflexivity; try lia.
  apply IH. lia.
Qed.

Lemma zlookup_nth {A : Type} (l : list A) (i : Z) (a d : A) :
  zlookup l i = Some a ->
  0 <= i /\ (Z.to_nat i < List.length l)%nat /\ nth (Z.to_nat i) l d = a.
Proof.
  unfold zlookup. destruct (Z.ltb_spec i 0) as [Hi|Hi]; [discriminate|]. intros H.
  split; [assumption|]. split.
  - apply nth_error_Some. congruence.
  - now apply nth_error_nth.
Qed.

Lemma zlookup_of_nth {A : Type} (l : list A) (n : nat) (d : A) :
  (n < List.length l)%nat -> zlookup l (Z.of_nat n) = Some (nth n l d).
Proof.
  intros H. unfold zlookup. destruct (Z.ltb_spec (Z.of_nat n) 0); [lia|].
  rewrite Nat2Z.id. now apply nth_error_nth'.
Qed.

Lemma zlookup_at {A : Type} (l : list A) (i : Z) (n : nat) (d : A) :
  i = Z.of_nat n /\ (n < List.length l)%nat -> zlookup l i = Some (nth n l d).
Proof. intros [-> H]. now apply zlookup_of_nth. Qed.

Lemma owned_set_none {A : Type} (handle : A -> Z) (l : list (option A)) (n : nat) :
  nth n l None = None -> owned handle (list_set l n None) = owned handle l.
Proof.
  revert n. induction l as [|h t IH]; intros [|n]; simpl; intros H; auto.
  - now subst h.
  - destruct h; [f_equal|]; now apply IH.
Qed.

Lemma owned_set_some {A : Type} (handle : A -> Z) (l : list (option A)) (n : nat)
  (a : A) :
  (n < List.length l)%nat -> nth n l None = None ->
  Permutation (owned handle (list_set l n (Some a))) (handle a :: owned handle l).
Proof.
  revert n. induction l as [|h t IH]; intros [|n]; simpl; intros Hn H; try lia.
  - subst h. reflexivity.
  - destruct h as [b|].
    + rewrite (IH n); [apply perm_swap | lia | assumption].
    + apply IH; [lia | assumption].
Qed.

(** *** Releasing objects *)

Lemma remove_one_in (h : Z) (l : list Z) :
  In h l -> Permutation l (h :: remove_one h l).
Proof.
  induction l as [|x t IH]; simpl; [contradiction|].
  destruct (Z.eqb_spec x h) as [->|Hne]; [reflexivity|].
  intros [E|Hin]; [contradiction|].
  rewrite (IH Hin) at 1. apply perm_swap.
Qed.

Lemma remove_one_perm (h : Z) (l l' : list Z) :
  Permutation l (h :: l') -> Permutation (remove_one h l) l'.
Proof.
  intros H. apply (Permutation_cons_inv (a := h)).
  rewrite <- H. symmetry. apply remove_one_in.
  apply (Permutation_in h (Permutation_sym H)). now left.
Qed.

(** *** Inversion of the primitives *)

Lemma ext_inv (env : environment) (c : call) (st st' : state) (a : answer) :
  ext env c st = Ret (a, st') ->
  a = answers env (trace st) c /\ st' = log_call c st.
Proof. intros H. injection H as <- <-. auto. Qed.

Lemma ext__inv (env : environment) (c : call) (st st' : state) (u : unit) :
  ext_ env c st = Ret (u, st') -> st' = log_call c st.
Proof. intros H. injection H as _ <-. reflexivity. Qed.

Lemma index4_inv {A : Type} (l : list A) (n : Z) (st st' : state) (a : A) :
  index4 l n st = Ret (a, st') -> st' = st /\ zlookup l n = Some a.
Proof.
  unfold index4. destruct (n <? 4); [|discriminate].
  destruct (zlookup l n); [|discriminate].
  intros H. injection H as <- <-. auto.
Qed.

Lemma store_tex_inv (n : Z) (v : option ra_tex) (st st' : state) (u : unit) :
  store_tex n v st = Ret (u, st') ->
  st' = set_tex (list_set (tex st) (Z.to_nat n) v) st /\
  0 <= n /\ (Z.to_nat n < List.length (tex st))%nat.
Proof.
  unfold store_tex. intros H.
  apply bind_inv in H. destruct H as (s0 & s1 & Hg & H). injection Hg as <- <-.
  apply bind_inv in H. destruct H as (a & s2 & Hi & H).
  apply index4_inv in Hi. destruct Hi as [-> Hl].
  injection H as _ <-. split; [reflexivity|].
  destruct (zlookup_nth _ _ _ a Hl) as (H0 & H1 & _). auto.
Qed.

Lemma store_mem_inv (n : Z) (v : option pl_vulkan_mem) (st st' : state) (u : unit) :
  store_mem n v st = Ret (u, st') ->
  st' = set_mem (list_set (mem st) (Z.to_nat n) v) st /\
  0 <= n /\ (Z.to_nat n < List.length (mem st))%nat.
Proof.
  unfold store_mem. intros H.
  apply bind_inv in H. destruct H as (s0 & s1 & Hg & H). injection Hg as <- <-.
  apply bind_inv in H. destruct H as (a & s2 & Hi & H).
  apply index4_inv in Hi. destruct Hi as [-> Hl].
  injection H as _ <-. split; [reflexivity|].
  destruct (zlookup_nth _ _ _ a Hl) as (H0 & H1 & _). auto.
Qed.

Lemma owned_clear_some {A : Type} (handle : A -> Z) (l : list (option A))
  (n : nat) (a : A) :
  (n < List.length l)%nat -> nth n l None = Some a ->
  Permutation (owned handle l) (handle a :: owned handle (list_set l n None)).
Proof.
  revert n. induction l as [|h t IH]; intros [|n]; simpl; intros Hn H; try lia.
  - subst h. reflexivity.
  - destruct h as [b|].
    + rewrite (IH n); [apply perm_swap | lia | assumption].
    + apply IH; [lia | assumption].
Qed.

(** Clearing a slot releases what it held and keeps the account. *)
Lemma account_clear {A : Type} (handle : A -> Z) (l : list (option A)) (n : nat)
  (live base : list Z) :
  (n < List.length l)%nat ->
  Permutation live (owned handle l ++ base) ->
  Permutation (match nth n l None with
               | Some a => remove_one (handle a) live
               | None => live
               end)
              (owned handle (list_set l n None) ++ base).
Proof.
  intros Hn Hp. destruct (nth n l None) as [a|] eqn:E.
  - apply remove_one_perm. rewrite Hp.
    rewrite (owned_clear_some handle l n a Hn E). reflexivity.
  - now rewrite owned_set_none.
Qed.

(** Four cleared slots are the empty array. *)
Lemma cleared_no_slot {A : Type} (l : list (option A)) :
  List.length l = 4%nat ->
  (forall j, (j < 4)%nat -> nth j l None = None) ->
  l = no_slot.
Proof.
  intros Hl H.
  destruct l as [|a [|b [|c [|d [|]]]]]; try discriminate.
  pose proof (H 0%nat ltac:(lia)) as H0. pose proof (H 1%nat ltac:(lia)) as H1.
  pose proof (H 2%nat ltac:(lia)) as H2. pose proof (H 3%nat ltac:(lia)) as H3.
  simpl in *. now subst.
Qed.

(** *** [mapper_unmap] *)

(** One turn of the loop of [mapper_unmap]. *)
Lemma unmap_slot_inv (env : environment) (n : nat) (st st' : state) (u : unit) :
  (ra_tex_free env (Z.of_nat n) ;;;
   s <- get ;;
   m <- index4 (mem s) (Z.of_nat n) ;;
   (match m with
    | Some m' => pl_vulkan_mem_deref env m'
    | None => ret tt
    end) ;;;
   store_mem (Z.of_nat n) None) st = Ret (u, st') ->
  (n < List.length (tex st))%nat /\ (n < List.length (mem st))%nat /\
  tex st' = list_set (tex st) n None /\
  mem st' = list_set (mem st) n None /\
  live_tex st' = match nth n (tex st) None with
                 | Some t => remove_one (pltex t) (live_tex st)
                 | None => live_tex st
                 end /\
  live_mem st' = match nth n (mem st) None with
                 | Some m => remove_one (mem_handle m) (live_mem st)
                 | None => live_mem st
                 end /\
  devs st' = devs st.
Proof.
  intros H.
  apply bind_inv in H. destruct H as ([] & s1 & Hfree & H).
  unfold ra_tex_free in Hfree.
  apply bind_inv in Hfree. destruct Hfree as (s0 & s0' & Hg & Hfree).
  injection Hg as <- <-.
  apply bind_inv in Hfree. destruct Hfree as (t & s2 & Hi & Hfree).
  apply index4_inv in Hi. destruct Hi as [-> Ht].
  destruct (zlookup_nth _ _ _ None Ht) as (_ & Hlt & Hnth).
  rewrite Nat2Z.id in Hlt, Hnth.
  assert (Hs1 : (n < List.length (tex st))%nat /\
                tex s1 = list_set (tex st) n None /\ mem s1 = mem st /\
                live_mem s1 = live_mem st /\ devs s1 = devs st /\
                live_tex s1 = match t with
                              | Some t' => remove_one (pltex t') (live_tex st)
                              | None => live_tex st
                              end).
  { destruct t as [t'|].
    - apply bind_inv in Hfree. destruct Hfree as ([] & s3 & He & Hfree).
      apply ext__inv in He. subst s3.
      apply bind_inv in Hfree. destruct Hfree as ([] & s4 & Hm & Hfree).
      injection Hm as <-.
      apply store_tex_inv in Hfree. destruct Hfree as (-> & _ & _).
      simpl. rewrite Nat2Z.id. repeat split; assumption.
    - apply store_tex_inv in Hfree. destruct Hfree as (-> & _ & _).
      simpl. rewrite Nat2Z.id. repeat split; assumption. }
  destruct Hs1 as (Hl1 & Htex1 & Hmem1 & Hlm1 & Hdev1 & Hlt1).
  apply bind_inv in H. destruct H as (s5 & s5' & Hg & H). injection Hg as <- <-.
  apply bind_inv in H. destruct H as (m & s6 & Hi & H).
  apply index4_inv in Hi. destruct Hi as [-> Hm].
  destruct (zlookup_nth _ _ _ None Hm) as (_ & Hltm & Hnthm).
  rewrite Nat2Z.id in Hltm, Hnthm. rewrite Hmem1 in Hltm, Hnthm.
  apply bind_inv in H. destruct H as ([] & s7 & Hd & H).
  apply store_mem_inv in H. destruct H as (-> & _ & _).
  rewrite Hnth, Hnthm. simpl. rewrite Nat2Z.id.
  destruct m as [m'|].
  - unfold pl_vulkan_mem_deref in Hd.
    apply bind_inv in Hd. destruct Hd as ([] & s8 & He & Hd).
    apply ext__inv in He. subst s8. injection Hd as <-. simpl.
    rewrite Htex1, Hmem1, Hlm1, Hdev1, Hlt1. repeat split; assumption.
  - injection Hd as <-.
    rewrite Htex1, Hmem1, Hlm1, Hdev1, Hlt1. repeat split; assumption.
Qed.

(** A turn of the loop, and the rest of the loop. *)
Lemma unmap_slots_step (env : environment) (todo n : nat) (st st' : state)
  (u : unit) :
  unmap_slots env (S todo) (Z.of_nat n) st = Ret (u, st') ->
  exists s1,
    (ra_tex_free env (Z.of_nat n) ;;;
     s <- get ;;
     m <- index4 (mem s) (Z.of_nat n) ;;
     (match m with
      | Some m' => pl_vulkan_mem_deref env m'
      | None => ret tt
      end) ;;;
     store_mem (Z.of_nat n) None) st = Ret (tt, s1) /\
    unmap_slots env todo (Z.of_nat (S n)) s1 = Ret (u, st').
Proof.
  intros H. simpl in H.
  replace (Z.of_nat (S n)) with (Z.of_nat n + 1) by lia.
  unfold bind in *.
  destruct (ra_tex_free env (Z.of_nat n) st) as [[[] s1]|]; [|discriminate].
  simpl in *.
  destruct (index4 (mem s1) (Z.of_nat n) s1) as [[m s2]|]; [|discriminate].
  destruct (match m with
            | Some m' => pl_vulkan_mem_deref env m'
            | None => ret tt
            end s2) as [[[] s3]|]; [|discriminate].
  destruct (store_mem (Z.of_nat n) None s3) as [[[] s4]|]; [|discriminate].
  eauto.
Qed.


(** The loop of [mapper_unmap] from slot [n] on, the slots below being
    cleared already: in the end all are cleared and only the objects of
    others are live. *)
Lemma unmap_slots_inv (env : environment) (base_m base_t : list Z) (todo : nat) :
  forall (n : nat) (st st' : state) (u : unit),
  unmap_slots env todo (Z.of_nat n) st = Ret (u, st') ->
  (n + todo = 4)%nat ->
  List.length (tex st) = 4%nat -> List.length (mem st) = 4%nat ->
  (forall j, (j < n)%nat -> nth j (tex st) None = None) ->
  (forall j, (j < n)%nat -> nth j (mem st) None = None) ->
  mem_accounted base_m st -> tex_accounted base_t st ->
  tex st' = no_slot /\ mem st' = no_slot /\
  Permutation (live_mem st') base_m /\ Permutation (live_tex st') base_t /\
  devs st' = devs st.
Proof.
  induction todo as [|todo IH]; intros n st st' u H Hn Hlt Hlm Hct Hcm Ham Hat.
  - injection H as _ <-.
    assert (n = 4%nat) by lia. subst n.
    pose proof (cleared_no_slot _ Hlt Hct) as Et.
    pose proof (cleared_no_slot _ Hlm Hcm) as Em.
    unfold mem_accounted, tex_accounted in *. rewrite Et in Hat. rewrite Em in Ham.
    simpl in *. repeat split; auto.
  - apply unmap_slots_step in H. destruct H as (s1 & Hslot & Hrest).
    apply unmap_slot_inv in Hslot.
    destruct Hslot as (Hn1 & Hn2 & Htex & Hmem & Hltex & Hlmem & Hdev).
    destruct (IH (S n) s1 st' u Hrest) as (R1 & R2 & R3 & R4 & R5).
    + lia.
    + rewrite Htex. now rewrite list_set_length.
    + rewrite Hmem. now rewrite list_set_length.
    + intros j Hj. rewrite Htex. destruct (Nat.eq_dec j n) as [->|Hne].
      * now apply nth_list_set_eq.
      * rewrite nth_list_set_neq by assumption. apply Hct. lia.
    + intros j Hj. rewrite Hmem. destruct (Nat.eq_dec j n) as [->|Hne].
      * now apply nth_list_set_eq.
      * rewrite nth_list_set_neq by assumption. apply Hcm. lia.
    + unfold mem_accounted. rewrite Hlmem, Hmem. now apply account_clear.
    + unfold tex_accounted. rewrite Hltex, Htex. now apply account_clear.
    + rewrite R5, Hdev. auto.
Qed.

Lemma mapper_unmap_inv (env : environment) (base_m base_t : list Z)
  (st st' : state) (u : unit) :
  mapper_unmap env st = Ret (u, st') ->
  List.length (tex st) = 4%nat -> List.length (mem st) = 4%nat ->
  mem_accounted base_m st -> tex_accounted base_t st ->
  tex st' = no_slot /\ mem st' = no_slot /\
  Permutation (live_mem st') base_m /\ Permutation (live_tex st') base_t /\
  devs st' = devs st.
Proof.
  intros H Hlt Hlm Ham Hat.
  apply (unmap_slots_inv env base_m base_t 4 0 st st' u); auto; intros j Hj; lia.
Qed.


(** *** The import loops keep the account *)

Lemma empty_from_no_slot {A : Type} (i : nat) : empty_from (@no_slot A) i.
Proof.
  intros j _. unfold no_slot.
  destruct j as [|[|[|[|[|j]]]]]; reflexivity.
Qed.

Lemma empty_from_set {A : Type} (l : list (option A)) (i : nat) (v : option A) :
  empty_from l i -> empty_from (list_set l i v) (S i).
Proof.
  intros H j Hj. rewrite nth_list_set_neq by lia. apply H. lia.
Qed.

(** Whether the loop over the objects ends or breaks off, every object it
    imported is held by a slot of [p->mem]. *)
Lemma import_objects_account (env : environment) (base : list Z)
  (objs : list va_object) :
  forall (i : nat) (st st' : state) (ok : bool),
  import_objects env objs (Z.of_nat i) st = Ret (ok, st') ->
  List.length (mem st) = 4%nat -> empty_from (mem st) i ->
  mem_accounted base st ->
  List.length (mem st') = 4%nat /\ mem_accounted base st' /\
  tex st' = tex st /\ live_tex st' = live_tex st /\ devs st' = devs st.
Proof.
  induction objs as [|o rest IH]; intros i st st' ok H Hl He Ha.
  - injection H as _ <-. auto.
  - simpl in H.
    apply bind_inv in H. destruct H as (a & s1 & Hx & H).
    apply ext_inv in Hx. destruct Hx as [_ ->].
    apply bind_inv in H. destruct H as ([] & s2 & Hs & H).
    destruct (res a =? 0).
    + apply store_mem_inv in Hs. destruct Hs as (-> & _ & Hlt).
      apply bind_inv in H. destruct H as ([] & s3 & Hc & H).
      apply ext__inv in Hc. subst s3. injection H as _ <-.
      rewrite Nat2Z.id in *. simpl in *.
      split; [now rewrite list_set_length|].
      split; [|auto].
      unfold mem_accounted. simpl.
      rewrite owned_set_none; [exact Ha | apply He; lia].
    + apply bind_inv in Hs. destruct Hs as ([] & s3 & Hm & Hs).
      injection Hm as <-.
      apply store_mem_inv in Hs. destruct Hs as (-> & _ & Hlt).
      rewrite Nat2Z.id in *. simpl in Hlt.
      replace (Z.of_nat i + 1) with (Z.of_nat (S i)) in H by lia.
      apply IH in H.
      * simpl in H. exact H.
      * simpl. now rewrite list_set_length.
      * simpl. now apply empty_from_set.
      * unfold mem_accounted. simpl.
        rewrite owned_set_some; [|assumption | apply He; lia].
        simpl. apply perm_skip. exact Ha.
Qed.

(** The same for the loop over the layers and the slots of [mapper->tex]. *)
Lemma import_layers_account (env : environment) (fmts : ra_imgfmt_desc)
  (base : list Z) (ls : list va_layer) :
  forall (n : nat) (st st' : state) (ok : bool),
  import_layers env fmts ls (Z.of_nat n) st = Ret (ok, st') ->
  List.length (tex st) = 4%nat -> empty_from (tex st) n ->
  tex_accounted base st ->
  List.length (tex st') = 4%nat /\ tex_accounted base st' /\
  mem st' = mem st /\ live_mem st' = live_mem st /\ devs st' = devs st.
Proof.
  induction ls as [|l rest IH]; intros n st st' ok H Hl He Ha.
  - injection H as _ <-. auto.
  - simpl in H.
    destruct (layer_num_planes l >? 1).
    { injection H as _ <-. auto. }
    destruct (zlookup (planes fmts) (Z.of_nat n)) as [format|]; [|discriminate].
    apply bind_inv in H. destruct H as (s0 & s0' & Hg & H). injection Hg as <- <-.
    apply bind_inv in H. destruct H as (m & s1 & Hi & H).
    apply index4_inv in Hi. destruct Hi as [-> _].
    apply bind_inv in H. destruct H as (t & s2 & Hx & H).
    apply ext_inv in Hx. destruct Hx as [_ ->].
    destruct (res t =? 0).
    { injection H as _ <-. auto. }
    apply bind_inv in H. destruct H as ([] & s3 & Hm & H). injection Hm as <-.
    apply bind_inv in H. destruct H as (wr & s4 & Hx & H).
    apply ext_inv in Hx. destruct Hx as [_ ->].
    destruct (res wr =? 0).
    + apply bind_inv in H. destruct H as ([] & s5 & Hd & H).
      apply ext__inv in Hd. subst s5.
      apply bind_inv in H. destruct H as ([] & s6 & Hm & H). injection Hm as <-.
      injection H as _ <-. simpl. rewrite Z.eqb_refl. auto.
    + apply bind_inv in H. destruct H as ([] & s5 & Hs & H).
      apply store_tex_inv in Hs. destruct Hs as (-> & _ & Hlt).
      apply bind_inv in H. destruct H as ([] & s6 & Hr & H).
      apply ext__inv in Hr. subst s6.
      rewrite Nat2Z.id in *. simpl in Hlt.
      replace (Z.of_nat n + 1) with (Z.of_nat (S n)) in H by lia.
      apply IH in H.
      * simpl in H. exact H.
      * simpl. now rewrite list_set_length.
      * simpl. now apply empty_from_set.
      * unfold tex_accounted. simpl.
        rewrite owned_set_some; [|assumption | apply He; lia].
        simpl. apply perm_skip. exact Ha.
Qed.







(** *** A successful map *)

(** When the loop over the objects runs to its end, slot [i + k] holds the
    import of the [k]-th object. *)
Lemma import_objects_success (env : environment) (objs : list va_object) :
  forall (i : nat) (st st' : state),
  import_objects env objs (Z.of_nat i) st = Ret (true, st') ->
  List.length (mem st') = List.length (mem st) /\
  tex st' = tex st /\ desc st' = desc st /\
  (forall j, (j < i)%nat -> nth j (mem st') None = nth j (mem st) None) /\
  (forall k o, nth_error objs k = Some o ->
     exists m, zlookup (mem st') (Z.of_nat (i + k)) = Some (Some m) /\
               mem_fd m = fd o /\ mem_size m = size o).
Proof.
  induction objs as [|o rest IH]; intros i st st' H.
  - injection H as <-. repeat split; auto. intros [|k] o' Hk; discriminate.
  - simpl in H.
    apply bind_inv in H. destruct H as (a & s1 & Hx & H).
    apply ext_inv in Hx. destruct Hx as [_ ->].
    apply bind_inv in H. destruct H as ([] & s2 & Hs & H).
    destruct (res a =? 0).
    { apply bind_inv in H. destruct H as ([] & s3 & _ & H). discriminate. }
    apply bind_inv in Hs. destruct Hs as ([] & s3 & Hm & Hs). injection Hm as <-.
    apply store_mem_inv in Hs. destruct Hs as (-> & _ & Hlt).
    rewrite Nat2Z.id in *. simpl in Hlt.
    replace (Z.of_nat i + 1) with (Z.of_nat (S i)) in H by lia.
    apply IH in H.
    destruct H as (Hlen & Htex & Hdesc & Hbelow & Hslots).
    simpl in Hlen, Htex, Hdesc, Hbelow.
    rewrite list_set_length in Hlen.
    split; [assumption|]. split; [assumption|]. split; [assumption|]. split.
    + intros j Hj. rewrite Hbelow by lia. apply nth_list_set_neq. lia.
    + intros [|k] o' Hk.
      * injection Hk as <-. rewrite Nat.add_0_r.
        eexists. split.
        -- rewrite (zlookup_of_nth _ _ None) by lia.
           rewrite Hbelow by lia. now rewrite nth_list_set_eq.
        -- split; reflexivity.
      * destruct (Hslots k o' Hk) as (m & Hz & Hm).
        exists m. split; [|assumption].
        now replace (i + S k)%nat with (S i + k)%nat by lia.
Qed.

(** When the loop over the layers runs to its end, no layer has more than one
    plane and slot [n + k] holds the texture of the [k]-th layer, imported
    from the memory object the layer names. *)
Lemma import_layers_success (env : environment) (fmts : ra_imgfmt_desc)
  (ls : list va_layer) :
  forall (n : nat) (st st' : state),
  import_layers env fmts ls (Z.of_nat n) st = Ret (true, st') ->
  List.length (tex st') = List.length (tex st) /\
  mem st' = mem st /\ desc st' = desc st /\
  (forall j, (j < n)%nat -> nth j (tex st') None = nth j (tex st) None) /\
  (forall k l, nth_error ls k = Some l ->
     layer_num_planes l <= 1 /\
     exists t, zlookup (tex st') (Z.of_nat (n + k)) = Some (Some t) /\
               zlookup (mem st) (object_index0 l) = Some (tex_mem t) /\
               tex_offset t = offset0 l).
Proof.
  induction ls as [|l rest IH]; intros n st st' H.
  - injection H as <-. repeat split; auto; destruct k; discriminate.
  - simpl in H.
    destruct (Z.gtb_spec (layer_num_planes l) 1) as [Hgt|Hle]; [discriminate|].
    destruct (zlookup (planes fmts) (Z.of_nat n)) as [format|]; [|discriminate].
    apply bind_inv in H. destruct H as (s0 & s0' & Hg & H). injection Hg as <- <-.
    apply bind_inv in H. destruct H as (m & s1 & Hi & H).
    apply index4_inv in Hi. destruct Hi as [-> Hmem].
    apply bind_inv in H. destruct H as (t & s2 & Hx & H).
    apply ext_inv in Hx. destruct Hx as [_ ->].
    destruct (res t =? 0); [discriminate|].
    apply bind_inv in H. destruct H as ([] & s3 & Hm & H). injection Hm as <-.
    apply bind_inv in H. destruct H as (wr & s4 & Hx & H).
    apply ext_inv in Hx. destruct Hx as [_ ->].
    destruct (res wr =? 0).
    { apply bind_inv in H. destruct H as ([] & s5 & _ & H).
      apply bind_inv in H. destruct H as ([] & s6 & _ & H). discriminate. }
    apply bind_inv in H. destruct H as ([] & s5 & Hs & H).
    apply store_tex_inv in Hs. destruct Hs as (-> & _ & Hlt).
    apply bind_inv in H. destruct H as ([] & s6 & Hr & H).
    apply ext__inv in Hr. subst s6.
    rewrite Nat2Z.id in *. simpl in Hlt.
    replace (Z.of_nat n + 1) with (Z.of_nat (S n)) in H by lia.
    apply IH in H.
    destruct H as (Hlen & Hm' & Hdesc & Hbelow & Hslots).
    simpl in Hlen, Hm', Hdesc, Hbelow.
    rewrite list_set_length in Hlen.
    split; [assumption|]. split; [assumption|]. split; [assumption|]. split.
    + intros j Hj. rewrite Hbelow by lia. apply nth_list_set_neq. lia.
    + intros [|k] l' Hk.
      * injection Hk as <-. rewrite Nat.add_0_r. split; [assumption|].
        eexists. split.
        -- rewrite (zlookup_of_nth _ _ None) by lia.
           rewrite Hbelow by lia. now rewrite nth_list_set_eq.
        -- split; [exact Hmem | reflexivity].
      * destruct (Hslots k l' Hk) as (Hp & t' & Hz & Ht).
        split; [assumption|]. exists t'. split; [|exact Ht].
        now replace (n + S k)%nat with (S n + k)%nat by lia.
Qed.

Lemma mapper_map_error_fails (env : environment) (st st' : state) :
  mapper_map_error env st <> Ret (0, st').
Proof.
  unfold mapper_map_error. intros H.
  apply bind_inv in H. destruct H as ([] & s1 & _ & H). discriminate.
Qed.

(** The exchange of [tex[1]] and [tex[2]]. *)
Lemma swap_tex_1_2_inv (st st' : state) (u : unit) :
  swap_tex_1_2 st = Ret (u, st') ->
  (2 < List.length (tex st))%nat /\
  tex st' = list_set (list_set (tex st) 1 (nth 2 (tex st) None)) 2
              (nth 1 (tex st) None) /\
  mem st' = mem st /\ desc st' = desc st.
Proof.
  unfold swap_tex_1_2. intros H.
  apply bind_inv in H. destruct H as (s0 & s0' & Hg & H). injection Hg as <- <-.
  apply bind_inv in H. destruct H as (t1 & s1 & H1 & H).
  apply index4_inv in H1. destruct H1 as [-> H1].
  apply bind_inv in H. destruct H as (t2 & s2 & H2 & H).
  apply index4_inv in H2. destruct H2 as [-> H2].
  apply bind_inv in H. destruct H as ([] & s3 & Hs1 & H).
  apply store_tex_inv in Hs1. destruct Hs1 as (-> & _ & _).
  apply store_tex_inv in H. destruct H as (-> & _ & _).
  destruct (zlookup_nth _ _ _ None H1) as (_ & _ & E1).
  destruct (zlookup_nth _ _ _ None H2) as (_ & L2 & E2).
  change (Z.to_nat 1) with 1%nat in *. change (Z.to_nat 2) with 2%nat in *.
  rewrite E1, E2. repeat split. exact L2.
Qed.

Lemma zlookup_nat {A : Type} (l : list (option A)) (k : nat) (v : option A) :
  zlookup l (Z.of_nat k) = Some v ->
  (k < List.length l)%nat /\ nth k l None = v.
Proof.
  intros H. destruct (zlookup_nth _ _ _ None H) as (_ & Hl & Hn).
  rewrite Nat2Z.id in *. auto.
Qed.

(** C9, as documented, fails for YV12: the textures of layers 1 and 2 change
    places, so [tex[1]] is the texture imported from the object of layer 2. *)
Lemma yv12_textures_change_places :
  ~ every_layer_in_its_slot (ok_env VA_FOURCC_YV12) fresh_state.
Proof.
  unfold every_layer_in_its_slot.
  remember (mapper_map (ok_env VA_FOURCC_YV12) fresh_state) as o eqn:E.
  vm_compute in E. subst o. cbv beta iota. intros H.
  specialize (H eq_refl 1%nat _ eq_refl).
  destruct H as (_ & t & Ht & Hm).
  vm_compute in Ht. injection Ht as <-.
  vm_compute in Hm. discriminate.
Qed.

(** C9, amended: after a successful map, no layer of the exported descriptor
    has more than one plane, and the texture of layer [n] is a non-null
    texture imported from the memory object and offset the layer names; it is
    in [tex[n]], except that for YV12 the textures of layers 1 and 2 are in
    [tex[2]] and [tex[1]].  Slot [i] of [p->mem] holds the import of
    object [i]. *)
Theorem mapper_map_success_textures (env : environment) (st st' : state) :
  mapper_map env st = Ret (0, st') ->
  desc st' = exported env /\
  (forall n l, nth_error (layers (desc st')) n = Some l ->
     layer_num_planes l <= 1 /\
     layer_texture_at st' (slot_of_layer (desc st') (Z.of_nat n)) l) /\
  (forall i o, nth_error (objects (desc st')) i = Some o ->
     exists m, zlookup (mem st') (Z.of_nat i) = Some (Some m) /\ mem_fd m = fd o).
Proof.
  intros H. unfold mapper_map in H.
  apply bind_inv in H. destruct H as (status & s1 & Hx & H).
  apply ext_inv in Hx. destruct Hx as [_ ->].
  apply bind_inv in H. destruct H as ([] & s2 & Hd & H).
  destruct (res status =? VA_STATUS_SUCCESS); simpl in H;
    [|now apply mapper_map_error_fails in H].
  injection Hd as <-.
  apply bind_inv in H. destruct H as (s0 & s0' & Hg & H). injection Hg as <- <-.
  simpl in H.
  destruct (ra_get_imgfmt_desc env (dst_imgfmt st)) as [fmts|];
    [|now apply mapper_map_error_fails in H].
  apply bind_inv in H. destruct H as (ok & s3 & Ho & H).
  destruct ok; simpl in H; [|now apply mapper_map_error_fails in H].
  apply (import_objects_success env _ 0) in Ho. simpl in Ho.
  destruct Ho as (_ & _ & Hd3 & _ & Hobjs).
  apply bind_inv in H. destruct H as (ok' & s4 & Hl & H).
  destruct ok'; simpl in H; [|now apply mapper_map_error_fails in H].
  apply (import_layers_success env fmts _ 0) in Hl. simpl in Hl.
  destruct Hl as (_ & Hm4 & Hd4 & _ & Hlayers).
  apply bind_inv in H. destruct H as ([] & s5 & Hsw & H).
  injection H as <-.
  assert (Hfin : desc s5 = exported env /\ mem s5 = mem s3 /\
                 forall n t, zlookup (tex s4) (Z.of_nat n) = Some (Some t) ->
                   zlookup (tex s5) (slot_of_layer (exported env) (Z.of_nat n))
                   = Some (Some t)).
  { unfold slot_of_layer.
    destruct (fourcc (exported env) =? VA_FOURCC_YV12).
    - apply swap_tex_1_2_inv in Hsw. destruct Hsw as (L & Et & Em & Ed).
      split; [congruence|]. split; [congruence|].
      intros n t Hz. apply zlookup_nat in Hz. destruct Hz as [Hn Ht].
      rewrite Et.
      destruct (Z.eqb_spec (Z.of_nat n) 1) as [E1|E1];
        [|destruct (Z.eqb_spec (Z.of_nat n) 2) as [E2|E2]].
      + assert (n = 1%nat) by lia. subst n.
        rewrite (zlookup_at _ 2 2 None) by (rewrite ?list_set_length; lia).
        rewrite nth_list_set_eq by (rewrite !list_set_length; lia). now rewrite Ht.
      + assert (n = 2%nat) by lia. subst n.
        rewrite (zlookup_at _ 1 1 None) by (rewrite ?list_set_length; lia).
        rewrite nth_list_set_neq by lia.
        rewrite nth_list_set_eq by lia. now rewrite Ht.
      + rewrite (zlookup_at _ (Z.of_nat n) n None) by (rewrite ?list_set_length; lia).
        rewrite !nth_list_set_neq by lia. now rewrite Ht.
    - injection Hsw as <-. split; [congruence|]. split; [congruence|]. auto. }
  destruct Hfin as (Ed5 & Em5 & Hslot).
  split; [assumption|]. rewrite Ed5. split.
  - intros n l Hn. destruct (Hlayers n l Hn) as (Hp & t & Hz & Hmem & Hoff).
    split; [assumption|]. exists t. split; [now apply Hslot|].
    split; [|assumption]. now rewrite Em5.
  - intros i o Hi. destruct (Hobjs i o Hi) as (m & Hz & Hfd & _).
    exists m. split; [|assumption]. rewrite Em5. exact Hz.
Qed.

Lemma mapper_map_success_textures_witness :
  match mapper_map (ok_env VA_FOURCC_YV12) fresh_state with
  | Ret (r, st') =>
      r = 0 /\ desc st' = exported (ok_env VA_FOURCC_YV12) /\
      (forall n l, nth_error (layers (desc st')) n = Some l ->
         layer_num_planes l <= 1 /\
         layer_texture_at st' (slot_of_layer (desc st') (Z.of_nat n)) l) /\
      (forall i o, nth_error (objects (desc st')) i = Some o ->
         exists m, zlookup (mem st') (Z.of_nat i) = Some (Some m) /\ mem_fd m = fd o)
  | Undefined => False
  end.
Proof.
  destruct (mapper_map (ok_env VA_FOURCC_YV12) fresh_state) as [[r st']|] eqn:E.
  - assert (Hr : r = 0) by (vm_compute in E; now injection E as <- _).
    split; [exact Hr|]. subst r.
    exact (mapper_map_success_textures _ _ _ E).
  - vm_compute in E. discriminate.
Defined.


(** *** [init] *)



End HwdecVaapiFacts.

(** ** More on the [vulkan-display-spec] option *)

Module DisplaySpecFields.

Import DisplaySpec DisplaySpecFacts.

Local Open Scope string_scope.

Lemma bstrto0_plain_app (d s : string) :
  plain d = true -> bstrto0 (d ++ s) = d ++ bstrto0 s.
Proof.
  induction d as [|c t IH]; simpl; [reflexivity|].
  intros H. apply andb_prop in H. destruct H as [H Ht].
  apply andb_prop in H. destruct H as [_ Hn].
  apply negb_true_iff in Hn. rewrite Hn. f_equal. now apply IH.
Qed.

Lemma str_from_app (d s : string) :
  str_from (d ++ s) (String.length d) = bstrto0 s.
Proof.
  induction d as [|c t IH]; simpl; [apply str_from_0 | exact IH].
Qed.

Lemma str_from_succ_app (d s : string) (c : ascii) :
  str_from (d ++ String c s) (S (String.length d)) = bstrto0 s.
Proof.
  induction d as [|a t IH]; simpl; [apply str_from_0 | exact IH].
Qed.

Lemma index_of_colon_plain (d s : string) :
  plain d = true -> index_of colon (d ++ String colon s) = Some (String.length d).
Proof.
  induction d as [|c t IH]; simpl; [reflexivity|].
  intros H. apply andb_prop in H. destruct H as [H Ht].
  apply andb_prop in H. destruct H as [Hc Hn].
  apply negb_true_iff in Hn, Hc. rewrite Hn, Hc, (IH Ht). reflexivity.
Qed.

Lemma skip_space_app_colon (d s : string) :
  skip_space (d ++ String colon s) = skip_space d ++ String colon s.
Proof.
  induction d as [|c t IH]; simpl; [reflexivity|].
  destruct (isspace c); [exact IH | reflexivity].
Qed.

Lemma digits_app_colon (d s : string) (acc : Z) :
  digits (d ++ String colon s) acc = digits d acc.
Proof.
  revert acc. induction d as [|c t IH]; intros acc; simpl; [reflexivity|].
  destruct (digit_val c); [apply IH | reflexivity].
Qed.

(** [atoi] stops at the separator. *)
Lemma atoi_app_colon (d s : string) : atoi (d ++ String colon s) = atoi d.
Proof.
  unfold atoi, strtol10. rewrite skip_space_app_colon.
  destruct (skip_space d) as [|c t]; [reflexivity|].
  change (String c t ++ String colon s) with (String c (t ++ String colon s)).
  destruct c as [[] [] [] [] [] [] [] []]; rewrite ?digits_app_colon;
    try reflexivity;
    change (String ?a (t ++ String colon s)) with (String a t ++ String colon s);
    now rewrite digits_app_colon.
Qed.

Lemma byte_at_app (d s : string) (i : nat) :
  byte_at (d ++ s) (String.length d + i) = byte_at s i.
Proof.
  induction d as [|c t IH]; simpl; [reflexivity|].
  rewrite byte_at_cons. exact IH.
Qed.

Lemma byte_at_two_fields (d m p : string) (c1 c2 : ascii) :
  byte_at (d ++ String c1 (m ++ String c2 p))
    (S (S (String.length d + String.length m))) = byte_at p 0.
Proof.
  induction d as [|a t IH]; simpl String.length; simpl append.
  - rewrite byte_at_cons. simpl plus.
    induction m as [|b u IHm]; simpl String.length; simpl append.
    + now rewrite byte_at_cons.
    + rewrite byte_at_cons. exact IHm.
  - rewrite byte_at_cons. exact IH.
Qed.

Lemma str_from_two_fields (d m p : string) (c1 c2 : ascii) :
  str_from (d ++ String c1 (m ++ String c2 p))
    (S (S (String.length d + String.length m))) = bstrto0 p.
Proof.
  induction d as [|a t IH]; simpl String.length; simpl append.
  - simpl plus.
    change (str_from (String c1 (m ++ String c2 p)) (S (S (String.length m))))
      with (str_from (m ++ String c2 p) (S (String.length m))).
    apply str_from_succ_app.
  - exact IH.
Qed.

(** The parse of a text with two separators. *)
Lemma parse_display_spec_three_fields (d m p : string) :
  plain d = true -> plain m = true ->
  parse_display_spec (Some (d ++ String colon (m ++ String colon p)))
  = Ret (true, (atoi d, atoi m, atoi (bstrto0 p))).
Proof.
  intros Hd Hm. unfold parse_display_spec, strchr.
  rewrite str_from_0, index_of_bstrto0, (index_of_colon_plain _ _ Hd).
  simpl option_map. cbv iota beta.
  rewrite str_from_succ_app, index_of_bstrto0, (index_of_colon_plain _ _ Hm).
  simpl option_map. cbv iota beta.
  rewrite (bstrto0_plain_app d _ Hd).
  change (bstrto0 (String colon (m ++ String colon p)))
    with (String colon (bstrto0 (m ++ String colon p))).
  rewrite atoi_app_colon.
  rewrite (bstrto0_plain_app m _ Hm).
  change (bstrto0 (String colon p)) with (String colon (bstrto0 p)).
  rewrite atoi_app_colon.
  unfold ptr_succ, deref. simpl option_map. cbv iota beta.
  rewrite byte_at_two_fields, str_from_two_fields.
  destruct p as [|c t]; simpl; [reflexivity|].
  destruct (Ascii.eqb c NUL); reflexivity.
Qed.

(** X1: the three values are read from the text before the first ':',
    between the first and the second ':', and after the second ':' (up to
    the end of the C string); whatever [atoi] does not read is ignored. *)
Theorem parse_display_spec_fields (d m p : string) :
  plain d = true -> plain m = true ->
  parse_display_spec (Some (d ++ String colon (m ++ String colon p)))
  = Ret (true, (atoi d, atoi m, atoi (bstrto0 p))).
Proof. apply parse_display_spec_three_fields. Qed.

Lemma parse_display_spec_fields_witness :
  parse_display_spec (Some (" 1" ++ String colon ("+2x" ++ String colon "-3:9")))
  = Ret (true, (atoi " 1", atoi "+2x", atoi (bstrto0 "-3:9"))).
Proof.
  apply (parse_display_spec_fields " 1" "+2x" "-3:9"); reflexivity.
Defined.

(** *** Numerals *)

Lemma digit_val_digit_char (d : nat) :
  (d < 10)%nat -> digit_val (digit_char d) = Some (Z.of_nat d).
Proof.
  intros H. do 10 (destruct d as [|d]; [reflexivity|]). lia.
Qed.

Lemma plain_render (ds : list nat) : is_numeral ds -> plain (render ds) = true.
Proof.
  induction 1 as [|d t Hd Ht IH]; [reflexivity|].
  change (plain (render (d :: t)))
    with (negb (Ascii.eqb (digit_char d) colon) &&
          negb (Ascii.eqb (digit_char d) NUL) && plain (render t))%bool.
  rewrite IH. do 10 (destruct d as [|d]; [reflexivity|]). lia.
Qed.

Lemma bstrto0_plain (s : string) : plain s = true -> bstrto0 s = s.
Proof.
  induction s as [|c t IH]; simpl; [reflexivity|].
  intros H. apply andb_prop in H. destruct H as [H Ht].
  apply andb_prop in H. destruct H as [_ Hn].
  apply negb_true_iff in Hn. rewrite Hn. f_equal. now apply IH.
Qed.

Lemma digits_render (ds : list nat) (acc : Z) :
  is_numeral ds -> digits (render ds) acc = value_from ds acc.
Proof.
  intros H. revert acc. induction H as [|d t Hd Ht IH]; intros acc;
    [reflexivity|].
  change (digits (render (d :: t)) acc)
    with (match digit_val (digit_char d) with
          | Some v => digits (render t) (10 * acc + v)
          | None => acc
          end).
  rewrite (digit_val_digit_char _ Hd). apply IH.
Qed.

Lemma value_from_nonneg (ds : list nat) (acc : Z) :
  0 <= acc -> 0 <= value_from ds acc.
Proof.
  revert acc. induction ds as [|d t IH]; intros acc H; cbn [value_from];
    [assumption|].
  apply IH. lia.
Qed.

Lemma strtol10_render (ds : list nat) :
  is_numeral ds -> value ds <= INT_MAX -> strtol10 (render ds) = value ds.
Proof.
  intros H Hv. unfold strtol10.
  assert (E : match skip_space (render ds) with
              | String "-"%char t => - digits t 0
              | String "+"%char t => digits t 0
              | s' => digits s' 0
              end = digits (render ds) 0).
  { destruct H as [|d t Hd Ht]; [reflexivity|].
    do 10 (destruct d as [|d]; [reflexivity|]). lia. }
  rewrite E, (digits_render _ _ H). fold (value ds).
  pose proof (value_from_nonneg ds 0 ltac:(lia)) as H0. fold (value ds) in H0.
  unfold INT_MAX, LONG_MAX, LONG_MIN in *. lia.
Qed.

(** [atoi] reads back a numeral that fits an [int]. *)
Lemma atoi_render (ds : list nat) :
  is_numeral ds -> value ds <= INT_MAX -> atoi (render ds) = value ds.
Proof.
  intros H Hv. unfold atoi. rewrite (strtol10_render _ H Hv).
  pose proof (value_from_nonneg ds 0 ltac:(lia)) as H0. fold (value ds) in H0.
  unfold int_of_long, INT_MAX in *.
  rewrite Z.mod_small by lia.
  destruct (Z.leb_spec (value ds) 2147483647); [reflexivity | lia].
Qed.

(** X2: a specification written as three decimal numerals that fit an [int],
    separated by ':', parses to the three numbers; an empty numeral stands
    for 0. *)
Theorem parse_display_spec_numerals (dd dm dp : list nat) :
  is_numeral dd -> is_numeral dm -> is_numeral dp ->
  value dd <= INT_MAX -> value dm <= INT_MAX -> value dp <= INT_MAX ->
  parse_display_spec
    (Some (render dd ++ String colon (render dm ++ String colon (render dp))))
  = Ret (true, (value dd, value dm, value dp)).
Proof.
  intros Hd Hm Hp Vd Vm Vp.
  rewrite parse_display_spec_three_fields by now apply plain_render.
  rewrite (bstrto0_plain _ (plain_render _ Hp)).
  now rewrite !atoi_render.
Qed.

Lemma parse_display_spec_numerals_witness :
  parse_display_spec
    (Some (render [1; 2]%nat ++
           String colon (render [0]%nat ++ String colon (render [2; 1; 4]%nat))))
  = Ret (true, (value [1; 2]%nat, value [0]%nat, value [2; 1; 4]%nat)).
Proof.
  apply parse_display_spec_numerals;
    try (unfold is_numeral; repeat constructor; lia);
    vm_compute; discriminate.
Defined.

End DisplaySpecFields.

(** ** More on the walk: what it returns, and its edges *)

Module DisplayWalkEdges.

Import DisplayWalk DisplayWalkFacts.

Lemma obind_inv {A B : Type} (o : outcome A) (k : A -> outcome B) (b : B) :
  obind o k = Ret b -> exists a, o = Ret a /\ k a = Ret b.
Proof. destruct o as [a|]; simpl; [eauto | discriminate]. Qed.

(** The body of the display loop hands on the selector it got, or the
    selector after the mode loop. *)
Lemma walk_display_inv (ptd : list (option (list VkDisplayKHR)))
  (s : mode_selector) (d : display_info) (c : ctl) (sel' : option mode_selector) :
  walk_display ptd (Some s) d = Ret (c, sel') ->
  sel' = Some s \/ sel' = select_mode (modes d) 0 (Some s).
Proof.
  unfold walk_display.
  destruct (Z.of_nat (List.length (modes d)) =? 0).
  { intros H. injection H as _ <-. now left. }
  intros H. apply obind_inv in H. destruct H as (absent & _ & H).
  destruct absent. { injection H as _ <-. now left. }
  destruct (negb (modes_res d =? VK_SUCCESS)). { injection H as _ <-. now left. }
  apply obind_inv in H. destruct H as (found & _ & H).
  destruct (select_mode (modes d) 0 (Some s)) as [s1|].
  - destruct (negb (plane_idx s1 =? found)); injection H as _ <-; now right.
  - injection H as _ <-. now right.
Qed.

Lemma walk_displays_inv (ptd : list (option (list VkDisplayKHR)))
  (ds : list display_info) :
  forall (j : Z) (s : mode_selector) (r : bool) (sel' : option mode_selector),
  walk_displays ptd ds j (Some s) = Ret (r, sel') ->
  sel' = Some s \/
  exists d, zlookup ds (display_idx s - j) = Some d /\
            sel' = select_mode (modes d) 0 (Some s).
Proof.
  induction ds as [|d0 t IH]; intros j s r sel' H; simpl in H.
  - injection H as _ <-. now left.
  - rewrite zlookup_cons.
    destruct (Z.eqb_spec (display_idx s) j) as [E|E]; simpl in H.
    + destruct (Z.eqb_spec (display_idx s - j) 0); [|lia].
      apply obind_inv in H. destruct H as ([c sel1] & Hw & H). simpl in H.
      assert (Hsel : sel' = sel1).
      { destruct c; [|now injection H as _ <-].
        destruct (walk_display_inv _ _ _ _ _ Hw) as [->| ->].
        - rewrite walk_displays_skip in H by lia. now injection H as _ <-.
        - rewrite select_mode_selected in H.
          rewrite walk_displays_skip in H by (simpl; lia).
          rewrite select_mode_selected. now injection H as _ <-. }
      subst sel1. destruct (walk_display_inv _ _ _ _ _ Hw) as [->| ->]; eauto.
    + destruct (Z.eqb_spec (display_idx s - j) 0); [lia|].
      apply IH in H.
      now replace (display_idx s - (j + 1)) with (display_idx s - j - 1) in H by lia.
Qed.

(** What a walk with a selector can do to the selector. *)
Lemma walk_display_properties_inv (device : VkPhysicalDevice)
  (s : mode_selector) (r : bool) (sel' : option mode_selector) :
  walk_display_properties device (Some s) = Ret (r, sel') ->
  exists s', sel' = Some s' /\
    display_idx s' = display_idx s /\ mode_idx s' = mode_idx s /\
    plane_idx s' = plane_idx s /\
    (out_mode_props s' = out_mode_props s \/
     exists m, selected_mode device s = Some m /\ out_mode_props s' = Some m).
Proof.
  intros H.
  assert (Hsel : sel' = Some s \/
                 exists d, zlookup (displays device) (display_idx s) = Some d /\
                           sel' = select_mode (modes d) 0 (Some s)).
  { unfold walk_display_properties in H.
    destruct (Z.of_nat (List.length (displays device)) =? 0).
    { injection H as _ <-. now left. }
    apply obind_inv in H. destruct H as (a1 & _ & H).
    destruct a1. { injection H as _ <-. now left. }
    destruct (Z.of_nat (List.length (planes device)) =? 0).
    { injection H as _ <-. now left. }
    apply obind_inv in H. destruct H as (a2 & _ & H).
    destruct a2. { injection H as _ <-. now left. }
    destruct (negb (planes_res device =? VK_SUCCESS)).
    { injection H as _ <-. now left. }
    destruct (negb (displays_res device =? VK_SUCCESS)).
    { injection H as _ <-. now left. }
    apply walk_displays_inv in H. now rewrite Z.sub_0_r in H. }
  destruct Hsel as [->|(d & Hd & ->)].
  - exists s. repeat split; auto.
  - rewrite select_mode_selected. eexists. split; [reflexivity|]. simpl.
    repeat split. rewrite Z.sub_0_r. unfold selected_mode. rewrite Hd.
    destruct (zlookup (modes d) (mode_idx s)) as [m|]; eauto.
Qed.

(** X3: whatever the device reports and whatever the walk returns, it leaves
    the three indices of the selector alone, and [out_mode_props] is either
    as it was or the properties of the mode the selector names. *)
Theorem walk_stores_only_the_selected_mode (device : VkPhysicalDevice)
  (s : mode_selector) (r : bool) (sel' : option mode_selector) :
  walk_display_properties device (Some s) = Ret (r, sel') ->
  exists s', sel' = Some s' /\
    display_idx s' = display_idx s /\ mode_idx s' = mode_idx s /\
    plane_idx s' = plane_idx s /\
    (out_mode_props s' = out_mode_props s \/
     exists m, selected_mode device s = Some m /\ out_mode_props s' = Some m).
Proof. apply walk_display_properties_inv. Qed.

Lemma walk_stores_only_the_selected_mode_witness :
  exists s', Some (set_out_mode_props (new_selector 0 1 1) mode_720p50) = Some s' /\
    display_idx s' = 0 /\ mode_idx s' = 1 /\ plane_idx s' = 1 /\
    (out_mode_props s' = None \/
     exists m, selected_mode sample_device (new_selector 0 1 1) = Some m /\
               out_mode_props s' = Some m).
Proof.
  apply (walk_stores_only_the_selected_mode sample_device (new_selector 0 1 1) false).
  reflexivity.
Defined.

(** The checks before the display loop passed, the walk is the loop. *)
Lemma reaches_loop (device : VkPhysicalDevice) (s : mode_selector) :
  reaches_display_loop device s ->
  walk_display_properties device (Some s)
  = walk_displays (map plane_displays (planes device)) (displays device) 0 (Some s).
Proof.
  intros (Hne & Hd & Hmax & Hp & Hpl & Hpr & Hdr).
  unfold walk_display_properties.
  destruct (Z.eqb_spec (Z.of_nat (List.length (displays device))) 0) as [E|_].
  { destruct (displays device); [contradiction | simpl in E; lia]. }
  simpl option_map. unfold not_present, int_succ.
  destruct (Z.eqb_spec (display_idx s) INT_MAX); [contradiction|]. simpl obind.
  destruct (Z.ltb_spec (Z.of_nat (List.length (displays device))) (display_idx s + 1));
    [lia|].
  destruct (Z.eqb_spec (Z.of_nat (List.length (planes device))) 0);
    [destruct Hp; lia|].
  destruct (Z.eqb_spec (plane_idx s) INT_MAX); [destruct Hp; lia|]. simpl obind.
  destruct (Z.ltb_spec (Z.of_nat (List.length (planes device))) (plane_idx s + 1));
    [lia|].
  rewrite Hpr, Hdr. reflexivity.
Qed.

(** The display loop is the body run on the selected display. *)
Lemma walk_displays_at (ptd : list (option (list VkDisplayKHR)))
  (ds : list display_info) (s : mode_selector) (d : display_info) :
  forall j : Z,
  zlookup ds (display_idx s - j) = Some d ->
  walk_displays ptd ds j (Some s)
  = match walk_display ptd (Some s) d with
    | Ret (Continue, sel) => Ret (true, sel)
    | Ret (Goto_done, sel) => Ret (false, sel)
    | Undefined => Undefined
    end.
Proof.
  induction ds as [|d0 t IH]; intros j Hd.
  - rewrite zlookup_nil in Hd. discriminate.
  - rewrite zlookup_cons in Hd. simpl.
    destruct (Z.eqb_spec (display_idx s - j) 0) as [E|E].
    + injection Hd as ->.
      destruct (Z.eqb_spec (display_idx s) j); [|lia]. simpl.
      destruct (walk_display ptd (Some s) d) as [[c sel]|] eqn:Hw; [|reflexivity].
      simpl. destruct c; [|reflexivity].
      destruct (walk_display_inv _ _ _ _ _ Hw) as [->| ->].
      * apply walk_displays_skip. lia.
      * rewrite select_mode_selected. apply walk_displays_skip. simpl. lia.
    + destruct (Z.eqb_spec (display_idx s) j); [lia|]. simpl.
      apply IH. now replace (display_idx s - (j + 1)) with (display_idx s - j - 1) by lia.
Qed.

(** X4: a selected display for which the driver reports no modes is passed
    over: the walk returns true although the selector names no mode, and
    [out_mode_props] is as the caller left it. *)
Theorem walk_accepts_display_without_modes (device : VkPhysicalDevice)
  (s : mode_selector) (d : display_info) :
  reaches_display_loop device s ->
  zlookup (displays device) (display_idx s) = Some d ->
  modes d = [] ->
  walk_display_properties device (Some s) = Ret (true, Some s) /\
  selected_mode device s = None.
Proof.
  intros Hr Hd Hm. split.
  - rewrite (reaches_loop _ _ Hr).
    rewrite (walk_displays_at _ _ _ d) by now rewrite Z.sub_0_r.
    unfold walk_display. now rewrite Hm.
  - unfold selected_mode. rewrite Hd, Hm. apply zlookup_nil.
Qed.

Lemma walk_accepts_display_without_modes_witness :
  walk_display_properties modeless_device (Some (new_selector 0 0 0))
  = Ret (true, Some (new_selector 0 0 0)) /\
  selected_mode modeless_device (new_selector 0 0 0) = None.
Proof.
  apply (walk_accepts_display_without_modes modeless_device (new_selector 0 0 0)
           {| display := 41; displayName := "HDMI-A-1"; physicalResolution := (600, 340);
              modes := []; modes_res := VK_SUCCESS |}).
  - unfold reaches_display_loop, index_ok, INT_MAX. simpl.
    split; [discriminate|]. repeat split; try lia; discriminate.
  - reflexivity.
  - reflexivity.
Defined.

(** X5: a negative display index passes the check against the number of
    displays and matches no display, so that the walk returns true without
    looking at any display; [out_mode_props] is as the caller left it. *)
Theorem walk_accepts_negative_display_index (device : VkPhysicalDevice)
  (s : mode_selector) :
  reaches_display_loop device s ->
  display_idx s < 0 ->
  walk_display_properties device (Some s) = Ret (true, Some s).
Proof.
  intros Hr Hneg. rewrite (reaches_loop _ _ Hr). now apply walk_displays_skip.
Qed.

Lemma walk_accepts_negative_display_index_witness :
  walk_display_properties sample_device (Some (new_selector (-1) 0 0))
  = Ret (true, Some (new_selector (-1) 0 0)).
Proof.
  apply walk_accepts_negative_display_index.
  - unfold reaches_display_loop, index_ok, INT_MAX. simpl.
    split; [discriminate|]. repeat split; try lia; discriminate.
  - simpl. lia.
Defined.

(** The array of a plane is scanned up to its terminator. *)
Lemma scan_displays_returns (l : list VkDisplayKHR) (disp : VkDisplayKHR)
  (sel : option Z) (k : Z) :
  forall found, exists f, scan_displays (l ++ [0]) disp sel k found = Ret f.
Proof.
  induction l as [|h t IH]; intros found; simpl; [eauto|].
  destruct (h =? 0); [eauto|].
  destruct (h =? disp); [|apply IH].
  destruct sel as [pi|]; [|apply IH].
  destruct (negb (pi =? k)); apply IH.
Qed.

(** The plane loop reads the array of every plane: one that was not set
    ends it. *)
Lemma find_plane_unset (ps : list plane_info) (disp : VkDisplayKHR) (sel : option Z) :
  Exists (fun p => plane_displays p = None) ps ->
  forall k found, find_plane (map plane_displays ps) disp sel k found = Undefined.
Proof.
  induction ps as [|p t IH]; intros Hex k found.
  - inversion Hex.
  - simpl. destruct (plane_displays p) as [arr|] eqn:E; [|reflexivity].
    assert (Harr : arr = supported_displays p ++ [0]).
    { unfold plane_displays in E.
      destruct (Z.of_nat (List.length (supported_displays p)) =? 0); [discriminate|].
      destruct (negb (supported_displays_res p =? VK_SUCCESS)); [discriminate|].
      now injection E as <-. }
    subst arr.
    destruct (scan_displays_returns (supported_displays p) disp sel k found) as [f ->].
    simpl. apply IH. inversion Hex as [? ? Hp|? ? Ht]; subst; [congruence | exact Ht].
Qed.

(** X6: the entry of [planes_to_displays] of a plane that supports no display,
    or whose displays could not be enumerated, is never written; the plane
    loop of a display whose modes were enumerated reads it all the same, and
    the walk has no defined result. *)
Theorem walk_reads_unset_plane_entry (device : VkPhysicalDevice)
  (s : mode_selector) (d : display_info) :
  reaches_display_loop device s ->
  zlookup (displays device) (display_idx s) = Some d ->
  modes d <> [] -> modes_res d = VK_SUCCESS ->
  mode_idx s < Z.of_nat (List.length (modes d)) ->
  Exists (fun p => supported_displays p = [] \/ supported_displays_res p <> VK_SUCCESS)
         (planes device) ->
  walk_display_properties device (Some s) = Undefined.
Proof.
  intros Hr Hd Hne Hres Hmi Hex.
  rewrite (reaches_loop _ _ Hr).
  rewrite (walk_displays_at _ _ _ d) by now rewrite Z.sub_0_r.
  assert (Hw : walk_display (map plane_displays (planes device)) (Some s) d = Undefined).
  { unfold walk_display.
    destruct (Z.eqb_spec (Z.of_nat (List.length (modes d))) 0) as [E|_].
    { destruct (modes d); [contradiction | simpl in E; lia]. }
    simpl option_map. unfold not_present, int_succ.
    destruct (mode_idx s =? INT_MAX); [reflexivity|]. simpl obind.
    destruct (Z.ltb_spec (Z.of_nat (List.length (modes d))) (mode_idx s + 1)); [lia|].
    rewrite Hres. simpl negb. cbv iota.
    rewrite find_plane_unset; [reflexivity|].
    apply Exists_exists in Hex. destruct Hex as (p & Hin & Hp).
    apply Exists_exists. exists p. split; [exact Hin|].
    unfold plane_displays. destruct Hp as [-> | Hp]; [reflexivity|].
    destruct (Z.of_nat (List.length (supported_displays p)) =? 0); [reflexivity|].
    destruct (Z.eqb_spec (supported_displays_res p) VK_SUCCESS); [contradiction|].
    reflexivity. }
  now rewrite Hw.
Qed.

Lemma walk_reads_unset_plane_entry_witness :
  walk_display_properties idle_plane_device (Some (new_selector 0 0 0)) = Undefined.
Proof.
  apply (walk_reads_unset_plane_entry idle_plane_device (new_selector 0 0 0) monitor).
  - unfold reaches_display_loop, index_ok, INT_MAX. simpl.
    split; [discriminate|]. repeat split; try lia; discriminate.
  - reflexivity.
  - discriminate.
  - reflexivity.
  - simpl. lia.
  - apply Exists_cons_tl, Exists_cons_hd. now left.
Defined.

Lemma select_mode_none (ms : list VkDisplayModePropertiesKHR) :
  forall k, select_mode ms k None = None.
Proof. induction ms as [|m t IH]; intros k; simpl; [reflexivity | apply IH]. Qed.

Lemma plane_displays_set (p : plane_info) :
  plane_array_set p -> plane_displays p = Some (supported_displays p ++ [0]).
Proof.
  intros [Hne Hr]. unfold plane_displays. rewrite Hr. simpl.
  destruct (supported_displays p); [contradiction | reflexivity].
Qed.

Lemma find_plane_returns (ps : list plane_info) (disp : VkDisplayKHR) (sel : option Z) :
  Forall plane_array_set ps ->
  forall k found, exists f, find_plane (map plane_displays ps) disp sel k found = Ret f.
Proof.
  induction 1 as [|p t Hp _ IH]; intros k found; simpl; [eauto|].
  rewrite (plane_displays_set _ Hp).
  destruct (scan_displays_returns (supported_displays p) disp sel k found) as [f ->].
  simpl. apply IH.
Qed.

Lemma walk_displays_lists (ps : list plane_info) (ds : list display_info) :
  Forall plane_array_set ps ->
  forall j, walk_displays (map plane_displays ps) ds j None = Ret (true, None).
Proof.
  intros Hps. induction ds as [|d t IH]; intros j; simpl; [reflexivity|].
  unfold walk_display. simpl option_map. cbv zeta.
  destruct (Z.of_nat (List.length (modes d)) =? 0); simpl; [apply IH|].
  destruct (negb (modes_res d =? VK_SUCCESS)); simpl; [apply IH|].
  rewrite select_mode_none. simpl.
  destruct (find_plane_returns ps (display d) None Hps 0 (-1)) as [f ->].
  simpl. apply IH.
Qed.

(** X7: without a selector, on a device each of whose planes had its array
    set, the walk lists every display and returns true exactly when there is
    a display and a plane and the two enumerations of the device succeed; a
    display whose modes cannot be enumerated does not make it fail. *)
Theorem walk_lists_all_displays (device : VkPhysicalDevice) :
  Forall plane_array_set (planes device) ->
  walk_display_properties device None
  = Ret (negb (Z.of_nat (List.length (displays device)) =? 0) &&
         negb (Z.of_nat (List.length (planes device)) =? 0) &&
         (planes_res device =? VK_SUCCESS) &&
         (displays_res device =? VK_SUCCESS), None).
Proof.
  intros Hps. unfold walk_display_properties.
  destruct (Z.of_nat (List.length (displays device)) =? 0); [reflexivity|].
  simpl option_map. simpl not_present. simpl obind.
  destruct (Z.of_nat (List.length (planes device)) =? 0); [reflexivity|].
  destruct (planes_res device =? VK_SUCCESS); [|reflexivity].
  destruct (displays_res device =? VK_SUCCESS); [|reflexivity].
  simpl. now apply walk_displays_lists.
Qed.

Lemma walk_lists_all_displays_witness :
  walk_display_properties sample_device None = Ret (true, None).
Proof.
  apply (walk_lists_all_displays sample_device).
  repeat constructor; discriminate.
Defined.

Lemma zlookup_In {A : Type} (l : list A) (i : Z) (a : A) :
  zlookup l i = Some a -> In a l.
Proof.
  unfold zlookup. destruct (i <? 0); [discriminate|]. apply nth_error_In.
Qed.

(** X8: the plane index -1 is the value [found_plane] starts from, and no
    plane of the loop equals it: with it the walk returns true for every
    display and mode in range, whatever the planes support, and stores the
    mode. *)
Theorem walk_accepts_plane_minus_one (device : VkPhysicalDevice)
  (s : mode_selector) (m : VkDisplayModePropertiesKHR) :
  enumeration_succeeds device ->
  planes_populated device ->
  planes device <> [] ->
  index_ok (display_idx s) -> index_ok (mode_idx s) ->
  plane_idx s = -1 ->
  selected_mode device s = Some m ->
  walk_display_properties device (Some s) = Ret (true, Some (set_out_mode_props s m)) /\
  selection_valid device s = false.
Proof.
  intros Henum Hpop Hpl Hdi Hmi Hpi Hsel.
  pose proof (planes_all_ok _ Henum Hpop) as Hps.
  destruct Henum as (Hpr & Hdr & _ & Hmr).
  unfold selected_mode in Hsel.
  destruct (zlookup (displays device) (display_idx s)) as [d|] eqn:Hd; [|discriminate].
  assert (Hdlen : 0 <= display_idx s < Z.of_nat (List.length (displays device)))
    by (apply zlookup_some_iff; eauto).
  assert (Hmlen : 0 <= mode_idx s < Z.of_nat (List.length (modes d)))
    by (apply zlookup_some_iff; eauto).
  split.
  - unfold walk_display_properties.
    destruct (Z.eqb_spec (Z.of_nat (List.length (displays device))) 0); [lia|].
    simpl option_map. rewrite (not_present_index_ok _ _ Hdi). simpl obind.
    destruct (Z.ltb_spec (Z.of_nat (List.length (displays device))) (display_idx s + 1));
      [lia|].
    destruct (Z.eqb_spec (Z.of_nat (List.length (planes device))) 0) as [E|_].
    { destruct (planes device); [contradiction | simpl in E; lia]. }
    rewrite Hpi. simpl not_present. simpl obind.
    destruct (Z.ltb_spec (Z.of_nat (List.length (planes device))) 0); [lia|].
    rewrite Hpr, Hdr. simpl negb. cbv iota zeta.
    rewrite (walk_displays_at _ _ _ d) by now rewrite Z.sub_0_r.
    unfold walk_display.
    destruct (Z.eqb_spec (Z.of_nat (List.length (modes d))) 0); [lia|].
    simpl option_map. rewrite (not_present_index_ok _ _ Hmi). simpl obind.
    destruct (Z.ltb_spec (Z.of_nat (List.length (modes d))) (mode_idx s + 1)); [lia|].
    assert (Hres : modes_res d = VK_SUCCESS).
    { rewrite Forall_forall in Hmr. apply Hmr. eapply zlookup_In, Hd. }
    rewrite Hres. simpl negb. cbv iota zeta.
    rewrite select_mode_selected. simpl option_map.
    rewrite (find_plane_populated _ _ _ _ _ Hps). rewrite !Z.sub_0_r, Hsel, Hpi.
    replace (zlookup (planes device) (-1)) with (@None plane_info)
      by (unfold zlookup; reflexivity).
    simpl. unfold set_out_mode_props. now rewrite Hpi.
  - unfold selection_valid. rewrite Hd, Hpi.
    replace (zlookup (planes device) (-1)) with (@None plane_info)
      by (unfold zlookup; reflexivity).
    now rewrite !andb_false_r.
Qed.

Lemma walk_accepts_plane_minus_one_witness :
  walk_display_properties sample_device (Some (new_selector 0 1 (-1)))
  = Ret (true, Some (set_out_mode_props (new_selector 0 1 (-1)) mode_720p50)) /\
  selection_valid sample_device (new_selector 0 1 (-1)) = false.
Proof.
  apply (walk_accepts_plane_minus_one sample_device (new_selector 0 1 (-1)) mode_720p50).
  - repeat split; repeat constructor.
  - repeat constructor; discriminate.
  - discriminate.
  - unfold index_ok, INT_MAX. simpl. lia.
  - unfold index_ok, INT_MAX. simpl. lia.
  - reflexivity.
  - reflexivity.
Defined.

End DisplayWalkEdges.

(** ** Stepping through a run of the monad *)

(** Take the first operation off a run that returned. *)
Tactic Notation "step" hyp(H) :=
  let a := fresh "a" in
  let s := fresh "s" in
  let E := fresh "E" in
  apply bind_inv in H; destruct H as (a & s & E & H).

Tactic Notation "step" hyp(H) "as" ident(a) ident(s) ident(E) :=
  apply bind_inv in H; destruct H as (a & s & E & H).

(** A primitive that returned: its value and the state after it. *)
Ltac prim E :=
  unfold ret, get, modify in E; injection E as <- <-.

(** Split on the test the run branches on. *)
Ltac branch H :=
  match type of H with
  | (if ?c then _ else _) _ = _ => destruct c eqn:?
  end.

(** ** More on the CUDA interop: what [cuda_init] leaves behind *)

Module HwdecCudaLifecycle.

Import HwdecCuda HwdecCudaFacts.

Local Open Scope cmonad_scope.

Lemma check_cu_neg (err : CUresult) :
  (check_cu err <? 0) = negb (err =? CUDA_SUCCESS).
Proof. unfold check_cu. now destruct (err =? CUDA_SUCCESS). Qed.

(** Split on whether the CUDA call whose result is checked succeeded. *)
Ltac checked H :=
  rewrite check_cu_neg in H;
  match type of H with
  | (if negb (?r =? CUDA_SUCCESS) then _ else _) _ = _ =>
      destruct (r =? CUDA_SUCCESS) eqn:?; simpl negb in H; cbv iota in H
  end.

Lemma ext_state (env : environment) (c : call) (st st' : state) (a : answer) :
  ext env c st = Ret (a, st') -> st' = with_w (log_call c) st.
Proof. unfold ext. intros H. now injection H as _ <-. Qed.

(** An external call that returned: the state after it; the answer is kept
    abstract. *)
Ltac called E := apply ext_state in E; subst.

Lemma create_inv (env : environment) (dev : CUdevice) (st st' : state) (a : answer) :
  cuCtxCreate env dev st = Ret (a, st') ->
  owner st' = owner st /\ p st' = p st /\ devs (w st') = devs (w st) /\
  ctx_stack (w st') = if res a =? CUDA_SUCCESS then out1 a :: ctx_stack (w st)
                      else ctx_stack (w st).
Proof.
  unfold cuCtxCreate, bind, ext. simpl.
  destruct (res (answers env (trace (w st)) (CuCtxCreate dev)) =? CUDA_SUCCESS) eqn:E;
    simpl; intros H; prim H; rewrite E; simpl; auto.
Qed.

Lemma pop_any_inv (env : environment) (st st' : state) (r : Z) :
  cuCtxPopCurrent env st = Ret (r, st') ->
  owner st' = owner st /\ p st' = p st /\ devs (w st') = devs (w st) /\
  ((check_cu r = 0 /\ ctx_stack (w st') = tl (ctx_stack (w st))) \/
   (check_cu r = -1 /\ ctx_stack (w st') = ctx_stack (w st) /\ ~ pop_succeeds env)).
Proof.
  unfold cuCtxPopCurrent, bind, ext, check_cu. simpl.
  destruct (res (answers env (trace (w st)) CuCtxPopCurrent) =? CUDA_SUCCESS) eqn:E;
    simpl; intros H; prim H; rewrite E; simpl; repeat split; auto.
  right. repeat split. intros Hp. rewrite (Hp (trace (w st))) in E. discriminate.
Qed.

(** The OpenGL branch: it returns with the stack as it was, or goes on (or
    to [error]) with one context more on it. *)
Lemma cuda_init_gl_inv (env : environment) (st st' : state) (f : flow) :
  cuda_init_gl env st = Ret (f, st') ->
  devs (w st') = devs (w st) /\
  hwctx_av_device_ref (owner st') = hwctx_av_device_ref (owner st) /\
  match f with
  | Return r => r = -1 /\ (pop_succeeds env -> ctx_stack (w st') = ctx_stack (w st))
  | _ => exists x, ctx_stack (w st') = x :: ctx_stack (w st)
  end.
Proof.
  unfold cuda_init_gl. intros H.
  step H. called E.
  branch H. { prim H. simpl. auto. }
  step H. destruct (create_inv _ _ _ _ _ E) as (Ho & _ & Hd & Hs). simpl in Ho, Hd, Hs.
  step H. checked H; prim E0.
  2:{ prim H. rewrite Ho. auto. }
  step H. prim E0.
  step H. prim E0.
  step H. called E0.
  branch H.
  2:{ prim H. simpl. rewrite Ho. eauto. }
  step H. called E0.
  branch H. { prim H. simpl. rewrite Ho. eauto. }
  branch H.
  2:{ prim H. simpl. rewrite Ho. eauto. }
  step H. destruct (pop_any_inv _ _ _ _ E0) as (Ho1 & _ & Hd1 & Hpop).
  simpl in Ho1, Hd1, Hpop. rewrite Hs in Hpop. simpl in Hpop.
  destruct Hpop as [[Hc Hs1]|(Hc & Hs1 & Hnp)]; rewrite Hc in H; simpl in H.
  2:{ prim H. rewrite Ho1, Hd1. simpl. rewrite Ho.
      repeat split; auto. intros Hp. contradiction. }
  step H. destruct (create_inv _ _ _ _ _ E1) as (Ho2 & _ & Hd2 & Hs2).
  step H. checked H; prim E2; prim H; simpl;
    rewrite Hd2, Hd1, Ho2, Ho1, Hs2, Hs1; simpl; rewrite Ho; eauto.
Qed.

Lemma find_display_dev_inv (env : environment) (uuid : Z) (todo : nat) :
  forall (i : Z) (st st' : state) (dev : CUdevice),
  find_display_dev env uuid todo i st = Ret (dev, st') ->
  owner st' = owner st /\ devs (w st') = devs (w st) /\
  ctx_stack (w st') = ctx_stack (w st).
Proof.
  induction todo as [|todo IH]; intros i st st' dev H; simpl in H.
  - prim H. auto.
  - step H. called E. branch H.
    { apply IH in H. simpl in H. exact H. }
    step H. called E. branch H.
    { apply IH in H. simpl in H. exact H. }
    branch H.
    + prim H. simpl. auto.
    + apply IH in H. simpl in H. exact H.
Qed.

(** The Vulkan branch: it returns with the stack as it was, or goes on with
    one context more on it. *)
Lemma cuda_init_vk_inv (env : environment) (st st' : state) (f : flow) :
  cuda_init_vk env st = Ret (f, st') ->
  devs (w st') = devs (w st) /\
  hwctx_av_device_ref (owner st') = hwctx_av_device_ref (owner st) /\
  match f with
  | Return r => r = -1 /\ ctx_stack (w st') = ctx_stack (w st)
  | _ => exists x, ctx_stack (w st') = x :: ctx_stack (w st)
  end.
Proof.
  unfold cuda_init_vk. intros H.
  step H. called E. step H. called E.
  branch H. { prim H. simpl. auto. }
  step H. destruct (find_display_dev_inv _ _ _ _ _ _ _ E) as (Ho & Hd & Hs).
  simpl in Ho, Hd, Hs.
  branch H. { prim H. rewrite Ho. auto. }
  step H. destruct (create_inv _ _ _ _ _ E0) as (Ho1 & _ & Hd1 & Hs1).
  step H. checked H; prim E1.
  2:{ prim H. rewrite Ho1, Hd1, Hs1, Ho. auto. }
  step H. prim E1. step H. prim E1. prim H. simpl.
  rewrite Ho1, Hd1, Hs1, Ho, Hs. eauto.
Qed.

(** The [error:] label pops once and registers nothing. *)
Lemma cuda_init_error_inv (env : environment) (h : Z) (st st' : state) (r : Z) :
  cuda_init_error env h st = Ret (r, st') ->
  r = -1 /\ devs (w st') = devs (w st) /\
  hwctx_av_device_ref (owner st') = hwctx_av_device_ref (owner st) /\
  (pop_succeeds env -> ctx_stack (w st') = tl (ctx_stack (w st))).
Proof.
  unfold cuda_init_error. intros H.
  step H. called E. step H.
  destruct (pop_any_inv _ _ _ _ E) as (Ho & _ & Hd & Hpop). simpl in Ho, Hd, Hpop.
  prim H. rewrite Ho. repeat split; auto.
  intros Hp. destruct Hpop as [[_ Hs]|(_ & _ & Hn)]; [exact Hs | contradiction].
Qed.

(** From the allocation of the device context on: 0 is returned after a pop
    that succeeded, with the device context registered. *)
Lemma cuda_init_device_inv (env : environment) (st st' : state) (r : Z) :
  cuda_init_device env st = Ret (r, st') ->
  (r = 0 /\ ctx_stack (w st') = tl (ctx_stack (w st)) /\
   exists ref, ref <> 0 /\ devs (w st') = ref :: devs (w st) /\
               hwctx_av_device_ref (owner st') = ref) \/
  (r = -1 /\ devs (w st') = devs (w st) /\
   hwctx_av_device_ref (owner st') = hwctx_av_device_ref (owner st) /\
   (pop_succeeds env -> ctx_stack (w st') = tl (ctx_stack (w st)))).
Proof.
  unfold cuda_init_device. intros H.
  step H. called E.
  branch H. { right. apply cuda_init_error_inv in H. simpl in H. exact H. }
  step H. prim E. step H. called E.
  branch H. { right. apply cuda_init_error_inv in H. simpl in H. exact H. }
  step H. destruct (pop_any_inv _ _ _ _ E) as (Ho & _ & Hd & Hpop).
  simpl in Ho, Hd, Hpop.
  destruct Hpop as [[Hc Hs]|(Hc & Hs & Hn)]; rewrite Hc in H; simpl in H.
  - left. step H. prim E0. step H. called E0. step H. prim E0. prim H. simpl.
    split; [reflexivity|]. split; [exact Hs|].
    exists (res a). rewrite Hd. repeat split.
    intros Hz. rewrite Hz in Heqb. discriminate.
  - right. apply cuda_init_error_inv in H.
    destruct H as (Hr & Hd' & Hh' & _). rewrite Hd', Hh', Hd, Ho.
    repeat split; auto. intros Hp. contradiction.
Qed.

(** How [cuda_init] can end. *)
Lemma cuda_init_inv (env : environment) (hw_ra : ra) (st st' : state) (r : Z) :
  cuda_init env hw_ra st = Ret (r, st') ->
  (r = 0 /\ backend_supported hw_ra = true /\
   ctx_stack (w st') = ctx_stack (w st) /\
   exists ref, ref <> 0 /\ devs (w st') = ref :: devs (w st) /\
               hwctx_av_device_ref (owner st') = ref) \/
  (r = -1 /\ devs (w st') = devs (w st) /\
   hwctx_av_device_ref (owner st') = hwctx_av_device_ref (owner st) /\
   (pop_succeeds env -> ctx_stack (w st') = ctx_stack (w st))).
Proof.
  unfold cuda_init. intros H.
  step H. prim E.
  branch H. { right. prim H. simpl. auto. }
  step H. prim E.
  branch H. { right. prim H. simpl. auto. }
  step H. prim E.
  branch H. { right. prim H. simpl. auto. }
  assert (Hsup : backend_supported hw_ra = true).
  { destruct hw_ra as [version es|has_ext|]; simpl in *.
    - destruct (Z.ltb_spec version 210), (Z.ltb_spec es 300); try discriminate;
        apply orb_true_iff; [right | left | left]; apply Z.leb_le; lia.
    - now destruct has_ext.
    - discriminate. }
  step H. called E.
  branch H. { right. prim H. simpl. auto. }
  branch H. { right. prim H. simpl. auto. }
  step H. called E.
  branch H. { right. prim H. simpl. auto. }
  step H as f s E.
  assert (Hflow : devs (w s) = devs (w st) /\
                  hwctx_av_device_ref (owner s) = hwctx_av_device_ref (owner st) /\
                  match f with
                  | Return r => r = -1 /\
                      (pop_succeeds env -> ctx_stack (w s) = ctx_stack (w st))
                  | _ => exists x, ctx_stack (w s) = x :: ctx_stack (w st)
                  end).
  { simpl in E. destruct (ra_is_gl hw_ra) eqn:Hgl.
    - apply cuda_init_gl_inv in E. simpl in E. exact E.
    - destruct (ra_vk_get hw_ra) eqn:Hvk.
      + apply cuda_init_vk_inv in E. simpl in E.
        destruct E as (E1 & E2 & E3). repeat split; auto.
        destruct f; auto. destruct E3; auto.
      + simpl in *. discriminate. }
  destruct Hflow as (Hd & Hh & Hf).
  destruct f as [|r0|].
  - destruct Hf as [x Hs].
    destruct (cuda_init_device_inv _ _ _ _ H) as
      [(Hr & Hs' & ref & Hne & Hd' & Hh')|(Hr & Hd' & Hh' & Hs')].
    + left. rewrite Hs in Hs'. simpl in Hs'. rewrite Hd in Hd'. eauto 10.
    + right. rewrite Hs in Hs'. simpl in Hs'. rewrite Hd', Hh'. auto.
  - destruct Hf as [-> Hs]. prim H. right. auto.
  - destruct Hf as [x Hs]. apply cuda_init_error_inv in H.
    destruct H as (Hr & Hd' & Hh' & Hs'). right.
    rewrite Hs in Hs'. simpl in Hs'. rewrite Hd', Hh'. auto.
Qed.

(** X9: when [cuda_init] returns 0, the stack of current contexts is as it
    found it, and exactly one hwdec device was registered: the non-null
    device context that [hwctx] refers to; and the backend was OpenGL 2.1 or
    OpenGL ES 3.0 at least, or Vulkan with external memory export. *)
Theorem cuda_init_success (env : environment) (hw_ra : ra) (st st' : state) :
  cuda_init env hw_ra st = Ret (0, st') ->
  backend_supported hw_ra = true /\
  ctx_stack (w st') = ctx_stack (w st) /\
  hwctx_av_device_ref (owner st') <> 0 /\
  devs (w st') = hwctx_av_device_ref (owner st') :: devs (w st).
Proof.
  intros H. destruct (cuda_init_inv _ _ _ _ _ H) as
    [(_ & Hsup & Hs & ref & Hne & Hd & Hh)|(Hr & _)]; [|discriminate].
  rewrite Hh. auto.
Qed.

Lemma cuda_init_success_witness :
  match cuda_init ok_env (Ra_vk true) unloaded_state with
  | Ret (0, st') =>
      backend_supported (Ra_vk true) = true /\
      ctx_stack (w st') = [] /\
      hwctx_av_device_ref (owner st') <> 0 /\
      devs (w st') = [hwctx_av_device_ref (owner st')]
  | _ => False
  end.
Proof.
  destruct (cuda_init ok_env (Ra_vk true) unloaded_state) as [[r st']|] eqn:E.
  - assert (Hr : r = 0) by (vm_compute in E; now injection E as <- _).
    subst r. exact (cuda_init_success _ _ _ _ E).
  - vm_compute in E. discriminate.
Defined.

(** X10: [cuda_init] returns 0 or -1, and when it fails it has registered no
    hwdec device and left [hwctx] alone, wherever it failed. *)
Theorem cuda_init_failure_registers_nothing (env : environment) (hw_ra : ra)
  (st st' : state) (r : Z) :
  cuda_init env hw_ra st = Ret (r, st') ->
  r <> 0 ->
  r = -1 /\ devs (w st') = devs (w st) /\
  hwctx_av_device_ref (owner st') = hwctx_av_device_ref (owner st).
Proof.
  intros H Hr. destruct (cuda_init_inv _ _ _ _ _ H) as
    [(Hr0 & _)|(Hr1 & Hd & Hh & _)]; [contradiction | auto].
Qed.

(** X11: when the driver's [cuCtxPopCurrent] succeeds, [cuda_init] leaves the
    stack of current contexts as it found it on every path, also when it
    fails after it created the display context. *)
Theorem cuda_init_restores_stack (env : environment) (hw_ra : ra) :
  pop_succeeds env -> leaves_stack_unchanged (cuda_init env hw_ra).
Proof.
  intros Hp st r st' H. destruct (cuda_init_inv _ _ _ _ _ H) as
    [(_ & _ & Hs & _)|(_ & _ & _ & Hs)]; auto.
Qed.

(** X12: for a backend that is not supported (OpenGL below 2.1 and OpenGL ES
    below 3.0, Vulkan without external memory export, or another backend)
    [cuda_init] returns -1 without a single call into CUDA or libavutil:
    nothing is loaded, created, pushed or registered, and the mapper's data
    is untouched. *)
Theorem cuda_init_rejects_unsupported_backend (env : environment) (hw_ra : ra)
  (st : state) :
  backend_supported hw_ra = false ->
  exists st',
    cuda_init env hw_ra st = Ret (-1, st') /\
    w st' = w st /\ p st' = p st /\
    owner_display_ctx (owner st') = owner_display_ctx (owner st) /\
    decode_ctx (owner st') = decode_ctx (owner st) /\
    hwctx_av_device_ref (owner st') = hwctx_av_device_ref (owner st).
Proof.
  intros Hsup. destruct hw_ra as [version es|has_ext|]; simpl in Hsup.
  - apply orb_false_iff in Hsup. destruct Hsup as [Hv He].
    apply Z.leb_gt in Hv, He.
    unfold cuda_init, bind, modify. simpl.
    destruct (Z.ltb_spec version 210); [|lia].
    destruct (Z.ltb_spec es 300); [|lia].
    simpl. eexists. split; [reflexivity|]. repeat split.
  - subst has_ext. eexists. split; [reflexivity|]. repeat split.
  - eexists. split; [reflexivity|]. repeat split.
Qed.

Lemma cuda_init_rejects_unsupported_backend_witness :
  exists st',
    cuda_init ok_env (Ra_gl 200 0) unloaded_state = Ret (-1, st') /\
    w st' = w unloaded_state /\ p st' = p unloaded_state /\
    owner_display_ctx (owner st') = owner_display_ctx (owner unloaded_state) /\
    decode_ctx (owner st') = decode_ctx (owner unloaded_state) /\
    hwctx_av_device_ref (owner st') = hwctx_av_device_ref (owner unloaded_state).
Proof.
  apply (cuda_init_rejects_unsupported_backend ok_env (Ra_gl 200 0) unloaded_state).
  reflexivity.
Defined.

Lemma cuda_init_failure_registers_nothing_witness :
  match cuda_init no_pop_env (Ra_gl 330 0) unloaded_state with
  | Ret (r, st') =>
      r = -1 /\ devs (w st') = [] /\ hwctx_av_device_ref (owner st') = 0
  | Undefined => False
  end.
Proof.
  destruct (cuda_init no_pop_env (Ra_gl 330 0) unloaded_state) as [[r st']|] eqn:E.
  - apply (cuda_init_failure_registers_nothing _ _ _ _ _ E).
    vm_compute in E. injection E as <- _. discriminate.
  - vm_compute in E. discriminate.
Defined.

Lemma cuda_init_restores_stack_witness :
  match cuda_init ok_env (Ra_gl 330 0) (fresh_state [9] false false) with
  | Ret (_, st') => ctx_stack (w st') = [9]
  | Undefined => False
  end.
Proof.
  assert (Hpop : pop_succeeds ok_env) by (intros t; reflexivity).
  destruct (cuda_init ok_env (Ra_gl 330 0) (fresh_state [9] false false))
    as [[r st']|] eqn:E.
  - exact (cuda_init_restores_stack ok_env (Ra_gl 330 0) Hpop _ _ _ E).
  - vm_compute in E. discriminate.
Defined.

End HwdecCudaLifecycle.

(** ** More on the CUDA mapper: teardown, and what [mapper_map] returns *)

Module HwdecCudaMapperFacts.

Import HwdecCuda HwdecCudaFacts HwdecCudaLifecycle.

Local Open Scope cmonad_scope.

Lemma index4_some {A : Type} (l : list A) (n : Z) (a : A) (st : state) :
  n < 4 -> zlookup l n = Some a -> index4 l n st = Ret (a, st).
Proof.
  intros Hn Hl. unfold index4.
  destruct (Z.ltb_spec n 4); [|lia]. now rewrite Hl.
Qed.

Lemma cuda_ebuf_uninit_zero (env : environment) (n : Z) (st : state) :
  n < 4 ->
  zlookup (ebuf (p st)) n = Some ext_buf_zero ->
  cuda_ebuf_uninit env n st
  = Ret (tt, with_w (fun x => {| trace := Close 0 :: Close 0 :: Close 0 :: trace x;
                                 ctx_stack := ctx_stack x; devs := devs x |}) st).
Proof.
  intros Hn He. unfold cuda_ebuf_uninit, bind, get.
  rewrite (index4_some _ _ _ _ Hn He). reflexivity.
Qed.

(** X13: [cuda_ebuf_uninit] tells an unused descriptor from a used one by
    [fd > -1], and the mapper's data is allocated zeroed: for a plane whose
    [ext_buf] was never written it calls [close(0)] three times (for the
    memory, the signal and the wait descriptor) and nothing else. *)
Theorem cuda_ebuf_uninit_closes_fd_zero (env : environment) (n : Z) (st : state) :
  n < 4 ->
  zlookup (ebuf (p st)) n = Some ext_buf_zero ->
  cuda_ebuf_uninit env n st
  = Ret (tt, with_w (fun x => {| trace := Close 0 :: Close 0 :: Close 0 :: trace x;
                                 ctx_stack := ctx_stack x; devs := devs x |}) st).
Proof. apply cuda_ebuf_uninit_zero. Qed.

Lemma cuda_ebuf_uninit_closes_fd_zero_witness :
  cuda_ebuf_uninit ok_env 3 (fresh_state [] true false)
  = Ret (tt, with_w (fun x => {| trace := Close 0 :: Close 0 :: Close 0 :: trace x;
                                 ctx_stack := ctx_stack x; devs := devs x |})
               (fresh_state [] true false)).
Proof.
  apply cuda_ebuf_uninit_closes_fd_zero; [lia | reflexivity].
Defined.

(** One round of the loop of [mapper_uninit] on a plane whose [ext_buf] was
    never written. *)
Lemma uninit_plane_zero (env : environment) (todo : nat) (n : Z) (st : state)
  (cr t : Z) :
  n < 4 ->
  zlookup (cu_res (p st)) n = Some cr ->
  zlookup (tex (p st)) n = Some t ->
  zlookup (ebuf (p st)) n = Some ext_buf_zero ->
  exists st1,
    uninit_planes env (S todo) n st = uninit_planes env todo (n + 1) st1 /\
    owner st1 = owner st /\ ebuf (p st1) = ebuf (p st) /\
    cu_res (p st1) = list_set (cu_res (p st)) (Z.to_nat n) 0 /\
    tex (p st1) = list_set (tex (p st)) (Z.to_nat n) 0 /\
    closes 0 (trace (w st1)) = (3 + closes 0 (trace (w st)))%nat.
Proof.
  intros Hn Hc Ht He.
  cbn [uninit_planes]. unfold bind at 1. unfold get at 1.
  unfold bind at 1. rewrite (index4_some _ _ _ _ Hn Hc).
  unfold bind at 1.
  set (st0 := if cr >? 0 then with_w (log_call (CuGraphicsUnregisterResource cr)) st
              else st).
  assert (E0 : (if cr >? 0 then ext_ env (CuGraphicsUnregisterResource cr) else ret tt) st
               = Ret (tt, st0)).
  { unfold st0. destruct (cr >? 0); reflexivity. }
  rewrite E0.
  assert (Hp0 : p st0 = p st) by (unfold st0; destruct (cr >? 0); reflexivity).
  assert (Ho0 : owner st0 = owner st) by (unfold st0; destruct (cr >? 0); reflexivity).
  assert (Hcl0 : closes 0 (trace (w st0)) = closes 0 (trace (w st)))
    by (unfold st0; destruct (cr >? 0); reflexivity).
  unfold bind at 1. unfold store4 at 1. unfold bind at 1. unfold get at 1.
  unfold bind at 1. rewrite Hp0. rewrite (index4_some _ _ _ _ Hn Hc).
  unfold modify at 1.
  set (st1 := with_p _ st0).
  unfold bind at 1. rewrite cuda_ebuf_uninit_zero; [|exact Hn|].
  2:{ unfold st1. simpl. rewrite Hp0. exact He. }
  set (st2 := with_w _ st1).
  unfold bind at 1. rewrite (index4_some _ _ _ _ Hn Ht).
  set (st3 := if negb (t =? 0) then with_w (log_call (Ra_tex_free t)) st2 else st2).
  assert (E3 : (if negb (t =? 0) then ext_ env (Ra_tex_free t) else ret tt) st2
               = Ret (tt, st3)).
  { unfold st3. destruct (negb (t =? 0)); reflexivity. }
  unfold bind at 1. rewrite E3.
  assert (Hp3 : p st3 = p st1) by (unfold st3; destruct (negb (t =? 0)); reflexivity).
  assert (Ho3 : owner st3 = owner st) by
    (unfold st3; destruct (negb (t =? 0)); simpl; exact Ho0).
  assert (Hcl3 : closes 0 (trace (w st3)) = (3 + closes 0 (trace (w st)))%nat).
  { unfold st3; destruct (negb (t =? 0)); simpl; unfold closes in *; simpl;
      rewrite Hcl0; reflexivity. }
  unfold bind at 1. unfold store4 at 1. unfold bind at 1. unfold get at 1.
  unfold bind at 1.
  assert (Ht3 : zlookup (tex (p st3)) n = Some t).
  { rewrite Hp3. unfold st1. simpl. rewrite Hp0. exact Ht. }
  rewrite (index4_some _ _ _ _ Hn Ht3). unfold modify at 1.
  eexists. split; [reflexivity|]. simpl.
  rewrite Hp3. unfold st1. simpl. rewrite Hp0. repeat split; auto.
Qed.

(** X14: [mapper_uninit] runs [cuda_ebuf_uninit] for all four planes whatever
    the backend; on a mapper whose external buffers were never written (as
    under OpenGL, where only [cu_res] is used) it completes, leaves every
    texture and CUDA resource null, and has called [close(0)] twelve
    times. *)
Theorem mapper_uninit_closes_fd_zero (env : environment) (st : state) :
  arrays_of_four (p st) ->
  ebuf (p st) = [ext_buf_zero; ext_buf_zero; ext_buf_zero; ext_buf_zero] ->
  exists st',
    mapper_uninit env st = Ret (tt, st') /\
    tex (p st') = [0; 0; 0; 0] /\ cu_res (p st') = [0; 0; 0; 0] /\
    closes 0 (trace (w st')) = (12 + closes 0 (trace (w st)))%nat.
Proof.
  intros (Hcr & _ & _ & Htx) He.
  destruct (cu_res (p st)) as [|c0 [|c1 [|c2 [|c3 [|]]]]] eqn:Ecr; try discriminate.
  destruct (tex (p st)) as [|t0 [|t1 [|t2 [|t3 [|]]]]] eqn:Etx; try discriminate.
  unfold mapper_uninit. unfold bind at 1. unfold get at 1.
  set (sa := if is_vk (owner st) then with_w (log_call Mpvk_poll_commands) st else st).
  assert (Ea : (if is_vk (owner st) then ext_ env Mpvk_poll_commands else ret tt) st
               = Ret (tt, sa)).
  { unfold sa. destruct (is_vk (owner st)); reflexivity. }
  unfold bind at 1. rewrite Ea.
  assert (Hpa : p sa = p st) by (unfold sa; destruct (is_vk (owner st)); reflexivity).
  assert (Hca : closes 0 (trace (w sa)) = closes 0 (trace (w st)))
    by (unfold sa; destruct (is_vk (owner st)); reflexivity).
  unfold bind at 1.
  destruct (cuCtxPushCurrent env (display_ctx (p st)) sa) as [[r sb]|] eqn:Eb.
  2:{ unfold cuCtxPushCurrent, bind, ext in Eb. simpl in Eb.
      destruct (res _ =? CUDA_SUCCESS) in Eb; discriminate. }
  assert (Hb : p sb = p sa /\ closes 0 (trace (w sb)) = closes 0 (trace (w sa))).
  { unfold cuCtxPushCurrent, bind, ext in Eb. simpl in Eb.
    destruct (res _ =? CUDA_SUCCESS) in Eb; prim Eb; split; reflexivity. }
  destruct Hb as [Hpb Hcb]. rewrite Hpa in Hpb. rewrite Hca in Hcb.
  destruct (uninit_plane_zero env 3 0 sb c0 t0) as (s1 & E1 & _ & He1 & Hc1 & Ht1 & Hl1);
    try (rewrite Hpb, ?Ecr, ?Etx, ?He; reflexivity); try lia.
  rewrite Hpb in He1, Hc1, Ht1. rewrite Ecr in Hc1. rewrite Etx in Ht1.
  simpl in Hc1, Ht1.
  destruct (uninit_plane_zero env 2 1 s1 c1 t1) as (s2 & E2 & _ & He2 & Hc2 & Ht2 & Hl2);
    try (rewrite ?He1, ?Hc1, ?Ht1, ?He; reflexivity); try lia.
  rewrite He1 in He2. rewrite Hc1 in Hc2. rewrite Ht1 in Ht2. simpl in Hc2, Ht2.
  destruct (uninit_plane_zero env 1 2 s2 c2 t2) as (s3 & E3 & _ & He3 & Hc3 & Ht3 & Hl3);
    try (rewrite ?He2, ?Hc2, ?Ht2, ?He; reflexivity); try lia.
  rewrite He2 in He3. rewrite Hc2 in Hc3. rewrite Ht2 in Ht3. simpl in Hc3, Ht3.
  destruct (uninit_plane_zero env 0 3 s3 c3 t3) as (s4 & E4 & _ & He4 & Hc4 & Ht4 & Hl4);
    try (rewrite ?He3, ?Hc3, ?Ht3, ?He; reflexivity); try lia.
  rewrite Hc3 in Hc4. rewrite Ht3 in Ht4. simpl in Hc4, Ht4.
  unfold bind at 1. rewrite E1. simpl Z.add. rewrite E2. simpl Z.add. rewrite E3.
  simpl Z.add. rewrite E4. cbn [uninit_planes]. unfold ret at 1.
  unfold bind at 1.
  destruct (cuCtxPopCurrent env s4) as [[r' s5]|] eqn:E5.
  2:{ unfold cuCtxPopCurrent, bind, ext in E5. simpl in E5.
      destruct (res _ =? CUDA_SUCCESS) in E5; discriminate. }
  assert (H5 : p s5 = p s4 /\ closes 0 (trace (w s5)) = closes 0 (trace (w s4))).
  { unfold cuCtxPopCurrent, bind, ext in E5. simpl in E5.
    destruct (res _ =? CUDA_SUCCESS) in E5; prim E5; split; reflexivity. }
  destruct H5 as [Hp5 Hc5].
  exists s5. split; [reflexivity|]. rewrite Hp5, Hc5, Ht4, Hc4, Hl4, Hl3, Hl2, Hl1, Hcb.
  repeat split.
Qed.

Lemma mapper_uninit_closes_fd_zero_witness :
  exists st',
    mapper_uninit ok_env (fresh_state [] true false) = Ret (tt, st') /\
    tex (p st') = [0; 0; 0; 0] /\ cu_res (p st') = [0; 0; 0; 0] /\
    closes 0 (trace (w st')) = (12 + closes 0 [])%nat.
Proof.
  apply (mapper_uninit_closes_fd_zero ok_env (fresh_state [] true false)).
  - repeat split.
  - reflexivity.
Defined.

(** X15: under Vulkan [mapper_map] stores the [bool] of [ra_vk_hold] in [ret]
    and jumps to [error] when it is false, where [ret], now 0, is returned:
    when the first texture cannot be held, [mapper_map] reports success
    having copied nothing. *)
Theorem mapper_map_reports_success_when_hold_fails (env : environment)
  (st : state) (t : Z) (e : ext_buf) :
  push_succeeds env -> pop_succeeds env ->
  is_vk (owner st) = true ->
  0 < layout_num_planes (p st) ->
  zlookup (tex (p st)) 0 = Some t ->
  zlookup (ebuf (p st)) 0 = Some e ->
  res (answers env (CuCtxPushCurrent (display_ctx (p st)) :: trace (w st))
         (Ra_vk_hold t (wait_s e))) = 0 ->
  exists st',
    mapper_map env st = Ret (0, st') /\
    trace (w st') = CuCtxPopCurrent :: Ra_vk_hold t (wait_s e)
                    :: CuCtxPushCurrent (display_ctx (p st)) :: trace (w st).
Proof.
  intros Hpush Hpop Hvk Hn Ht He Hhold.
  unfold mapper_map.
  destruct (Z.to_nat (layout_num_planes (p st))) as [|k] eqn:Ek; [lia|].
  unfold bind at 1. unfold get at 1. unfold bind at 1.
  unfold cuCtxPushCurrent, bind, ext. simpl.
  rewrite (Hpush (trace (w st))). simpl.
  rewrite Ek. cbn [map_planes]. unfold get, bind, index4. simpl.
  rewrite Ht, He, Hvk. simpl.
  unfold ext. simpl. rewrite Hhold. simpl.
  unfold cuCtxPopCurrent, bind, ext. simpl. rewrite Hpop. simpl.
  eexists. split; reflexivity.
Qed.

Lemma mapper_map_reports_success_when_hold_fails_witness :
  exists st',
    mapper_map no_hold_env (two_plane_state false true) = Ret (0, st') /\
    trace (w st') = [CuCtxPopCurrent; Ra_vk_hold 0 0; CuCtxPushCurrent 71].
Proof.
  apply (mapper_map_reports_success_when_hold_fails no_hold_env
           (two_plane_state false true) 0 ext_buf_zero);
    try reflexivity.
  - intros tr c. reflexivity.
  - intros tr. reflexivity.
Defined.

(** *** The textures [mapper_init] creates *)

Lemma textures_ret {A : Type} (a : A) : leaves_textures_unchanged (ret a).
Proof. intros st a' st' H. prim H. auto. Qed.

Lemma textures_undefined {A : Type} : leaves_textures_unchanged (@undefined state A).
Proof. intros st a st' H. discriminate. Qed.

Lemma textures_get : leaves_textures_unchanged (@get state).
Proof. intros st a st' H. prim H. auto. Qed.

Lemma textures_bind {A B : Type} (m : M state A) (k : A -> M state B) :
  leaves_textures_unchanged m ->
  (forall a, leaves_textures_unchanged (k a)) ->
  leaves_textures_unchanged (bind m k).
Proof.
  intros Hm Hk st b st' H.
  destruct (bind_inv _ _ _ _ _ H) as (a & st1 & H1 & H2).
  destruct (Hm _ _ _ H1) as (E1 & E2 & E3).
  destruct (Hk _ _ _ _ H2) as (E4 & E5 & E6).
  repeat split; congruence.
Qed.

Lemma textures_ext (env : environment) (c : call) :
  leaves_textures_unchanged (ext env c).
Proof. intros st a st' H. called H. auto. Qed.

Lemma textures_index4 {A : Type} (l : list A) (n : Z) :
  leaves_textures_unchanged (index4 l n).
Proof.
  unfold index4. destruct (if n <? 4 then zlookup l n else None).
  - apply textures_ret.
  - apply textures_undefined.
Qed.

Lemma textures_store4 {A : Type} (get_ : priv -> list A)
  (set_ : list A -> priv -> priv) (n : Z) (f : A -> A) :
  (forall l x, tex (set_ l x) = tex x /\ display_ctx (set_ l x) = display_ctx x) ->
  leaves_textures_unchanged (store4 get_ set_ n f).
Proof.
  intros Hset. unfold store4. apply textures_bind; [apply textures_get|].
  intros st0. apply textures_bind; [apply textures_index4|].
  intros a st a' st' H. prim H. simpl. destruct (Hset (list_set (get_ (p st)) (Z.to_nat n) (f a)) (p st)). auto.
Qed.

Create HintDb textures.

#[local] Hint Resolve textures_ret textures_undefined textures_get textures_ext
  textures_index4 : textures.

Ltac textures :=
  repeat first
    [ solve [auto with textures]
    | solve [apply textures_store4; intros; split; reflexivity]
    | apply textures_bind; [|intros]
    | progress cbv zeta
    | match goal with
      | |- leaves_textures_unchanged (if ?b then _ else _) => destruct b
      | |- leaves_textures_unchanged (match ?x with _ => _ end) => destruct x
      end ].

Lemma textures_register_gl (env : environment) (n texture : Z) :
  leaves_textures_unchanged (register_gl env n texture).
Proof. unfold register_gl. textures. Qed.

Lemma textures_cuda_ebuf_init (env : environment) (format : ra_format) (n : Z) :
  leaves_textures_unchanged (cuda_ebuf_init env format n).
Proof. unfold cuda_ebuf_init. textures. Qed.

Lemma zlookup_list_set_same {A : Type} (l : list A) (n : Z) (a b : A) :
  zlookup l n = Some a -> zlookup (list_set l (Z.to_nat n) b) n = Some b.
Proof.
  unfold zlookup. destruct (n <? 0); [discriminate|].
  generalize (Z.to_nat n). clear n. intros k. revert k.
  induction l as [|h t IH]; intros [|k] H; simpl in *; try discriminate; auto.
Qed.

Lemma zlookup_list_set_other {A : Type} (l : list A) (n i : Z) (b : A) :
  0 <= n -> i <> n -> zlookup (list_set l (Z.to_nat n) b) i = zlookup l i.
Proof.
  intros Hn Hi. unfold zlookup. destruct (Z.ltb_spec i 0); [reflexivity|].
  assert (Hk : Z.to_nat i <> Z.to_nat n) by lia.
  revert Hk. generalize (Z.to_nat i) (Z.to_nat n). clear. intros i n. revert i n.
  induction l as [|h t IH]; intros [|i] [|n] H; simpl; auto; congruence.
Qed.

(** The loop of [mapper_init]: when it ends with a result that is not
    negative, every plane from [n] on has its texture, and the textures below
    [n] are the ones it found. *)
Lemma init_planes_textures (env : environment) (desc : ra_imgfmt_desc) (todo : nat) :
  forall (n ret_ : Z) (st st' : state) (r : Z),
  0 <= n ->
  init_planes env desc todo n ret_ st = Ret (r, st') ->
  0 <= r ->
  (forall i, n <= i < n + Z.of_nat todo ->
     exists t, zlookup (tex (p st')) i = Some t /\ t <> 0) /\
  (forall i, i < n -> zlookup (tex (p st')) i = zlookup (tex (p st)) i) /\
  display_ctx (p st') = display_ctx (p st).
Proof.
  induction todo as [|todo IH]; intros n ret_ st st' r Hn H Hr.
  - simpl in H. prim H. split; [intros i Hi; lia | split; reflexivity].
  - cbn [init_planes] in H.
    destruct (zlookup (planes desc) n) as [format|]; [|discriminate].
    step H. called E.
    step H. unfold store4 in E. step E. prim E0. step E.
    unfold index4 in E0.
    destruct (if n <? 4 then zlookup (tex (p (with_w (log_call (Ra_tex_create n)) st))) n
              else None) as [t0|] eqn:Eidx; [|discriminate].
    prim E0. prim E.
    assert (Hold : zlookup (tex (p st)) n = Some t0).
    { destruct (n <? 4); [exact Eidx | discriminate]. }
    branch H. { prim H. lia. }
    step H. prim E.
    assert (Hrec : exists r1 s1,
               tex (p s1) = list_set (tex (p st)) (Z.to_nat n) (res a) /\
               display_ctx (p s1) = display_ctx (p st) /\
               init_planes env desc todo (n + 1) r1 s1 = Ret (r, st')).
    { cbn [owner with_p with_w] in H. destruct (is_gl (owner st)).
      - step H as r1 s1 E.
        destruct (textures_register_gl _ _ _ _ _ _ E) as (Et & _ & Ed).
        branch H. { prim H. apply Z.ltb_lt in Heqb0. lia. }
        eexists _, _. split; [|split; [|exact H]]; [rewrite Et | rewrite Ed]; reflexivity.
      - destruct (is_vk (owner st)).
        + step H as ok s1 E.
          destruct (textures_cuda_ebuf_init _ _ _ _ _ _ E) as (Et & _ & Ed).
          branch H. { destruct ok; discriminate. }
          eexists _, _. split; [|split; [|exact H]]; [rewrite Et | rewrite Ed]; reflexivity.
        + eexists _, _. split; [|split; [|exact H]]; reflexivity. }
    destruct Hrec as (r1 & s1 & Ht & Hdc & Hloop).
    assert (Hn1 : 0 <= n + 1) by lia.
    destruct (IH _ _ _ _ _ Hn1 Hloop Hr) as (Hset & Hkeep & Hdc').
    split; [|split; [|congruence]].
    + intros i Hi. destruct (Z.eq_dec i n) as [->|Hne].
      * exists (res a). rewrite Hkeep by lia. rewrite Ht.
        split; [exact (zlookup_list_set_same _ _ _ _ Hold)|].
        intros Hz. rewrite Hz in Heqb. discriminate.
      * apply Hset. lia.
    + intros i Hi. rewrite Hkeep by lia. rewrite Ht.
      apply zlookup_list_set_other; lia.
Qed.

(** X16: when [mapper_init] returns a value that is not negative, every plane
    of the format has a non-null texture in [mapper->tex], under OpenGL and
    under Vulkan alike, and the mapper uses the display context of the
    owner. *)
Theorem mapper_init_creates_every_texture (env : environment) (st st' : state)
  (r : Z) (desc : ra_imgfmt_desc) :
  mapper_init env st = Ret (r, st') ->
  0 <= r ->
  ra_get_imgfmt_desc env (src_hw_subfmt (p st)) = Some desc ->
  display_ctx (p st') = owner_display_ctx (owner st) /\
  forall n, 0 <= n < num_planes desc ->
    exists t, zlookup (tex (p st')) n = Some t /\ t <> 0.
Proof.
  intros H Hr Hdesc. unfold mapper_init in H.
  step H. prim E. step H. prim E. rewrite Hdesc in H.
  step H as r0 s0 E.
  assert (Hpush : p s0 = set_mapper_init (owner_display_ctx (owner st))
                           (src_hw_subfmt (p st))
                           (mp_image_num_planes env (src_hw_subfmt (p st))) (p st)).
  { unfold cuCtxPushCurrent in E. step E. called E0. step E.
    destruct (res a =? CUDA_SUCCESS); prim E0; prim E; reflexivity. }
  branch H. { prim H. apply Z.ltb_lt in Heqb. lia. }
  step H as r1 s1 E1. step H as e s2 E2.
  assert (Hpop : p s2 = p s1).
  { destruct (pop_any_inv _ _ _ _ E2) as (_ & Hp & _). exact Hp. }
  assert (Hend : r = r1 /\ st' = s2).
  { branch H; prim H; [apply Z.ltb_lt in Heqb0; lia | auto]. }
  destruct Hend as [-> ->].
  destruct (init_planes_textures _ _ _ _ _ _ _ _ (Z.le_refl 0) E1 Hr)
    as (Hset & Hkeep & Hdc).
  rewrite Hpop. split.
  - rewrite Hdc, Hpush. reflexivity.
  - intros n Hn. apply Hset. lia.
Qed.

Lemma mapper_init_creates_every_texture_witness :
  match mapper_init ok_env (fresh_state [] true false) with
  | Ret (_, st') =>
      display_ctx (p st') = 71 /\
      forall n, 0 <= n < 2 -> exists t, zlookup (tex (p st')) n = Some t /\ t <> 0
  | Undefined => False
  end.
Proof.
  destruct (mapper_init ok_env (fresh_state [] true false)) as [[r st']|] eqn:E.
  - apply (mapper_init_creates_every_texture ok_env _ _ r nv12_desc E).
    + vm_compute in E. injection E as <- _. lia.
    + reflexivity.
  - vm_compute in E. discriminate.
Defined.

(** *** The copies of [mapper_map] *)

Lemma skipn_nth_error {A : Type} (l : list A) (k : nat) (a : A) :
  nth_error l k = Some a -> skipn k l = a :: skipn (S k) l.
Proof.
  revert k. induction l as [|h t IH]; intros [|k] H; simpl in *; try discriminate.
  - now injection H as ->.
  - now apply IH.
Qed.

(** The loop of [mapper_map] without Vulkan: when it ends with 0 it has
    copied into the array of each plane from [n] on, in order, and has
    written nothing to the mapper. *)
Lemma map_planes_copies (env : environment) (todo : nat) :
  forall (n ret_ : Z) (st st' : state),
  is_vk (owner st) = false -> 0 <= n ->
  map_planes env todo n ret_ st = Ret (0, st') ->
  p st' = p st /\
  List.length (firstn todo (skipn (Z.to_nat n) (cu_array (p st)))) = todo /\
  trace (w st') =
  rev (map CuMemcpy2DAsync (firstn todo (skipn (Z.to_nat n) (cu_array (p st)))))
  ++ trace (w st).
Proof.
  induction todo as [|todo IH]; intros n ret_ st st' Hvk Hn H.
  - simpl in H. unfold ret in H. injection H as _ <-. repeat split.
  - cbn [map_planes] in H. step H. prim E.
    step H as t s0 E. unfold index4 in E.
    destruct (if n <? 4 then zlookup (tex (p st)) n else None); [|discriminate].
    prim E.
    step H as e s0 E. unfold index4 in E.
    destruct (if n <? 4 then zlookup (ebuf (p st)) n else None); [|discriminate].
    prim E. rewrite Hvk in H.
    step H. prim E.
    branch H; [discriminate|].
    step H as arr s0 E. unfold index4 in E.
    destruct (if n <? 4 then zlookup (cu_array (p st)) n else None) as [x|] eqn:Ex;
      [|discriminate].
    prim E.
    assert (Hx : nth_error (cu_array (p st)) (Z.to_nat n) = Some x).
    { destruct (n <? 4); [|discriminate]. unfold zlookup in Ex.
      destruct (n <? 0); [discriminate | exact Ex]. }
    step H as c s0 E. called E.
    branch H.
    { unfold ret in H. injection H as Hc _. rewrite Hc in Heqb0. discriminate. }
    assert (Hn1 : 0 <= n + 1) by lia.
    destruct (IH _ _ (with_w (log_call (CuMemcpy2DAsync x)) st) _ Hvk Hn1 H)
      as (Hp & Hlen & Htr).
    simpl in Hp, Hlen, Htr. split; [exact Hp|].
    replace (Z.to_nat (n + 1)) with (S (Z.to_nat n)) in * by lia.
    rewrite Htr, (skipn_nth_error _ _ _ Hx). cbn [firstn map rev List.length].
    split; [now rewrite Hlen|]. now rewrite <- app_assoc.
Qed.

(** X17: without Vulkan (under OpenGL), when [mapper_map] returns 0 it has
    pushed the display context, issued exactly one [cuMemcpy2DAsync] for each
    plane of the layout, in plane order and into that plane's [cu_array], and
    popped the context again; it called nothing else and wrote nothing to the
    mapper. *)
Theorem mapper_map_copies_each_plane (env : environment) (st st' : state) :
  is_vk (owner st) = false ->
  mapper_map env st = Ret (0, st') ->
  p st' = p st /\
  List.length (firstn (Z.to_nat (layout_num_planes (p st))) (cu_array (p st)))
  = Z.to_nat (layout_num_planes (p st)) /\
  trace (w st') =
  CuCtxPopCurrent
  :: rev (map CuMemcpy2DAsync
            (firstn (Z.to_nat (layout_num_planes (p st))) (cu_array (p st))))
  ++ CuCtxPushCurrent (display_ctx (p st)) :: trace (w st).
Proof.
  intros Hvk H. unfold mapper_map in H.
  step H. prim E. step H as r0 s0 E.
  assert (Hpush : p s0 = p st /\ owner s0 = owner st /\
                  trace (w s0) = CuCtxPushCurrent (display_ctx (p st)) :: trace (w st)).
  { unfold cuCtxPushCurrent in E. step E as a1 sa Ea. called Ea. step E as u sb Eb.
    destruct (res a1 =? CUDA_SUCCESS); prim Eb; prim E; repeat split. }
  destruct Hpush as (Hp0 & Ho0 & Ht0).
  branch H.
  { unfold ret in H. injection H as Hc _. rewrite Hc in Heqb. discriminate. }
  step H as r1 s1 E1. step H as e s2 E2.
  assert (Hpop : p s2 = p s1 /\ trace (w s2) = CuCtxPopCurrent :: trace (w s1)).
  { unfold cuCtxPopCurrent in E2. step E2 as a1 sa Ea. called Ea. step E2 as u sb Eb.
    destruct (res a1 =? CUDA_SUCCESS); prim Eb; prim E2; repeat split. }
  destruct Hpop as (Hp2 & Ht2).
  assert (Hend : r1 = 0 /\ st' = s2).
  { branch H; unfold ret in H; injection H as Hc Hs; [|auto].
    rewrite Hc in Heqb0. discriminate. }
  destruct Hend as [-> ->].
  rewrite <- Ho0 in Hvk.
  destruct (map_planes_copies _ _ _ _ _ _ Hvk (Z.le_refl 0) E1) as (Hp1 & Hlen & Ht1).
  rewrite Hp0 in Hp1, Hlen, Ht1. simpl in Hlen, Ht1.
  rewrite Hp2, Hp1, Ht2, Ht1, Ht0. auto.
Qed.

Lemma mapper_map_copies_each_plane_witness :
  match mapper_map ok_env (textured_state true false) with
  | Ret (0, st') =>
      p st' = p (textured_state true false) /\
      List.length [61; 62] = 2%nat /\
      trace (w st') = [CuCtxPopCurrent; CuMemcpy2DAsync 62; CuMemcpy2DAsync 61;
                       CuCtxPushCurrent 71]
  | _ => False
  end.
Proof.
  destruct (mapper_map ok_env (textured_state true false)) as [[r st']|] eqn:E.
  - assert (Hr : r = 0) by (vm_compute in E; now injection E as <- _).
    subst r.
    exact (mapper_map_copies_each_plane ok_env (textured_state true false) st'
             eq_refl E).
  - vm_compute in E. discriminate.
Defined.

End HwdecCudaMapperFacts.

(** ** More on the VA-API interop: mapping and unmapping, [init], formats *)

Module HwdecVaapiLifecycle.

Import HwdecVaapi HwdecVaapiFacts.

Local Open Scope cmonad_scope.

(** X18: [mapper_unmap] on a mapper that holds nothing is a no-op: no
    texture is freed, no memory object released, and the state is left
    exactly as it is. *)
Theorem mapper_unmap_of_unmapped (env : environment) (st : state) :
  unmapped st -> mapper_unmap env st = Ret (tt, st).
Proof.
  intros [Ht Hm]. destruct st; simpl in *; subst. reflexivity.
Qed.

Lemma mapper_unmap_of_unmapped_witness :
  mapper_unmap (ok_env 0) fresh_state = Ret (tt, fresh_state).
Proof.
  apply mapper_unmap_of_unmapped. split; reflexivity.
Defined.

(** *** Mapping, then unmapping *)

Lemma index4_at {A : Type} (l : list A) (n : nat) (d : A) (st : state) :
  (n < 4)%nat -> (n < List.length l)%nat ->
  index4 l (Z.of_nat n) st = Ret (nth n l d, st).
Proof.
  intros H4 Hl. unfold index4.
  destruct (Z.ltb_spec (Z.of_nat n) 4); [|lia].
  now rewrite (zlookup_of_nth l n d Hl).
Qed.

Lemma store_tex_at (n : nat) (v : option ra_tex) (st : state) :
  (n < 4)%nat -> (n < List.length (tex st))%nat ->
  store_tex (Z.of_nat n) v st = Ret (tt, set_tex (list_set (tex st) n v) st).
Proof.
  intros H4 Hl. unfold store_tex, bind, get.
  rewrite (index4_at _ _ None _ H4 Hl). unfold modify. now rewrite Nat2Z.id.
Qed.

Lemma store_mem_at (n : nat) (v : option pl_vulkan_mem) (st : state) :
  (n < 4)%nat -> (n < List.length (mem st))%nat ->
  store_mem (Z.of_nat n) v st = Ret (tt, set_mem (list_set (mem st) n v) st).
Proof.
  intros H4 Hl. unfold store_mem, bind, get.
  rewrite (index4_at _ _ None _ H4 Hl). unfold modify. now rewrite Nat2Z.id.
Qed.

(** On arrays of four [mapper_unmap] runs to its end. *)
Lemma unmap_slots_returns (env : environment) (todo : nat) :
  forall (n : nat) (st : state),
  (n + todo <= 4)%nat ->
  List.length (tex st) = 4%nat -> List.length (mem st) = 4%nat ->
  exists st', unmap_slots env todo (Z.of_nat n) st = Ret (tt, st').
Proof.
  induction todo as [|todo IH]; intros n st Hn Lt Lm.
  - eexists. reflexivity.
  - cbn [unmap_slots].
    assert (H4 : (n < 4)%nat) by lia.
    assert (E1 : exists s1, ra_tex_free env (Z.of_nat n) st = Ret (tt, s1) /\
                            List.length (tex s1) = 4%nat /\ mem s1 = mem st).
    { unfold ra_tex_free. unfold bind at 1. unfold get at 1. unfold bind at 1.
      rewrite (index4_at _ _ None _ H4) by lia.
      destruct (nth n (tex st) None) as [t|].
      - unfold bind at 1. unfold ext_, ext, bind at 1. cbn [ret].
        unfold bind at 1. unfold modify at 1.
        rewrite store_tex_at by (simpl; lia).
        eexists. split; [reflexivity|]. simpl. rewrite list_set_length. auto.
      - rewrite store_tex_at by lia.
        eexists. split; [reflexivity|]. simpl. rewrite list_set_length. auto. }
    destruct E1 as (s1 & E1 & Lt1 & Em1).
    unfold bind at 1. rewrite E1. unfold bind at 1. unfold get at 1.
    unfold bind at 1. rewrite (index4_at _ _ None _ H4) by (rewrite Em1; lia).
    assert (E2 : exists s2, (match nth n (mem s1) None with
                             | Some m' => pl_vulkan_mem_deref env m'
                             | None => ret tt
                             end) s1 = Ret (tt, s2) /\
                            List.length (tex s2) = 4%nat /\
                            List.length (mem s2) = 4%nat).
    { destruct (nth n (mem s1) None) as [m|].
      - eexists. split; [reflexivity|]. simpl. rewrite Em1. auto.
      - eexists. split; [reflexivity|]. rewrite Em1. auto. }
    destruct E2 as (s2 & E2 & Lt2 & Lm2).
    unfold bind at 1. rewrite E2. unfold bind at 1.
    rewrite store_mem_at by lia.
    replace (Z.of_nat n + 1) with (Z.of_nat (S n)) by lia.
    apply IH; simpl; [lia | exact Lt2 | now rewrite list_set_length].
Qed.

Lemma owned_swap {A : Type} (handle : A -> Z) (l : list (option A)) :
  List.length l = 4%nat ->
  Permutation (owned handle (list_set (list_set l 1 (nth 2 l None)) 2 (nth 1 l None)))
              (owned handle l).
Proof.
  intros Hl.
  destruct l as [|a [|b [|c [|d [|]]]]]; try discriminate.
  destruct a, b, c, d; simpl; try reflexivity;
    repeat (apply perm_skip); try apply perm_swap.
Qed.

(** A successful map on an unmapped mapper: the arrays hold what was
    imported, and nothing else was. *)
Lemma mapper_map_success_account (env : environment) (st st' : state) :
  unmapped st ->
  mapper_map env st = Ret (0, st') ->
  List.length (tex st') = 4%nat /\ List.length (mem st') = 4%nat /\
  mem_accounted (live_mem st) st' /\ tex_accounted (live_tex st) st' /\
  devs st' = devs st.
Proof.
  intros [Ut Um] H. unfold mapper_map in H.
  step H as status s1 Hx. apply ext_inv in Hx. destruct Hx as [_ ->].
  step H as u s2 Hd.
  assert (Hs2 : tex s2 = no_slot /\ mem s2 = no_slot /\
                live_mem s2 = live_mem st /\ live_tex s2 = live_tex st /\
                devs s2 = devs st).
  { destruct (res status =? VA_STATUS_SUCCESS); prim Hd; simpl; auto. }
  clear Hd. destruct Hs2 as (Et & Em & Elm & Elt & Ed).
  assert (Am : mem_accounted (live_mem st) s2).
  { unfold mem_accounted. rewrite Em, Elm. reflexivity. }
  assert (At : tex_accounted (live_tex st) s2).
  { unfold tex_accounted. rewrite Et, Elt. reflexivity. }
  assert (Lt : List.length (tex s2) = 4%nat) by now rewrite Et.
  assert (Lm : List.length (mem s2) = 4%nat) by now rewrite Em.
  destruct (negb (res status =? VA_STATUS_SUCCESS)).
  { exfalso. exact (mapper_map_error_fails _ _ _ H). }
  step H as s0 s0' Hg. prim Hg.
  destruct (ra_get_imgfmt_desc env (dst_imgfmt s2)) as [fmts|].
  2:{ exfalso. exact (mapper_map_error_fails _ _ _ H). }
  step H as ok s3 Ho.
  apply (import_objects_account env (live_mem st) _ 0) in Ho;
    [|assumption | rewrite Em; apply empty_from_no_slot | assumption].
  destruct Ho as (Lm3 & Am3 & Et3 & Elt3 & Ed3).
  assert (At3 : tex_accounted (live_tex st) s3).
  { unfold tex_accounted in *. now rewrite Et3, Elt3. }
  assert (Lt3 : List.length (tex s3) = 4%nat) by now rewrite Et3.
  destruct ok; simpl in H.
  2:{ exfalso. exact (mapper_map_error_fails _ _ _ H). }
  step H as ok' s4 Hl.
  apply (import_layers_account env fmts (live_tex st) _ 0) in Hl;
    [|assumption | rewrite Et3, Et; apply empty_from_no_slot | assumption].
  destruct Hl as (Lt4 & At4 & Em4 & Elm4 & Ed4).
  assert (Am4 : mem_accounted (live_mem st) s4).
  { unfold mem_accounted in *. now rewrite Em4, Elm4. }
  assert (Lm4 : List.length (mem s4) = 4%nat) by now rewrite Em4.
  destruct ok'; simpl in H.
  2:{ exfalso. exact (mapper_map_error_fails _ _ _ H). }
  step H as u' s5 Hs. unfold ret in H. injection H as <-.
  assert (Ed5 : devs s4 = devs st) by congruence.
  destruct (fourcc (desc s2) =? VA_FOURCC_YV12).
  - unfold swap_tex_1_2 in Hs.
    step Hs as g sg Hg. prim Hg.
    step Hs as t1 sa Ha. apply index4_inv in Ha. destruct Ha as [-> Ha].
    step Hs as t2 sb Hb. apply index4_inv in Hb. destruct Hb as [-> Hb].
    step Hs as u1 sc Hc. apply store_tex_inv in Hc. destruct Hc as (-> & _ & _).
    apply store_tex_inv in Hs. destruct Hs as (-> & _ & _). simpl.
    destruct (zlookup_nth _ _ _ None Ha) as (_ & _ & E1).
    destruct (zlookup_nth _ _ _ None Hb) as (_ & _ & E2).
    change (Z.to_nat 1) with 1%nat in *. change (Z.to_nat 2) with 2%nat in *.
    subst t1 t2.
    repeat split; auto.
    + now rewrite !list_set_length.
    + unfold tex_accounted in *. simpl.
      change (Pos.to_nat 1) with 1%nat. change (Pos.to_nat 2) with 2%nat.
      rewrite (owned_swap pltex (tex s4) Lt4). exact At4.
  - prim Hs. auto.
Qed.

(** X19: a successful [mapper_map] followed by [mapper_unmap] is a round
    trip: on a mapper that held nothing, the unmap runs to its end, every
    texture and memory pointer is null again, and the memory objects and
    textures that are live on the GPU are those there were before the map;
    no hwdec device comes or goes. *)
Theorem map_then_unmap_restores (env : environment) (st st1 : state) :
  unmapped st ->
  mapper_map env st = Ret (0, st1) ->
  exists st2,
    mapper_unmap env st1 = Ret (tt, st2) /\
    unmapped st2 /\
    Permutation (live_mem st2) (live_mem st) /\
    Permutation (live_tex st2) (live_tex st) /\
    devs st2 = devs st.
Proof.
  intros Hu Hmap.
  destruct (mapper_map_success_account _ _ _ Hu Hmap) as (Lt & Lm & Am & At & Ed).
  destruct (unmap_slots_returns env 4 0 st1 (Nat.le_refl 4) Lt Lm) as (st2 & E).
  exists st2. split; [exact E|].
  destruct (mapper_unmap_inv _ _ _ _ _ _ E Lt Lm Am At) as (Et & Em & Pm & Pt & Ed2).
  unfold unmapped. rewrite Ed2. auto.
Qed.

Lemma map_then_unmap_restores_witness :
  match mapper_map (ok_env VA_FOURCC_YV12) fresh_state with
  | Ret (0, st1) =>
      exists st2,
        mapper_unmap (ok_env VA_FOURCC_YV12) st1 = Ret (tt, st2) /\
        unmapped st2 /\
        Permutation (live_mem st2) [1] /\ Permutation (live_tex st2) [2] /\
        devs st2 = []
  | _ => False
  end.
Proof.
  destruct (mapper_map (ok_env VA_FOURCC_YV12) fresh_state) as [[r st1]|] eqn:E.
  - assert (Hr : r = 0) by (vm_compute in E; now injection E as <- _).
    subst r.
    exact (map_then_unmap_restores (ok_env VA_FOURCC_YV12) fresh_state st1
             (conj eq_refl eq_refl) E).
  - vm_compute in E. discriminate.
Defined.

(** *** [init] *)

Lemma only_calls_ret {A : Type} (a : A) : only_calls (ret a).
Proof. intros st. exists a, (trace st). now destruct st. Qed.

Lemma only_calls_ext (env : environment) (c : call) : only_calls (ext env c).
Proof. intros st. eexists _, (c :: trace st). reflexivity. Qed.

Lemma only_calls_bind {A B : Type} (m : M state A) (k : A -> M state B) :
  only_calls m -> (forall a, only_calls (k a)) -> only_calls (bind m k).
Proof.
  intros Hm Hk st. destruct (Hm st) as (a & t & E).
  destruct (Hk a (with_trace t st)) as (b & t' & E').
  exists b, t'. unfold bind. rewrite E, E'. reflexivity.
Qed.

Ltac only_calls :=
  repeat first
    [ apply only_calls_ret
    | apply only_calls_ext
    | apply only_calls_bind; [|intros]
    | progress cbv zeta
    | match goal with
      | |- only_calls (if ?b then _ else _) => destruct b
      | |- only_calls (match ?x with _ => _ end) => destruct x
      end ].


Lemma only_calls_try_format (env : environment) : only_calls (try_format env).
Proof. unfold try_format, ext_. only_calls. Qed.

Lemma only_calls_probe_format (env : environment) (f : Z) :
  only_calls (probe_format env f).
Proof. unfold probe_format. only_calls. Qed.

Lemma only_calls_probe_formats (env : environment) (fs : list Z) :
  forall acc, only_calls (probe_formats env fs acc).
Proof.
  induction fs as [|f rest IH]; intros acc; simpl; only_calls;
    try apply only_calls_probe_format; apply IH.
Qed.

(** [determine_working_formats] always leaves a zero-terminated array in
    [formats], with [probing_formats] false again. *)
Lemma determine_working_formats_returns (env : environment) (st : state) :
  exists fs t,
    determine_working_formats env st
    = Ret (tt, set_probing_formats false
                 (set_formats (Some (fs ++ [0]))
                    (set_probing_formats true (with_trace t st)))).
Proof.
  unfold determine_working_formats. unfold bind at 1. unfold modify at 1.
  unfold bind at 1.
  assert (E : exists fs t,
             (match valid_sw_formats env with
              | Some sw => probe_formats env sw []
              | None => ret []
              end) (set_probing_formats true st)
             = Ret (fs, with_trace t (set_probing_formats true st))).
  { destruct (valid_sw_formats env) as [sw|].
    - apply only_calls_probe_formats.
    - apply (only_calls_ret (@nil Z)). }
  destruct E as (fs & t & ->). exists fs, t. reflexivity.
Qed.


(** X21: [create_native_va_display] tries the compiled-in backends in the
    order of [create_native_cbs] and stops at the first display it gets: the
    calls it made are a prefix of the table; when it returns null the prefix
    is the whole table, otherwise the display is what the last backend it
    tried gave, and no backend after that one was asked. *)
Theorem create_native_va_display_stops_at_first (env : environment)
  (cbs : list Z) (st st' : state) (d : Z) :
  create_native_va_display env cbs st = Ret (d, st') ->
  exists tried,
    st' = with_trace (rev (map Create_va_display tried) ++ trace st) st /\
    if d =? 0 then tried = cbs
    else exists pre b post,
           tried = pre ++ [b] /\ cbs = tried ++ post /\
           d = res (answers env (rev (map Create_va_display pre) ++ trace st)
                      (Create_va_display b)).
Proof.
  revert st. induction cbs as [|b rest IH]; intros st H; simpl in H.
  - prim H. exists []. split; [now destruct st | reflexivity].
  - step H as a s E. apply ext_inv in E. destruct E as [-> ->].
    destruct (Z.eqb_spec (res (answers env (trace st) (Create_va_display b))) 0)
      as [Hz|Hnz]; simpl in H.
    + destruct (IH _ H) as (tried & Hst & Hd). exists (b :: tried). split.
      * rewrite Hst. simpl. now rewrite <- app_assoc.
      * destruct (d =? 0); [now subst|].
        destruct Hd as (pre & b' & post & -> & -> & Hres).
        exists (b :: pre), b', post. repeat split.
        simpl in *. now rewrite <- app_assoc.
    + prim H. exists [b]. split; [reflexivity|].
      destruct (Z.eqb_spec (res (answers env (trace st) (Create_va_display b))) 0);
        [contradiction|].
      exists [], b, rest. repeat split.
Qed.

Lemma create_native_va_display_stops_at_first_witness :
  exists tried,
    with_trace [Create_va_display 3; Create_va_display 2; Create_va_display 1]
      fresh_state
    = with_trace (rev (map Create_va_display tried) ++ []) fresh_state /\
    exists pre b post,
      tried = pre ++ [b] /\ [1; 2; 3] = tried ++ post /\
      303 = res (answers drm_only_env (rev (map Create_va_display pre) ++ [])
                   (Create_va_display b)).
Proof.
  exact (create_native_va_display_stops_at_first drm_only_env [1; 2; 3] fresh_state
           _ 303 eq_refl).
Defined.

(** *** [check_fmt] and [mapper_init] after the probe *)

Lemma scan_formats_terminated (fs : list Z) (fmt : Z) :
  scan_formats (fs ++ [0]) fmt = Ret (existsb (Z.eqb fmt) (listed (fs ++ [0]))).
Proof.
  induction fs as [|f t IH]; simpl; [reflexivity|].
  destruct (f =? 0); [reflexivity|]. simpl.
  rewrite (Z.eqb_sym fmt f). destruct (f =? fmt); [reflexivity | exact IH].
Qed.

(** X22: the array [determine_working_formats] leaves in [formats] is
    zero-terminated, so that afterwards [check_fmt] never reads past its end
    and [mapper_init] is defined for every format: it returns 0 exactly for
    the formats that have a descriptor and are listed before the first 0,
    and -1 for all others. *)
Theorem mapper_init_after_probe (env : environment) (st st' : state) (fmt : Z) :
  determine_working_formats env st = Ret (tt, st') ->
  exists fs,
    formats st' = Some (fs ++ [0]) /\
    mapper_init env fmt st'
    = Ret ((if match ra_get_imgfmt_desc env fmt with
               | Some _ => existsb (Z.eqb fmt) (listed (fs ++ [0]))
               | None => false
               end
            then 0 else -1),
           set_dst_imgfmt fmt st').
Proof.
  intros H.
  destruct (determine_working_formats_returns env st) as (fs & t & E).
  rewrite E in H. injection H as <-. exists fs. split; [reflexivity|].
  unfold mapper_init, bind, modify, get, lift, check_fmt.
  destruct (ra_get_imgfmt_desc env fmt); [|reflexivity].
  cbv [formats probing_formats set_dst_imgfmt set_probing_formats set_formats].
  rewrite scan_formats_terminated.
  now destruct (existsb (Z.eqb fmt) (listed (fs ++ [0]))).
Qed.

Lemma mapper_init_after_probe_witness :
  match determine_working_formats (ok_env 0) fresh_state with
  | Ret (_, st') =>
      exists fs,
        formats st' = Some (fs ++ [0]) /\
        mapper_init (ok_env 0) 23 st'
        = Ret ((if existsb (Z.eqb 23) (listed (fs ++ [0])) then 0 else -1),
               set_dst_imgfmt 23 st')
  | Undefined => False
  end.
Proof.
  destruct (determine_working_formats (ok_env 0) fresh_state) as [[[] st']|] eqn:E.
  - exact (mapper_init_after_probe (ok_env 0) fresh_state st' 23 E).
  - vm_compute in E. discriminate.
Defined.

End HwdecVaapiLifecycle.

(** ** The log levels of libplacebo and of mpv *)

Module PlaceboLogFacts.

Import PlaceboLog.

(** X23: the two tables of [placebo/utils.c] agree.  For every level [l] of
    libplacebo and every log level [L] of mpv both tables are read inside
    their bounds, and libplacebo, asked for [msg_lev_to_pl_log[L]], emits a
    message of level [l] exactly when mpv, at level [L], shows the message
    [log_cb] makes of it: nothing is asked for that would be dropped, and
    nothing that would be shown is held back. *)
Theorem log_levels_agree (l L : Z) :
  PL_LOG_NONE <= l <= PL_LOG_ALL ->
  MSGL_FATAL <= L <= MSGL_MAX ->
  exists m log_level,
    log_cb l = Some m /\ requested_level L = Some log_level /\
    MSGL_FATAL <= m <= MSGL_TRACE /\
    PL_LOG_FATAL <= log_level <= PL_LOG_ALL /\
    emitted log_level l = shown L m.
Proof.
  unfold PL_LOG_NONE, PL_LOG_ALL, PL_LOG_TRACE, MSGL_FATAL, MSGL_MAX, MSGL_STATS.
  intros Hl HL.
  assert (El : l = 0 \/ l = 1 \/ l = 2 \/ l = 3 \/ l = 4 \/ l = 5 \/ l = 6) by lia.
  assert (EL : L = 0 \/ L = 1 \/ L = 2 \/ L = 3 \/ L = 4 \/ L = 5 \/ L = 6 \/
               L = 7 \/ L = 8) by lia.
  clear Hl HL.
  repeat (destruct El as [->|El]); try subst l;
    repeat (destruct EL as [->|EL]); try subst L;
    eexists _, _; (split; [reflexivity|]); (split; [reflexivity|]);
    vm_compute; intuition discriminate.
Qed.

Lemma log_levels_agree_witness :
  exists m log_level,
    log_cb PL_LOG_INFO = Some m /\ requested_level MSGL_INFO = Some log_level /\
    MSGL_FATAL <= m <= MSGL_TRACE /\
    PL_LOG_FATAL <= log_level <= PL_LOG_ALL /\
    emitted log_level PL_LOG_INFO = shown MSGL_INFO m.
Proof.
  apply (log_levels_agree PL_LOG_INFO MSGL_INFO); vm_compute; intuition discriminate.
Defined.

End PlaceboLogFacts.

(** ** [display_init] and [display_uninit] *)

Module DisplayInitFacts.

Import DisplayWalk DisplayWalkFacts DisplayWalkEdges DisplayInit.

Local Open Scope run_scope.

Lemma pbind_returns {A B : Type} (m : P A) (k : A -> P B) (st st' : state) (b : B) :
  pbind m k st = Returns b st' ->
  exists a s1, m st = Returns a s1 /\ k a s1 = Returns b st'.
Proof.
  unfold pbind. destruct (m st) as [a s1| |]; [eauto | discriminate | discriminate].
Qed.

Lemma pbind_aborts {A B : Type} (m : P A) (k : A -> P B) (st : state) :
  pbind m k st = Aborts ->
  m st = Aborts \/ exists a s1, m st = Returns a s1 /\ k a s1 = Aborts.
Proof.
  unfold pbind. destruct (m st) as [a s1| |]; [eauto | auto | discriminate].
Qed.

Tactic Notation "pstep" hyp(H) "as" ident(a) ident(s) ident(E) :=
  apply pbind_returns in H; destruct H as (a & s & E & H).

Ltac pprim E :=
  unfold pret, pget, pmodify, ext in E; injection E as <- <-.

Lemma ext_returns (env : environment) (c : call) (st st' : state) (a : answer) :
  ext env c st = Returns a st' -> st' = log_call c st.
Proof. unfold ext. intros H. now injection H as _ <-. Qed.

Ltac pcalled E := apply ext_returns in E; subst.

Ltac pbranch H :=
  match type of H with
  | (if ?c then _ else _) _ = _ => destruct c eqn:?
  end.

Lemma remove_object_head (o : object) (l : list object) :
  remove_object o (o :: l) = l.
Proof. simpl. destruct o; simpl; now rewrite Z.eqb_refl. Qed.

Lemma remove_copy_head (m : VkDisplayModePropertiesKHR)
  (l : list VkDisplayModePropertiesKHR) :
  remove_copy m (m :: l) = l.
Proof. simpl. now rewrite !Z.eqb_refl. Qed.

(** [mppl_ctx_create] touches nothing but the record of the objects alive,
    to which it adds the context it returns. *)
Lemma mppl_ctx_create_returns (env : environment) (st st' : state) (c : Z) :
  mppl_ctx_create env st = Returns c st' ->
  vk_ctx st' = vk_ctx st /\ vk_vkinst st' = vk_vkinst st /\
  vk_surface st' = vk_surface st /\ mode_copies st' = mode_copies st /\
  live st' = (if c =? 0 then [] else [Context c]) ++ live st.
Proof.
  unfold mppl_ctx_create. intros H.
  pstep H as l s E. pcalled E.
  pbranch H; [discriminate|].
  pstep H as lev s E. pcalled E.
  destruct (PlaceboLog.requested_level _) as [log_level|]; [|discriminate].
  pstep H as a s E. pcalled E.
  pbranch H.
  - pstep H as u s E. pcalled E. pprim H. simpl. auto.
  - pstep H as u s E. pprim E. pprim H. simpl. rewrite Heqb0. auto.
Qed.

(** [mpvk_uninit] destroys what the context holds, and clears the three
    pointers. *)
Lemma mpvk_uninit_returns (env : environment) (others : list object)
  (st st' : state) (u : unit) :
  mpvk_uninit env st = Returns u st' ->
  holds_over others st ->
  torn_down st' /\ live st' = others /\ mode_copies st' = mode_copies st /\
  width st' = width st /\ height st' = height st.
Proof.
  unfold mpvk_uninit, holds_over, held, torn_down. intros H Hl.
  pstep H as s0 s E. pprim E.
  pstep H as u1 s1 E.
  assert (E1 : vk_surface s1 = 0 /\
               vk_vkinst s1 = vk_vkinst st /\ vk_ctx s1 = vk_ctx st /\
               mode_copies s1 = mode_copies st /\
               width s1 = width st /\ height s1 = height st /\
               live s1 = (if vk_vkinst st =? 0 then [] else [Instance (vk_vkinst st)])
                         ++ (if vk_ctx st =? 0 then [] else [Context (vk_ctx st)])
                         ++ others).
  { destruct (vk_surface st =? 0) eqn:Es; simpl in E.
    - pprim E. rewrite Hl. simpl. rewrite <- app_assoc. repeat split.
      now apply Z.eqb_eq.
    - destruct (vk_vkinst st =? 0) eqn:Ei; [discriminate|].
      pstep E as a2 s2 E2. pprim E2. pstep E as a3 s3 E3. pprim E3. pprim E.
      unfold destroyed. simpl. rewrite Es. simpl. rewrite Hl. simpl.
      rewrite Z.eqb_refl. rewrite <- ?app_assoc. repeat split. }
  clear E. destruct E1 as (Esf & Ei & Ec & Em & Ew & Eh & El).
  pstep H as a2 s2 E2. pprim E2.
  pstep H as a3 s3 E3. pprim E3.
  pstep H as a4 s4 E4. pprim E4.
  pstep H as a5 s5 E5. pprim E5.
  pstep H as a6 s6 E6. pprim E6.
  pprim H. unfold destroyed, handle_of.
  destruct (vk_vkinst st =? 0) eqn:Ti; destruct (vk_ctx st =? 0) eqn:Tc; simpl;
    rewrite ?El; simpl; rewrite ?Z.eqb_refl, ?remove_object_head;
    repeat split; auto; apply remove_object_head.
Qed.

(** [mpvk_init] on a context that holds nothing: what it created the context
    holds, and when it fails it has destroyed it again. *)
Lemma mpvk_init_returns (env : environment) (st st' : state) (ok : bool) :
  mpvk_init env st = Returns ok st' ->
  torn_down st ->
  holds_over (live st) st' /\ vk_surface st' = 0 /\
  mode_copies st' = mode_copies st /\
  if ok then vk_ctx st' <> 0 /\ vk_vkinst st' <> 0
  else torn_down st' /\ live st' = live st.
Proof.
  unfold mpvk_init. intros H (Zc & Zi & Zs).
  pstep H as c s1 E1.
  destruct (mppl_ctx_create_returns _ _ _ _ E1) as (Ec & Ei & Es & Em & El).
  pstep H as u s2 E2. pprim E2.
  destruct (c =? 0) eqn:Tc.
  - pstep H as u1 s3 E3. pprim H.
    assert (Hh : holds_over (live st) (set_vk_ctx c s1)).
    { unfold holds_over, held. simpl. rewrite Es, Ei, Zs, Zi, Tc, El. reflexivity. }
    destruct (mpvk_uninit_returns _ _ _ _ _ E3 Hh) as (Ht & Hl & Hm & _).
    simpl in Hm. destruct Ht as (T1 & T2 & T3).
    unfold holds_over, held, torn_down. rewrite T1, T2, T3, Hl, Hm, Em.
    repeat split.
  - pstep H as i s3 E3. pcalled E3.
    pstep H as u1 s4 E4.
    pstep H as u2 s5 E5. pprim E5.
    destruct (res i =? 0) eqn:Ti; pprim E4.
    + pstep H as u3 s6 E6. pprim H.
      assert (Hh : holds_over (live st)
                     (set_vk_vkinst (res i) (log_call (Pl_vk_inst_create c)
                                               (set_vk_ctx c s1)))).
      { unfold holds_over, held. simpl. rewrite Es, Zs, Ti, Tc, El. reflexivity. }
      destruct (mpvk_uninit_returns _ _ _ _ _ E6 Hh) as (Ht & Hl & Hm & _).
      simpl in Hm. destruct Ht as (T1 & T2 & T3).
      unfold holds_over, held, torn_down. rewrite T1, T2, T3, Hl, Hm, Em.
      repeat split.
    + pprim H. unfold holds_over, held, created. simpl.
      rewrite Es, Zs, Ti, Tc, El, Em. simpl.
      repeat split; intros Hz; rewrite Hz in *; discriminate.
Qed.

Lemma display_uninit_returns (env : environment) (others : list object)
  (st st' : state) (u : unit) :
  display_uninit env st = Returns u st' ->
  holds_over others st ->
  torn_down st' /\ live st' = others /\ mode_copies st' = mode_copies st.
Proof.
  unfold display_uninit. intros H Hh.
  pstep H as a s E. pprim E.
  destruct (mpvk_uninit_returns env others _ _ _ H Hh) as (Ht & Hl & Hm & _).
  auto.
Qed.

(** The [error:] label: everything held is destroyed, and the copy of the
    mode that is named is freed. *)
Lemma display_init_error_returns (env : environment) (others : list object)
  (mode : option VkDisplayModePropertiesKHR) (st st' : state) (ok : bool) :
  display_init_error env mode st = Returns ok st' ->
  holds_over others st ->
  ok = false /\ torn_down st' /\ live st' = others /\
  mode_copies st' = match mode with
                    | Some m => remove_copy m (mode_copies st)
                    | None => mode_copies st
                    end.
Proof.
  unfold display_init_error. intros H Hh.
  pstep H as u s E.
  destruct (display_uninit_returns _ _ _ _ _ E Hh) as (Ht & Hl & Hm).
  pstep H as u1 s1 E1. pprim H.
  destruct mode as [m|]; pprim E1; simpl; rewrite ?Hm; auto.
Qed.

(** How [display_init] can return. *)
Lemma display_init_returns (env : environment) (opts : vulkan_display_opts)
  (st st' : state) (ok : bool) :
  display_init env opts st = Returns ok st' ->
  let sel := new_selector (opt_display opts) (opt_mode opts) (opt_plane opts) in
  if ok then
    exists dev m,
      walk_display_properties (describe env dev) (Some sel)
      = Ret (true, Some (set_out_mode_props sel m)) /\
      selected_mode (describe env dev) sel = Some m /\
      width st' = visibleRegion_width m /\ height st' = visibleRegion_height m /\
      vk_ctx st' <> 0 /\ vk_vkinst st' <> 0 /\
      holds_over (live st) st' /\ mode_copies st' = mode_copies st
  else
    torn_down st' /\ live st' = live st /\
    (mode_copies st' = mode_copies st \/
     exists dev m,
       walk_display_properties (describe env dev) (Some sel)
       = Ret (false, Some (set_out_mode_props sel m)) /\
       mode_copies st' = m :: mode_copies st).
Proof.
  intros H sel. unfold display_init in H. fold sel in H.
  pstep H as u s0 E0. pprim E0.
  pstep H as ok1 s1 E1.
  destruct (mpvk_init_returns _ _ _ _ E1) as (Hh & Hs & Hm & Hok);
    [repeat split|].
  simpl in Hh, Hm.
  destruct ok1; simpl in H.
  2:{ destruct (display_init_error_returns _ _ _ _ _ _ H Hh) as (-> & Ht & Hl & Hc).
      rewrite Hc, Hm. auto. }
  destruct Hok as [Hctx Hinst].
  pstep H as g s2 E2. pprim E2.
  pstep H as d s3 E3. pcalled E3.
  assert (Hh3 : holds_over (live st)
                  (log_call (Pl_vulkan_choose_device (vk_ctx s1) (vk_vkinst s1)) s1))
    by exact Hh.
  pbranch H.
  { destruct (display_init_error_returns _ _ _ _ _ _ H Hh3) as (-> & Ht & Hl & Hc).
    simpl in Hc. rewrite Hc, Hm. auto. }
  destruct (walk_display_properties (describe env (res d)) (Some sel))
    as [[found selector]|] eqn:W; [|discriminate].
  destruct (walk_display_properties_inv _ _ _ _ W)
    as (s' & -> & Hdi & Hmi & Hpi & Hout).
  assert (Hsel : s' = match out_mode_props s' with
                      | Some m => set_out_mode_props sel m
                      | None => sel
                      end).
  { destruct s' as [di mi pi out]. simpl in *. subst di mi pi.
    now destruct out. }
  destruct (out_mode_props s') as [m|] eqn:Eout.
  - assert (Hm_sel : selected_mode (describe env (res d)) sel = Some m).
    { destruct Hout as [Hout|(m' & Hs' & Hout)]; [discriminate | congruence]. }
    rewrite Hsel in W.
    pstep H as u1 s4 E4. pprim E4.
    destruct found; simpl in H.
    2:{ assert (Hh4 : holds_over (live st)
                        (set_mode_copies
                           (m :: mode_copies
                                   (log_call (Pl_vulkan_choose_device (vk_ctx s1)
                                                (vk_vkinst s1)) s1))
                           (log_call (Pl_vulkan_choose_device (vk_ctx s1)
                                        (vk_vkinst s1)) s1))) by exact Hh.
        destruct (display_init_error_returns _ _ _ _ _ _ H Hh4) as (-> & Ht & Hl & Hc).
        simpl in Hc. rewrite Hc, Hm. split; [exact Ht|]. split; [exact Hl|].
        right. exists (res d), m. auto. }
    pstep H as sf s5 E5. pcalled E5.
    pstep H as u2 s6 E6.
    destruct (res sf =? VK_SUCCESS) eqn:Tsf; simpl in H.
    + pstep E6 as u3 s7 E7. pprim E7.
      assert (Hh6 : holds_over (live st) s6 /\ vk_ctx s6 = vk_ctx s1 /\
                    vk_vkinst s6 = vk_vkinst s1 /\
                    mode_copies s6 = m :: mode_copies st).
      { unfold holds_over, held in *.
        destruct (out1 sf =? 0) eqn:To; pprim E6; unfold created; simpl;
          rewrite To, Hm; rewrite Hh, Hs; simpl; auto. }
      clear E6. destruct Hh6 as (Hh6 & Hc6 & Hi6 & Hm6).
      pstep H as u4 s8 E8. pprim E8.
      pstep H as r s9 E9. pcalled E9.
      pbranch H.
      * destruct (display_init_error_returns _ _ (Some m) _ _ _ H Hh6)
          as (-> & Ht & Hl & Hc).
        simpl in Hc. rewrite Hm6, remove_copy_head in Hc. auto.
      * pstep H as u5 s10 E10. pprim E10. pprim H. simpl.
        exists (res d), m. rewrite Hc6, Hi6, Hm6, remove_copy_head.
        repeat split; auto.
    + pprim E6.
      assert (Hh6 : holds_over (live st)
                      (log_call (VkCreateDisplayPlaneSurfaceKHR (vk_vkinst s1)
                                   (displayMode m) (visibleRegion_width m)
                                   (visibleRegion_height m) (opt_plane opts))
                         (set_mode_copies
                            (m :: mode_copies
                                    (log_call (Pl_vulkan_choose_device (vk_ctx s1)
                                                 (vk_vkinst s1)) s1))
                            (log_call (Pl_vulkan_choose_device (vk_ctx s1)
                                         (vk_vkinst s1)) s1)))) by exact Hh.
      destruct (display_init_error_returns _ _ (Some m) _ _ _ H Hh6)
        as (-> & Ht & Hl & Hc).
      cbn [mode_copies log_call set_mode_copies] in Hc.
      rewrite remove_copy_head in Hc. rewrite Hc, Hm. auto.
  - pstep H as u1 s4 E4. pprim E4.
    destruct found; simpl in H; [discriminate|].
    destruct (display_init_error_returns _ _ _ _ _ _ H Hh3) as (-> & Ht & Hl & Hc).
    simpl in Hc. rewrite Hc, Hm. auto.
Qed.

(** X24: when [display_init] returns false, wherever it failed, the three
    pointers of the Vulkan context are null again and every libplacebo
    context, instance and surface it created has been destroyed, each once:
    the objects alive are those there were before. *)
Theorem display_init_failure_tears_down (env : environment)
  (opts : vulkan_display_opts) (st st' : state) :
  display_init env opts st = Returns false st' ->
  torn_down st' /\ live st' = live st.
Proof.
  intros H. destruct (display_init_returns _ _ _ _ _ H) as (Ht & Hl & _). auto.
Qed.


(** *** Runs in which Vulkan comes up *)

Lemma pbind_run {A B : Type} (m : P A) (k : A -> P B) (st s1 : state) (a : A) :
  m st = Returns a s1 -> pbind m k st = k a s1.
Proof. intros E. unfold pbind. now rewrite E. Qed.

Lemma pbind_ext {B : Type} (env : environment) (c : call) (k : answer -> P B)
  (st : state) :
  pbind (ext env c) k st = k (answers env (trace st) c) (log_call c st).
Proof. reflexivity. Qed.

Lemma pbind_pmodify {B : Type} (f : state -> state) (k : unit -> P B) (st : state) :
  pbind (pmodify f) k st = k tt (f st).
Proof. reflexivity. Qed.

Lemma pbind_pget {B : Type} (k : state -> P B) (st : state) :
  pbind pget k st = k st st.
Proof. reflexivity. Qed.

Lemma pbind_pret {A B : Type} (a : A) (k : A -> P B) (st : state) :
  pbind (pret a) k st = k a st.
Proof. reflexivity. Qed.

Lemma requested_level_in_range (L : Z) :
  0 <= L <= PlaceboLog.MSGL_MAX -> exists v, PlaceboLog.requested_level L = Some v.
Proof.
  intros HL. unfold PlaceboLog.requested_level. apply zlookup_some_iff.
  unfold PlaceboLog.MSGL_MAX, PlaceboLog.MSGL_STATS in HL. simpl. lia.
Qed.

Lemma mppl_ctx_create_comes_up (env : environment) (st : state) :
  vulkan_comes_up env ->
  exists c st', mppl_ctx_create env st = Returns c st' /\ c <> 0.
Proof.
  intros (Hlog & Hlev & Hctx & _). unfold mppl_ctx_create.
  rewrite pbind_ext.
  destruct (Z.eqb_spec (res (answers env (trace st) Mp_log_new)) 0) as [E|_];
    [now apply Hlog in E|].
  rewrite pbind_ext.
  destruct (requested_level_in_range _ (Hlev (trace (log_call Mp_log_new st))
                                          (res (answers env (trace st) Mp_log_new))))
    as (v & ->).
  rewrite pbind_ext.
  match goal with
  | |- context [res ?a =? 0] => destruct (Z.eqb_spec (res a) 0) as [E|Hne]
  end; [now apply Hctx in E|].
  rewrite pbind_pmodify. eexists _, _. split; [reflexivity | exact Hne].
Qed.

Lemma mpvk_init_comes_up (env : environment) (st : state) :
  vulkan_comes_up env ->
  exists st', mpvk_init env st = Returns true st'.
Proof.
  intros Hup. destruct (mppl_ctx_create_comes_up env st Hup) as (c & s1 & E & Hc).
  destruct Hup as (_ & _ & _ & Hinst & _).
  unfold mpvk_init. rewrite (pbind_run _ _ _ _ _ E).
  rewrite pbind_pmodify.
  destruct (Z.eqb_spec c 0) as [|_]; [contradiction|].
  rewrite pbind_ext.
  match goal with
  | |- context [res ?a =? 0] => destruct (Z.eqb_spec (res a) 0) as [E0|_]
  end; [now apply Hinst in E0|].
  rewrite pbind_pmodify. rewrite pbind_pmodify.
  eexists. reflexivity.
Qed.

(** When Vulkan comes up, [display_init] gets as far as the walk. *)
Lemma display_init_reaches_walk (env : environment) (opts : vulkan_display_opts)
  (st : state) :
  vulkan_comes_up env ->
  exists s1 d,
    torn_down (zero_priv st) /\
    mpvk_init env (zero_priv st) = Returns true s1 /\
    d = res (answers env (trace s1)
               (Pl_vulkan_choose_device (vk_ctx s1) (vk_vkinst s1))) /\
    d <> 0.
Proof.
  intros Hup. destruct (mpvk_init_comes_up env (zero_priv st) Hup) as (s1 & E).
  exists s1. eexists. split; [repeat split|]. split; [exact E|].
  split; [reflexivity|]. destruct Hup as (_ & _ & _ & _ & Hdev). apply Hdev.
Qed.

(** X26: [display_init] uses [selector.out_mode_props] whenever the walk
    returns true.  With a negative [vulkan-display-display] the walk returns
    true without having stored a mode, and [display_init], Vulkan being up,
    dereferences the null pointer. *)
Theorem display_init_dereferences_null_mode (env : environment)
  (opts : vulkan_display_opts) (st : state) :
  vulkan_comes_up env ->
  (forall dev, reaches_display_loop (describe env dev)
                 (new_selector (opt_display opts) (opt_mode opts) (opt_plane opts))) ->
  opt_display opts < 0 ->
  display_init env opts st = Crashes.
Proof.
  intros Hup Hreach Hneg.
  destruct (display_init_reaches_walk env opts st Hup) as (s1 & d & _ & E1 & Ed & Hd).
  unfold display_init.
  rewrite pbind_pmodify.
  rewrite (pbind_run _ _ _ _ _ E1). cbn [negb].
  rewrite pbind_pget. rewrite pbind_ext. rewrite <- Ed.
  destruct (Z.eqb_spec d 0) as [|_]; [contradiction|].
  rewrite (reaches_loop _ _ (Hreach d)).
  rewrite walk_displays_skip by exact Hneg.
  reflexivity.
Qed.

Lemma display_init_dereferences_null_mode_witness :
  display_init (ok_env sample_device) (opts_of (-1) 0 0) initial_state = Crashes.
Proof.
  apply display_init_dereferences_null_mode.
  - unfold vulkan_comes_up. simpl. repeat split; intros; try discriminate;
      unfold PlaceboLog.MSGL_MAX, PlaceboLog.MSGL_STATS, PlaceboLog.MSGL_INFO; lia.
  - intros dev. unfold reaches_display_loop, index_ok, INT_MAX. simpl.
    split; [discriminate|]. repeat split; try lia; discriminate.
  - simpl. lia.
Defined.

Lemma mpvk_uninit_runs (env : environment) (st : state) :
  vk_surface st = 0 \/ vk_vkinst st <> 0 ->
  exists st', mpvk_uninit env st = Returns tt st'.
Proof.
  intros Hs. unfold mpvk_uninit. rewrite pbind_pget.
  assert (E : exists s1,
             (if negb (vk_surface st =? 0)
              then
                if vk_vkinst st =? 0 then abort
                else
                  ext env (VkDestroySurfaceKHR (vk_vkinst st) (vk_surface st)) ;;;;
                  pmodify (destroyed (Surface (vk_surface st))) ;;;;
                  pmodify (set_vk_surface 0)
              else pret tt) st = Returns tt s1).
  { destruct (Z.eqb_spec (vk_surface st) 0) as [E|E]; cbn [negb].
    - eexists. reflexivity.
    - destruct (Z.eqb_spec (vk_vkinst st) 0) as [E'|E'].
      + destruct Hs; contradiction.
      + rewrite pbind_ext, pbind_pmodify. eexists. reflexivity. }
  destruct E as (s1 & E). rewrite (pbind_run _ _ _ _ _ E).
  rewrite pbind_ext, pbind_pmodify, pbind_pmodify, pbind_ext, pbind_pmodify.
  eexists. reflexivity.
Qed.

Lemma display_init_error_runs (env : environment)
  (mode : option VkDisplayModePropertiesKHR) (st : state) :
  vk_surface st = 0 \/ vk_vkinst st <> 0 ->
  exists st', display_init_error env mode st = Returns false st'.
Proof.
  intros Hs. unfold display_init_error, display_uninit.
  destruct (mpvk_uninit_runs env (log_call Ra_vk_ctx_uninit st) Hs) as (s1 & E).
  assert (E' : (ext env Ra_vk_ctx_uninit ;;;; mpvk_uninit env) st = Returns tt s1).
  { rewrite pbind_ext. exact E. }
  rewrite (pbind_run _ _ _ _ _ E').
  destruct mode as [m|]; unfold talloc_free_mode.
  - rewrite pbind_pmodify. eexists. reflexivity.
  - rewrite pbind_pret. eexists. reflexivity.
Qed.

(** X27: the walk duplicates the properties of the selected mode before it
    looks at the planes.  When it then rejects the plane, [display_init]
    jumps to [error] before [mode] is set, so that [talloc_free(mode)] frees
    nothing: [display_init] returns false, everything torn down, with the
    copy still allocated. *)
Theorem display_init_leaks_mode_copy (env : environment)
  (opts : vulkan_display_opts) (st : state) (m : VkDisplayModePropertiesKHR) :
  vulkan_comes_up env ->
  (forall dev,
     walk_display_properties (describe env dev)
       (Some (new_selector (opt_display opts) (opt_mode opts) (opt_plane opts)))
     = Ret (false, Some (set_out_mode_props
                           (new_selector (opt_display opts) (opt_mode opts)
                              (opt_plane opts)) m))) ->
  exists st',
    display_init env opts st = Returns false st' /\
    torn_down st' /\ live st' = live st /\
    mode_copies st' = m :: mode_copies st.
Proof.
  intros Hup Hwalk.
  destruct (display_init_reaches_walk env opts st Hup) as (s1 & d & Hz & E1 & Ed & Hd).
  destruct (mpvk_init_returns _ _ _ _ E1 Hz) as (Hh & Hs & Hm & _).
  unfold display_init.
  rewrite pbind_pmodify.
  rewrite (pbind_run _ _ _ _ _ E1). cbn [negb].
  rewrite pbind_pget. rewrite pbind_ext. rewrite <- Ed.
  destruct (Z.eqb_spec d 0) as [|_]; [contradiction|].
  rewrite (Hwalk d). cbn [out_mode_props set_out_mode_props negb].
  rewrite pbind_pmodify.
  match goal with
  | |- exists st', display_init_error env None ?s = _ /\ _ =>
      destruct (display_init_error_runs env None s (or_introl Hs)) as (st' & E);
      assert (Hh' : holds_over (live st) s) by exact Hh
  end.
  exists st'. split; [exact E|].
  destruct (display_init_error_returns _ _ _ _ _ _ E Hh') as (_ & Ht & Hl & Hc).
  cbn [mode_copies set_mode_copies log_call] in Hc. rewrite Hc, Hm. auto.
Qed.

Lemma display_init_leaks_mode_copy_witness :
  exists st',
    display_init (ok_env sample_device) (opts_of 0 1 1) initial_state
    = Returns false st' /\
    torn_down st' /\ live st' = [Instance 1] /\ mode_copies st' = [mode_720p50].
Proof.
  apply (display_init_leaks_mode_copy (ok_env sample_device) (opts_of 0 1 1)
           initial_state mode_720p50).
  - unfold vulkan_comes_up. simpl. repeat split; intros; try discriminate;
      unfold PlaceboLog.MSGL_MAX, PlaceboLog.MSGL_STATS, PlaceboLog.MSGL_INFO; lia.
  - intros dev. reflexivity.
Defined.

Lemma display_init_failure_tears_down_witness :
  match display_init (no_surface_env sample_device) (opts_of 0 1 0) initial_state with
  | Returns false st' => torn_down st' /\ live st' = [Instance 1]
  | _ => False
  end.
Proof.
  destruct (display_init (no_surface_env sample_device) (opts_of 0 1 0) initial_state)
    as [ok st'| |] eqn:E.
  - assert (Hok : ok = false) by (vm_compute in E; now injection E as <- _).
    subst ok. exact (display_init_failure_tears_down _ _ _ _ E).
  - vm_compute in E. discriminate.
  - vm_compute in E. discriminate.
Defined.


(** X28: a successful [display_init] followed by [display_uninit] is a round
    trip: [display_uninit] runs to its end without failing the assertion of
    [mpvk_uninit], the three pointers are null, the objects alive are those
    there were before [display_init], and no copy of mode properties is
    left. *)
Theorem display_init_then_uninit (env : environment) (opts : vulkan_display_opts)
  (st st1 : state) :
  display_init env opts st = Returns true st1 ->
  exists st2,
    display_uninit env st1 = Returns tt st2 /\
    torn_down st2 /\ live st2 = live st /\ mode_copies st2 = mode_copies st.
Proof.
  intros H. destruct (display_init_returns _ _ _ _ _ H)
    as (dev & m & _ & _ & _ & _ & _ & Hi & Hho & Hm).
  destruct (mpvk_uninit_runs env (log_call Ra_vk_ctx_uninit st1) (or_intror Hi))
    as (st2 & E).
  assert (E' : display_uninit env st1 = Returns tt st2).
  { unfold display_uninit. rewrite pbind_ext. exact E. }
  exists st2. split; [exact E'|].
  destruct (display_uninit_returns _ _ _ _ _ E' Hho) as (Ht & Hl & Hc).
  rewrite Hc, Hm. auto.
Qed.

Lemma display_init_then_uninit_witness :
  match display_init (ok_env sample_device) (opts_of 0 1 0) initial_state with
  | Returns true st1 =>
      exists st2,
        display_uninit (ok_env sample_device) st1 = Returns tt st2 /\
        torn_down st2 /\ live st2 = [Instance 1] /\ mode_copies st2 = []
  | _ => False
  end.
Proof.
  destruct (display_init (ok_env sample_device) (opts_of 0 1 0) initial_state)
    as [ok st1| |] eqn:E.
  - assert (Hok : ok = true) by (vm_compute in E; now injection E as <- _).
    subst ok. exact (display_init_then_uninit _ _ _ _ E).
  - vm_compute in E. discriminate.
  - vm_compute in E. discriminate.
Defined.

(** *** The assertions *)

Tactic Notation "pabort" hyp(H) "as" ident(a) ident(s) ident(E) :=
  apply pbind_aborts in H; destruct H as [H|(a & s & E & H)].

Lemma mppl_ctx_create_aborts (env : environment) (st : state) :
  mppl_ctx_create env st = Aborts ->
  res (answers env (trace st) Mp_log_new) = 0.
Proof.
  unfold mppl_ctx_create. intros H.
  pabort H as l s E; [discriminate|]. unfold ext in E. injection E as <- <-.
  destruct (Z.eqb_spec (res (answers env (trace st) Mp_log_new)) 0) as [E|_];
    [exact E|].
  pabort H as lev s E; [discriminate|]. pcalled E.
  destruct (PlaceboLog.requested_level _); [|discriminate].
  pabort H as c s E; [discriminate|]. pcalled E.
  pbranch H.
  - pabort H as u s E; discriminate.
  - pabort H as u s E; discriminate.
Qed.

(** [mpvk_uninit] fails its assertion only on a context with a surface and
    no instance. *)
Lemma mpvk_uninit_aborts (env : environment) (st : state) :
  mpvk_uninit env st = Aborts -> vk_surface st <> 0 /\ vk_vkinst st = 0.
Proof.
  intros H.
  destruct (Z.eq_dec (vk_surface st) 0) as [Es|Es].
  { destruct (mpvk_uninit_runs env st (or_introl Es)) as (s' & E).
    rewrite E in H. discriminate. }
  destruct (Z.eq_dec (vk_vkinst st) 0) as [Ei|Ei]; [auto|].
  destruct (mpvk_uninit_runs env st (or_intror Ei)) as (s' & E).
  rewrite E in H. discriminate.
Qed.

Lemma display_init_error_aborts (env : environment)
  (mode : option VkDisplayModePropertiesKHR) (st : state) :
  display_init_error env mode st = Aborts ->
  vk_surface st <> 0 /\ vk_vkinst st = 0.
Proof.
  intros H.
  destruct (Z.eq_dec (vk_surface st) 0) as [Es|Es].
  { destruct (display_init_error_runs env mode st (or_introl Es)) as (s' & E).
    rewrite E in H. discriminate. }
  destruct (Z.eq_dec (vk_vkinst st) 0) as [Ei|Ei]; [auto|].
  destruct (display_init_error_runs env mode st (or_intror Ei)) as (s' & E).
  rewrite E in H. discriminate.
Qed.

Lemma mpvk_init_aborts (env : environment) (st : state) :
  mpvk_init env st = Aborts ->
  torn_down st ->
  res (answers env (trace st) Mp_log_new) = 0.
Proof.
  unfold mpvk_init. intros H (Zc & Zi & Zs).
  pabort H as c s1 E1; [now apply mppl_ctx_create_aborts|].
  exfalso.
  destruct (mppl_ctx_create_returns _ _ _ _ E1) as (Ec & Ei & Es & _).
  pabort H as u s2 E2; [discriminate|]. pprim E2.
  pbranch H.
  - pabort H as u1 s3 E3; [|discriminate].
    apply mpvk_uninit_aborts in H. simpl in H. destruct H as [H _].
    rewrite Es in H. contradiction.
  - pabort H as i s3 E3; [discriminate|]. pcalled E3.
    pabort H as u1 s4 E4; [destruct (res i =? 0); discriminate|].
    pabort H as u2 s5 E5; [discriminate|]. pprim E5.
    assert (Hs4 : vk_surface s4 = 0).
    { destruct (res i =? 0); pprim E4; simpl; congruence. }
    pbranch H; [|discriminate].
    pabort H as u3 s6 E6; [|discriminate].
    apply mpvk_uninit_aborts in H. simpl in H. destruct H as [H _].
    contradiction.
Qed.

(** X29: the assertion of [mpvk_uninit], that a context with a surface has
    an instance, holds on every path of [display_init], also on those that
    tear down a half-built context: the only assertion [display_init] can
    fail is the one of [mppl_ctx_create], when [mp_log_new] gives no log. *)
Theorem display_init_only_asserts_the_log (env : environment)
  (opts : vulkan_display_opts) (st : state) :
  display_init env opts st = Aborts ->
  res (answers env (trace st) Mp_log_new) = 0.
Proof.
  unfold display_init. intros H.
  pabort H as u s0 E0; [discriminate|]. pprim E0.
  pabort H as ok s1 E1.
  { apply (mpvk_init_aborts env (zero_priv st) H). repeat split. }
  exfalso.
  destruct (mpvk_init_returns _ _ _ _ E1) as (_ & Hs & _ & Hok); [repeat split|].
  destruct ok; simpl in H.
  2:{ apply display_init_error_aborts in H. destruct H as [H _]. contradiction. }
  destruct Hok as [_ Hinst].
  pabort H as g s2 E2; [discriminate|]. pprim E2.
  pabort H as d s3 E3; [discriminate|]. pcalled E3.
  pbranch H.
  { apply display_init_error_aborts in H. destruct H as [H _]. contradiction. }
  destruct (walk_display_properties _ _) as [[found selector]|]; [|discriminate].
  pabort H as u1 s4 E4.
  { destruct selector as [s'|]; [destruct (out_mode_props s')|]; discriminate. }
  assert (Hs4 : vk_surface s4 = 0 /\ vk_vkinst s4 = vk_vkinst s1).
  { destruct selector as [s'|]; [destruct (out_mode_props s')|]; pprim E4; auto. }
  destruct Hs4 as [Hs4 Hi4].
  destruct found; simpl in H.
  2:{ apply display_init_error_aborts in H. destruct H as [H _]. contradiction. }
  destruct (match selector with
            | Some s => out_mode_props s
            | None => None
            end) as [mode|]; [|discriminate].
  pabort H as sf s5 E5; [discriminate|]. pcalled E5.
  pabort H as u2 s6 E6.
  { destruct (res sf =? VK_SUCCESS); [|discriminate].
    pabort H as u3 s7 E7; [discriminate|]. pprim E7.
    destruct (out1 sf =? 0); discriminate. }
  assert (Hs6 : vk_vkinst s6 = vk_vkinst s1 /\
                ((res sf =? VK_SUCCESS) = false -> vk_surface s6 = 0)).
  { destruct (res sf =? VK_SUCCESS).
    - pstep E6 as u3 s7 E7. pprim E7.
      destruct (out1 sf =? 0); pprim E6; simpl; split; auto; discriminate.
    - pprim E6. simpl. auto. }
  destruct Hs6 as [Hi6 Hsf].
  destruct (res sf =? VK_SUCCESS); simpl in H.
  2:{ apply display_init_error_aborts in H. destruct H as [H _].
      apply H. now apply Hsf. }
  pabort H as u4 s8 E8; [discriminate|]. pprim E8.
  pabort H as r s9 E9; [discriminate|]. pcalled E9.
  pbranch H.
  - apply display_init_error_aborts in H. destruct H as [_ H]. simpl in H.
    rewrite Hi6 in H. contradiction.
  - pabort H as u5 s10 E10; discriminate.
Qed.

Lemma display_init_only_asserts_the_log_witness :
  res (answers (no_log_env sample_device) (trace initial_state) Mp_log_new) = 0.
Proof.
  apply (display_init_only_asserts_the_log (no_log_env sample_device)
           (opts_of 0 0 0) initial_state).
  reflexivity.
Defined.

End DisplayInitFacts.

(** ** [display_wait_events] *)

Module DisplayEventsFacts.

Import DisplayEvents.

(** X30: with the VT switcher active and a deadline whose distance from now
    is representable, [display_wait_events] polls with a timeout between 0
    and 10000 ms: 0 when the deadline is less than half a millisecond away
    or has passed, the distance rounded to the nearest millisecond (within
    500 us) up to ten seconds, and 10000 beyond. *)
Theorem display_wait_events_timeout (until_time_us now : Z) :
  INT64_MIN <= until_time_us - now <= INT64_MAX - 500 ->
  exists t,
    display_wait_events true until_time_us now = Ret (Vt_switcher_poll t) /\
    0 <= t <= 10000 /\
    (until_time_us - now < 500 -> t = 0) /\
    (0 <= until_time_us - now <= 10000000 ->
     -500 <= until_time_us - now - 1000 * t < 500) /\
    (10000000 <= until_time_us - now -> t = 10000).
Proof.
  unfold INT64_MIN, INT64_MAX. intros Hr.
  unfold display_wait_events, sub64, add64, INT64_MIN, INT64_MAX.
  set (wt := until_time_us - now) in *.
  destruct (Z.leb_spec (-9223372036854775808) wt); [|lia].
  destruct (Z.leb_spec wt 9223372036854775807); [|lia].
  cbn [andb obind].
  destruct (Z.leb_spec (-9223372036854775808) (wt + 500)); [|lia].
  destruct (Z.leb_spec (wt + 500) 9223372036854775807); [|lia].
  cbn [andb obind].
  eexists. split; [reflexivity|].
  unfold MPCLAMP.
  destruct (Z.le_gt_cases 0 (wt + 500)) as [Hpos|Hneg].
  - rewrite Z.quot_div_nonneg by lia.
    pose proof (Z.div_mod (wt + 500) 1000 ltac:(lia)) as Hdm.
    pose proof (Z.mod_pos_bound (wt + 500) 1000 ltac:(lia)) as Hmb.
    destruct (Z.ltb_spec ((wt + 500) / 1000) 0);
      destruct (Z.gtb_spec ((wt + 500) / 1000) 10000); lia.
  - assert (Hq : Z.quot (wt + 500) 1000 <= 0).
    { apply Z.quot_le_upper_bound; lia. }
    destruct (Z.ltb_spec (Z.quot (wt + 500) 1000) 0);
      destruct (Z.gtb_spec (Z.quot (wt + 500) 1000) 10000); lia.
Qed.

Lemma display_wait_events_timeout_witness :
  exists t,
    display_wait_events true 2001499 1000000 = Ret (Vt_switcher_poll t) /\
    0 <= t <= 10000 /\
    (2001499 - 1000000 < 500 -> t = 0) /\
    (0 <= 2001499 - 1000000 <= 10000000 ->
     -500 <= 2001499 - 1000000 - 1000 * t < 500) /\
    (10000000 <= 2001499 - 1000000 -> t = 10000).
Proof.
  apply (display_wait_events_timeout 2001499 1000000).
  unfold INT64_MIN, INT64_MAX. lia.
Defined.

End DisplayEventsFacts.
